(** * DirectBridge: robot/UI bridge of WebDashboard (back/direct_bridge.py)

    A shallow embedding of the dispatcher of [back/direct_bridge.py] and of
    [back/connection_manager.py]: the frame normalizer, the pose estimator,
    the alias registry and command relay, the subscription router, the
    firmware staging buffer with the OTA server, the PID config loader, the
    log sink and the frame loop of a robot session.

    Conventions.
    - Values that come out of [json.loads] are terms of [json]; a Python
      [dict] is an insertion-ordered association list with distinct keys,
      or a [gmap] where the order of iteration is not observed.
    - Python [float] is IEEE binary64, here Rocq's primitive [float];
      Python [int] is [Z]; a [str] is a string of 8-bit characters.
    - A Python exception is the [Raise] branch of [result].  Where the source
      mutates an object before it raises, the functions return the mutated
      state next to the result.
    - [time.time()], [math.cos], [math.sin], [str()], [json.dumps], [int()],
      [float()], [os.path.join] and [base64.b64decode] belong to the
      interpreter; they are inputs of the functions that call them.
    - The fields [robot_ip], [robot_alias], [type], [filename] and [data] of
      a UI command are read as a string, or [None] when absent; robot frames
      and the fields [payload], [limit] and [filesize] are arbitrary JSON.
    - A handler of a UI command or of a robot frame runs to its end before
      the next one starts.  The handlers of the OTA server are tasks that
      the event loop interleaves where they await ([OTAConnection.run]);
      [OTAConnection.serve] is the schedule without overlap.
    - Whether [open(path, "wb")] succeeds is an input, like the sockets'
      errors; the messages of the [logging] module are not modelled. *)

From Stdlib Require Import ZArith Floats String Ascii List Bool Lia.
From stdpp Require Import base option gmap strings list pretty.

Import ListNotations.
Local Open Scope string_scope.
Local Open Scope list_scope.

(** ** Python exceptions and results *)

Inductive exn : Type :=
| TypeError
| KeyError
| ValueError
| AttributeError
| IndexError
| OverflowError
| OSError.

Inductive result (A : Type) : Type :=
| Ok (a : A)
| Raise (e : exn).

Arguments Ok {A} a.
Arguments Raise {A} e.

#[export] Instance result_ret : MRet result := fun A a => Ok a.

#[export] Instance result_bind : MBind result := fun A B k r =>
  match r with
  | Ok a => k a
  | Raise e => Raise e
  end.

(** ** JSON values, as [json.loads] yields them *)

#[warnings="-register-all"]
Inductive json : Type :=
| JNull
| JBool (b : bool)
| JInt (z : Z)
| JFloat (f : float)
| JStr (s : string)
| JArr (l : list json)
| JObj (d : list (string * json)).

(** A Python dict with keys of type [K]: insertion-ordered, distinct keys. *)
Section PyDict.
Context {K V : Type} `{EqDecision K}.

Fixpoint dict_get (k : K) (d : list (K * V)) : option V :=
  match d with
  | [] => None
  | (k', v) :: d' => if decide (k = k') then Some v else dict_get k d'
  end.

Definition dict_has (k : K) (d : list (K * V)) : bool :=
  match dict_get k d with Some _ => true | None => false end.

(** [d[k] = v]: overwrite in place, or append a new key at the end. *)
Fixpoint dict_set (k : K) (v : V) (d : list (K * V)) : list (K * V) :=
  match d with
  | [] => [(k, v)]
  | (k', v') :: d' =>
      if decide (k = k') then (k, v) :: d' else (k', v') :: dict_set k v d'
  end.

(** [del d[k]] *)
Fixpoint dict_del (k : K) (d : list (K * V)) : list (K * V) :=
  match d with
  | [] => []
  | (k', v') :: d' =>
      if decide (k = k') then d' else (k', v') :: dict_del k d'
  end.
End PyDict.

Abbreviation pyobj := (list (string * json)).

(** [d.get(k)]: [None] (JSON null) when the key is absent. *)
Definition py_get (k : string) (d : pyobj) : json :=
  match dict_get k d with Some v => v | None => JNull end.

(** [d.get(k, default)] *)
Definition py_get_default (k : string) (d : pyobj) (default : json) : json :=
  match dict_get k d with Some v => v | None => default end.

(** Truth value of a Python object. *)
Definition truthy (v : json) : bool :=
  match v with
  | JNull => false
  | JBool b => b
  | JInt z => negb (z =? 0)%Z
  | JFloat f => negb (f =? 0)%float
  | JStr s => negb (String.eqb s "")
  | JArr l => match l with [] => false | _ => true end
  | JObj d => match d with [] => false | _ => true end
  end.

(** [v == s] for a string literal [s]. *)
Definition py_eq_str (v : json) (s : string) : bool :=
  match v with JStr s' => String.eqb s' s | _ => false end.

(** [a or b] *)
Definition py_or (a b : json) : json := if truthy a then a else b.

Definition is_list (v : json) : bool :=
  match v with JArr _ => true | _ => false end.

(** [sub in s] on strings. *)
Fixpoint is_substring (sub s : string) : bool :=
  String.prefix sub s ||
  match s with
  | EmptyString => false
  | String _ s' => is_substring sub s'
  end.

(** [s in container] for a string [s]; numbers, booleans and [None] are not
    containers and make [in] raise [TypeError]. *)
Definition py_in_str (s : string) (container : json) : result bool :=
  match container with
  | JObj d => Ok (dict_has s d)
  | JArr l => Ok (existsb (fun v => py_eq_str v s) l)
  | JStr s' => Ok (is_substring s s')
  | _ => Raise TypeError
  end.

(** [len(v)] *)
Definition py_len (v : json) : result nat :=
  match v with
  | JStr s => Ok (String.length s)
  | JArr l => Ok (length l)
  | JObj d => Ok (length d)
  | _ => Raise TypeError
  end.

(** * Frame normalizer: [transform_robot_message] *)

Section Normalizer.
(** [str(v)] for a value that is not a string. *)
Variable py_str : json -> string.

(** What [f"{v}"] prints. *)
Definition py_format (v : json) : string :=
  match v with JStr s => s | _ => py_str v end.

(** [if robot_reported_id: payload[key] = robot_reported_id] *)
Definition set_reported_id (key : string) (robot_reported_id : json)
    (payload : pyobj) : pyobj :=
  if truthy robot_reported_id then dict_set key robot_reported_id payload
  else payload.

(** [now] is the value of [time.time()]. *)
Definition transform_robot_message (now : float) (message_dict : pyobj)
    : result pyobj :=
  let transformed_payload : pyobj :=
    [ ("robot_ip", JStr "PENDING_IP");
      ("robot_alias", JStr "PENDING_ALIAS");
      ("timestamp", py_get_default "timestamp" message_dict (JFloat now)) ] in
  let original_type := py_get "type" message_dict in
  let robot_reported_id := py_get "id" message_dict in
  let imu_data_content : option pyobj :=
    (* original_type == "bno055" and "data" in message_dict
       and isinstance(message_dict["data"], dict) *)
    if py_eq_str original_type "bno055" then
      match dict_get "data" message_dict with
      | Some (JObj content) => Some content
      | _ => None
      end
    else None in
  if imu_data_content is Some imu_data_content then
    let data : pyobj :=
      [ ("time", py_get "time" imu_data_content);
        ("euler", py_get "euler" imu_data_content);
        ("quaternion", py_get "quaternion" imu_data_content) ] in
    let data := set_reported_id "robot_reported_id" robot_reported_id data in
    Ok (dict_set "data" (JObj data)
          (dict_set "type" (JStr "imu_data") transformed_payload))
  else if py_eq_str original_type "encoder" && dict_has "data" message_dict
          && is_list (py_get "data" message_dict) then
    Ok (set_reported_id "robot_reported_id" robot_reported_id
          (dict_set "data" (py_get "data" message_dict)
             (dict_set "type" (JStr "encoder_data") transformed_payload)))
  else if py_eq_str original_type "log" then
    Ok (set_reported_id "robot_reported_id" robot_reported_id
          (dict_set "level" (py_get_default "level" message_dict (JStr "debug"))
             (dict_set "message" (py_get "message" message_dict)
                (dict_set "type" (JStr "log") transformed_payload))))
  else if py_eq_str original_type "registration"
          && dict_has "capabilities" message_dict then
    let data : pyobj :=
      [ ("capabilities", py_get "capabilities" message_dict);
        ("robot_reported_id",
          py_or (py_get "robot_id" message_dict) robot_reported_id) ] in
    let payload :=
      dict_set "data" (JObj data)
        (dict_set "type" (JStr "registration") transformed_payload) in
    if dict_has "robot_id" message_dict then
      Ok (dict_set "robot_reported_id_explicit"
            (py_get "robot_id" message_dict) payload)
    else if truthy robot_reported_id then
      (* "robot_id" not in message_dict.get("data", {}) *)
      found ← py_in_str "robot_id"
                 (py_get_default "data" message_dict (JObj []));
      if negb found then
        Ok (dict_set "robot_reported_id_explicit" robot_reported_id payload)
      else Ok payload
    else Ok payload
  else if truthy original_type then
    Ok (dict_set "data" (JObj message_dict)
          (dict_set "type" (JStr ("generic_" +:+ py_format original_type))
             transformed_payload))
  else
    Ok (dict_set "data" (JObj message_dict)
          (dict_set "type" (JStr "unknown_json_data") transformed_payload)).

(** The six values the [type] of an envelope can take. *)
Definition envelope_type (message_dict : pyobj) (t : json) : Prop :=
  t = JStr "imu_data" \/ t = JStr "encoder_data" \/ t = JStr "log"
  \/ t = JStr "registration"
  \/ t = JStr ("generic_" +:+ py_format (py_get "type" message_dict))
  \/ t = JStr "unknown_json_data".

(** An envelope under construction: the three stamped keys, and [type]
    bound to [t]. *)
Definition has_core (t : json) (d : pyobj) : Prop :=
  dict_has "robot_ip" d = true /\ dict_has "robot_alias" d = true
  /\ dict_has "timestamp" d = true /\ dict_get "type" d = Some t.

(** The shape of a returned envelope. *)
Definition envelope_ok (message_dict : pyobj) (e : pyobj) : Prop :=
  exists t, has_core t e /\ envelope_type message_dict t.
End Normalizer.

(** * Python numbers *)

(** A Python number: [int] or [float]. *)
Inductive num : Type :=
| NInt (z : Z)
| NFloat (f : float).

(** Numeric reading of a value; [bool] is a subclass of [int].  [None] here
    stands for the [TypeError] of the arithmetic operator. *)
Definition as_num (v : json) : option num :=
  match v with
  | JInt z => Some (NInt z)
  | JFloat f => Some (NFloat f)
  | JBool b => Some (NInt (Z.b2z b))
  | _ => None
  end.

(** [float(z)] for an [int]: correctly rounded, to nearest even. *)
Definition float_of_Z (z : Z) : float :=
  SF2Prim (binary_normalize prec emax z 0 false).

(** Conversion of an operand to [float]; an [int] beyond the binary64 range
    raises [OverflowError]. *)
Definition to_float (n : num) : result float :=
  match n with
  | NFloat f => Ok f
  | NInt z =>
      let f := float_of_Z z in
      if is_infinity f then Raise OverflowError else Ok f
  end.

(** [a - b] *)
Definition py_sub (a b : json) : result num :=
  match as_num a, as_num b with
  | Some (NInt za), Some (NInt zb) => Ok (NInt (za - zb))
  | Some na, Some nb =>
      fa ← to_float na; fb ← to_float nb; Ok (NFloat (fa - fb)%float)
  | _, _ => Raise TypeError
  end.

(** [n <= 0] *)
Definition num_le0 (n : num) : bool :=
  match n with
  | NInt z => (z <=? 0)%Z
  | NFloat f => (f <=? 0)%float
  end.

(** [f * n] for a float [f] *)
Definition float_mul_num (f : float) (n : num) : result float :=
  fn ← to_float n; Ok (f * fn)%float.

(** [n * f] for a float [f] *)
Definition num_mul_float (n : num) (f : float) : result float :=
  fn ← to_float n; Ok (fn * f)%float.

(** [v[i]] *)
Definition py_index (i : nat) (v : json) : result json :=
  match v with
  | JArr l => match nth_error l i with Some e => Ok e | None => Raise IndexError end
  | JStr s =>
      match String.get i s with
      | Some c => Ok (JStr (String c EmptyString))
      | None => Raise IndexError
      end
  | JObj _ => Raise KeyError
  | _ => Raise TypeError
  end.

(** * Pose estimator: [TrajectoryCalculator] *)

Module TrajectoryCalculator.

Definition MAX_TRAJECTORY_POINTS_DEFAULT : nat := 1000.
(** [0.0325] as binary64 *)
Definition WHEEL_RADIUS_DEFAULT : float := 0x1.0a3d70a3d70a4p-5%float.
(** [math.pi] *)
Definition math_pi : float := 0x1.921fb54442d18p+1%float.
Definition max_data_age : float := 5%float.

(** A pose [{"x": .., "y": .., "theta": ..}]. *)
Record pose : Type := mk_pose {
  pose_x : float;
  pose_y : float;
  pose_theta : json
}.

(** The returned [{"position": .., "path": ..}]. *)
Record trajectory : Type := mk_trajectory {
  position : pose;
  path : list pose
}.

(** One entry of [self.robot_data].  [theta] and [last_timestamp_encoder]
    hold whatever the frames carried; [None] is [JNull]. *)
Record robot_state : Type := mk_robot_state {
  x : float;
  y : float;
  theta : json;
  last_timestamp_encoder : json;
  path_history : list pose;
  latest_imu_data : option pyobj;
  latest_encoder_data : option pyobj;
  last_imu_timestamp : option float;
  last_encoder_timestamp : option float
}.

Definition fresh_state : robot_state :=
  {| x := 0%float; y := 0%float; theta := JFloat 0%float;
     last_timestamp_encoder := JNull;
     path_history := [];
     latest_imu_data := None;
     latest_encoder_data := None;
     last_imu_timestamp := None;
     last_encoder_timestamp := None |}.

Definition set_theta (v : json) (st : robot_state) : robot_state :=
  mk_robot_state (x st) (y st) v (last_timestamp_encoder st) (path_history st)
    (latest_imu_data st) (latest_encoder_data st)
    (last_imu_timestamp st) (last_encoder_timestamp st).

Definition set_last_timestamp_encoder (v : json) (st : robot_state) : robot_state :=
  mk_robot_state (x st) (y st) (theta st) v (path_history st)
    (latest_imu_data st) (latest_encoder_data st)
    (last_imu_timestamp st) (last_encoder_timestamp st).

Definition set_xy (x' y' : float) (st : robot_state) : robot_state :=
  mk_robot_state x' y' (theta st) (last_timestamp_encoder st) (path_history st)
    (latest_imu_data st) (latest_encoder_data st)
    (last_imu_timestamp st) (last_encoder_timestamp st).

Definition set_path_history (p : list pose) (st : robot_state) : robot_state :=
  mk_robot_state (x st) (y st) (theta st) (last_timestamp_encoder st) p
    (latest_imu_data st) (latest_encoder_data st)
    (last_imu_timestamp st) (last_encoder_timestamp st).

Definition set_latest_imu (d : pyobj) (t : float) (st : robot_state) : robot_state :=
  mk_robot_state (x st) (y st) (theta st) (last_timestamp_encoder st)
    (path_history st) (Some d) (latest_encoder_data st)
    (Some t) (last_encoder_timestamp st).

Definition set_latest_encoder (d : pyobj) (t : float) (st : robot_state) : robot_state :=
  mk_robot_state (x st) (y st) (theta st) (last_timestamp_encoder st)
    (path_history st) (latest_imu_data st) (Some d)
    (last_imu_timestamp st) (Some t).

Definition current_pose (st : robot_state) : pose :=
  mk_pose (x st) (y st) (theta st).

(** [{"position": current_pose, "path": list(path_history)}] *)
Definition snapshot (st : robot_state) : trajectory :=
  mk_trajectory (current_pose st) (path_history st).

(** Truth value of [latest_imu_data] / [latest_encoder_data]: [None] and
    the empty dict are false. *)
Definition data_present (d : option pyobj) : bool :=
  match d with
  | Some (_ :: _) => true
  | _ => false
  end.

(** [current_time - ts if ts else float('inf')] *)
Definition data_age (current_time : float) (ts : option float) : float :=
  match ts with
  | Some t => if negb (t =? 0)%float then (current_time - t)%float else infinity
  | None => infinity
  end.

(** [age > max_data_age] *)
Definition too_old (age : float) : bool := (max_data_age <? age)%float.

(** Data stored at [ts] is within the freshness window at [now]. *)
Definition within_window (now ts : float) : Prop :=
  too_old (data_age now (Some ts)) = false.

(** The yaw of an IMU payload: [data["yaw"]], else [data["euler"][2]] when
    [euler] has length 3, else [fallback]. *)
Definition imu_yaw (imu_data : pyobj) (fallback : json) : result json :=
  if dict_has "yaw" imu_data then Ok (py_get "yaw" imu_data)
  else if dict_has "euler" imu_data then
    n ← py_len (py_get "euler" imu_data);
    if Nat.eqb n 3 then py_index 2 (py_get "euler" imu_data) else Ok fallback
  else Ok fallback.

(** [rpm * (2 * math.pi) / 60.0] *)
Definition _rpm_to_omega (rpm : json) : result float :=
  match as_num rpm with
  | Some n =>
      f ← num_mul_float n (2 * math_pi)%float;
      Ok (f / 60)%float
  | None => Raise TypeError
  end.

(** [path_history.append(p)], then the cap:
    [path_history = path_history[-MAX_TRAJECTORY_POINTS_DEFAULT:]]. *)
Definition append_capped (p : pose) (history : list pose) : list pose :=
  let history' := history ++ [p] in
  if Nat.ltb MAX_TRAJECTORY_POINTS_DEFAULT (length history') then
    skipn (length history' - MAX_TRAJECTORY_POINTS_DEFAULT) history'
  else history'.

(** One update of the path: at most one pose is appended, and what exceeds
    the cap is dropped from the head. *)
Definition path_step (before after : list pose) : Prop :=
  exists new : list pose,
    length new <= 1
    /\ after = skipn (length (before ++ new) - MAX_TRAJECTORY_POINTS_DEFAULT)
                 (before ++ new).

(** The position and the path go together: the last point of the path
    is where the robot is, and a robot without a path is at the origin. *)
Definition position_on_path (st : robot_state) : Prop :=
  match last (path_history st) with
  | Some p => pose_x p = x st /\ pose_y p = y st
  | None => x st = 0%float /\ y st = 0%float
  end.

(** ** The pose-seed scenario: an IMU frame with yaw 0, then two encoder
    frames of 60 rpm on each wheel, stamped 100.0 and 101.0 *)

(** The payloads of the scenario. *)
Definition imu_zero : pyobj := [ ("yaw", JFloat 0%float) ].
Definition encoder_at (ts : float) : pyobj :=
  [ ("timestamp", JFloat ts); ("data", JArr [ JInt 60; JInt 60; JInt 60 ]) ].

(** The state after the IMU frame: only the IMU slots are filled. *)
Definition after_imu (t1 : float) : robot_state :=
  set_latest_imu imu_zero t1 (set_theta (JFloat 0%float) fresh_state).

(** The state after the first encoder frame: the timestamp is seeded and
    the path holds the origin. *)
Definition after_seed (t1 t2 : float) : robot_state :=
  mk_robot_state 0%float 0%float (JFloat 0%float) (JFloat 100%float)
    [ mk_pose 0%float 0%float (JFloat 0%float) ]
    (Some imu_zero) (Some (encoder_at 100%float)) (Some t1) (Some t2).

(** The state after the second encoder frame. *)
Definition after_move (t1 t3 : float) : robot_state :=
  mk_robot_state 0x1.a23574d659f88p-3%float 0%float (JFloat 0%float) (JFloat 101%float)
    [ mk_pose 0%float 0%float (JFloat 0%float);
      mk_pose 0x1.a23574d659f88p-3%float 0%float (JFloat 0%float) ]
    (Some imu_zero) (Some (encoder_at 101%float)) (Some t1) (Some t3).

Section Libm.
(** [math.cos] and [math.sin] on finite arguments and NaN. *)
Variables libm_cos libm_sin : float -> float.

(** [math.cos(v)]: [TypeError] on a non-number, [OverflowError] on an
    [int] out of range, [ValueError] on an infinity. *)
Definition math_trig (fn : float -> float) (v : json) : result float :=
  match as_num v with
  | Some n =>
      f ← to_float n;
      if is_infinity f then Raise ValueError else Ok (fn f)
  | None => Raise TypeError
  end.

(** The kinematic step: the new [(x, y)] after [dt]. *)
Definition integrate (st : robot_state) (r1 r2 r3 : json) (dt : num)
    : result (float * float) :=
  omega_m1 ← _rpm_to_omega r1;
  omega_m2 ← _rpm_to_omega r2;
  omega_m3 ← _rpm_to_omega r3;
  let vx_robot :=
    (WHEEL_RADIUS_DEFAULT * (omega_m1 + omega_m2 + omega_m3) / 3)%float in
  let vy_robot := 0%float in
  cos_h ← math_trig libm_cos (theta st);
  sin_h ← math_trig libm_sin (theta st);
  let vx_world := (vx_robot * cos_h - vy_robot * sin_h)%float in
  let vy_world := (vx_robot * sin_h + vy_robot * cos_h)%float in
  dx ← float_mul_num vx_world dt;
  dy ← float_mul_num vy_world dt;
  Ok ((x st + dx)%float, (y st + dy)%float).

(** [_try_calculate_trajectory]; [current_time] is its [time.time()].
    The state returned is the state the call leaves behind, also when
    it raises. *)
Definition _try_calculate_trajectory (current_time : float) (st : robot_state)
    : robot_state * result (option trajectory) :=
  match latest_imu_data st, latest_encoder_data st with
  | Some ((_ :: _) as imu_data), Some ((_ :: _) as encoder_data) =>
      let imu_age := data_age current_time (last_imu_timestamp st) in
      let encoder_age := data_age current_time (last_encoder_timestamp st) in
      if too_old imu_age || too_old encoder_age
      then (st, Ok (Some (snapshot st)))
      else
        let timestamp_encoder :=
          py_get_default "timestamp" encoder_data (JFloat current_time) in
        let rpms :=
          py_get_default "data" encoder_data
            (py_get_default "encoders" encoder_data (JArr [])) in
        match rpms with
        | JArr [r1; r2; r3] =>
            match imu_yaw imu_data (theta st) with
            | Raise e => (st, Raise e)
            | Ok current_heading_rad =>
                match last_timestamp_encoder st with
                | JNull =>
                    let st := set_last_timestamp_encoder timestamp_encoder st in
                    let st := set_theta current_heading_rad st in
                    let st :=
                      match path_history st with
                      | [] => set_path_history [current_pose st] st
                      | _ => st
                      end in
                    (st, Ok (Some (snapshot st)))
                | last =>
                    match py_sub timestamp_encoder last with
                    | Raise e => (st, Raise e)
                    | Ok dt =>
                        if num_le0 dt then
                          let st := set_theta current_heading_rad st in
                          (st, Ok (Some (snapshot st)))
                        else
                          let st := set_last_timestamp_encoder timestamp_encoder st in
                          match integrate st r1 r2 r3 dt with
                          | Raise e => (st, Raise e)
                          | Ok (x', y') =>
                              let st := set_xy x' y' st in
                              let st := set_theta current_heading_rad st in
                              let st :=
                                set_path_history
                                  (append_capped (current_pose st) (path_history st))
                                  st in
                              (st, Ok (Some (snapshot st)))
                          end
                    end
                end
            end
        | _ => (st, Ok (Some (snapshot st)))
        end
  | imu_data, encoder_data =>
      if data_present imu_data || data_present encoder_data
      then (st, Ok (Some (snapshot st)))
      else (st, Ok None)
  end.

(** [self.robot_data], keyed by the unique robot key ["ip:port"]. *)
Definition _ensure_robot_data (unique_robot_key : string)
    (robot_data : gmap string robot_state) : gmap string robot_state :=
  match robot_data !! unique_robot_key with
  | Some _ => robot_data
  | None => <[unique_robot_key := fresh_state]> robot_data
  end.

Definition get_state (unique_robot_key : string)
    (robot_data : gmap string robot_state) : robot_state :=
  default fresh_state (robot_data !! unique_robot_key).

(** [update_imu_data]; [current_time] is the clock read by the method,
    [calc_time] the clock read by [_try_calculate_trajectory]. *)
Definition update_imu_data (unique_robot_key : string) (imu_data : pyobj)
    (current_time calc_time : float) (robot_data : gmap string robot_state)
    : gmap string robot_state * result (option trajectory) :=
  let robot_data := _ensure_robot_data unique_robot_key robot_data in
  let st := get_state unique_robot_key robot_data in
  match imu_yaw imu_data JNull with
  | Raise e => (robot_data, Raise e)
  | Ok yaw =>
      let st := match yaw with JNull => st | _ => set_theta yaw st end in
      let st := set_latest_imu imu_data current_time st in
      let (st, r) := _try_calculate_trajectory calc_time st in
      (<[unique_robot_key := st]> robot_data, r)
  end.

(** [update_encoder_data], with the same two clock readings. *)
Definition update_encoder_data (unique_robot_key : string) (encoder_data : pyobj)
    (current_time calc_time : float) (robot_data : gmap string robot_state)
    : gmap string robot_state * result (option trajectory) :=
  let robot_data := _ensure_robot_data unique_robot_key robot_data in
  let st := get_state unique_robot_key robot_data in
  let st := set_latest_encoder encoder_data current_time st in
  let (st, r) := _try_calculate_trajectory calc_time st in
  (<[unique_robot_key := st]> robot_data, r).

(** A call on the calculator, as the session handler issues them. *)
Inductive call : Type :=
| UpdateImu (unique_robot_key : string) (imu_data : pyobj)
    (current_time calc_time : float)
| UpdateEncoder (unique_robot_key : string) (encoder_data : pyobj)
    (current_time calc_time : float).

Definition run_call (c : call) (robot_data : gmap string robot_state)
    : gmap string robot_state * result (option trajectory) :=
  match c with
  | UpdateImu k d t1 t2 => update_imu_data k d t1 t2 robot_data
  | UpdateEncoder k d t1 t2 => update_encoder_data k d t1 t2 robot_data
  end.

(** The calculator after a sequence of calls, from [robot_data = {}];
    a call that raises leaves the state it had reached. *)
Definition run_calls (calls : list call) : gmap string robot_state :=
  fold_left (fun robot_data c => fst (run_call c robot_data)) calls ∅.
End Libm.
End TrajectoryCalculator.

(** * Python strings *)

(** [s.split(sep, 1)] as a pair, when [sep] occurs in [s]. *)
Fixpoint split_once (sep : ascii) (s : string) : option (string * string) :=
  match s with
  | EmptyString => None
  | String c s' =>
      if Ascii.eqb c sep then Some (EmptyString, s')
      else match split_once sep s' with
           | Some (a, b) => Some (String c a, b)
           | None => None
           end
  end.

(** [s.split(sep)] for a one-character separator. *)
Fixpoint py_split (sep : ascii) (s : string) : list string :=
  match s with
  | EmptyString => [EmptyString]
  | String c s' =>
      if Ascii.eqb c sep then EmptyString :: py_split sep s'
      else match py_split sep s' with
           | part :: parts => String c part :: parts
           | [] => [String c EmptyString]
           end
  end.

(** What [f"{v}"] prints for a field that is a string or [None]. *)
Definition fmt (o : option string) : string := default "None" o.

(** Truth value of a field that is a string or [None]. *)
Definition str_truthy (o : option string) : bool :=
  match o with
  | Some s => negb (String.eqb s "")
  | None => false
  end.

(** The string of a field that is true as a Python value. *)
Definition nonempty (o : option string) : option string :=
  match o with
  | Some s => if String.eqb s "" then None else Some s
  | None => None
  end.

Definition json_of_field (o : option string) : json :=
  match o with Some s => JStr s | None => JNull end.

(** * Connection manager (back/connection_manager.py) *)

Module ConnectionManager.

(** A TCP session [(reader, writer)], named by a socket number. *)
Definition tcp_client : Type := nat.

Definition normalize_robot_id (robot_id : string) : string :=
  match split_once "/" robot_id with
  | Some (part0, part1) => part0 +:+ "_" +:+ part1
  | None => robot_id
  end.

(** [cls._tcp_clients[robot_id] = tcp_client].  The address maps that
    [set_tcp_client] and [remove_tcp_client] also maintain are not read by
    [get_tcp_client]. *)
Definition set_tcp_client (robot_id : string) (client : tcp_client)
    (_tcp_clients : gmap string tcp_client) : gmap string tcp_client :=
  <[robot_id := client]> _tcp_clients.

Definition remove_tcp_client (robot_id : string)
    (_tcp_clients : gmap string tcp_client) : gmap string tcp_client :=
  delete robot_id _tcp_clients.

Definition get_tcp_client (robot_id : string)
    (_tcp_clients : gmap string tcp_client) : option tcp_client :=
  _tcp_clients !! normalize_robot_id robot_id.

End ConnectionManager.

(** ** The whole class: the four class-level dicts

    [ConnectionManager] above is the [_tcp_clients] part; here the methods
    act on all four dicts.  The two address dicts are association lists:
    the lookups by IP alone return the first entry in insertion order. *)

Module Connections.
Import ConnectionManager.

(** A UI websocket, named by a socket number; a peer address [(ip, port)]. *)
Definition websocket : Type := nat.
Definition addr : Type := string * nat.

Record connections : Type := mk_connections {
  _tcp_clients : gmap string tcp_client;
  _websockets : gmap string (list websocket);
  _addr_to_robot : list (addr * string);
  _robot_to_addr : list (string * addr)
}.

Definition no_connections : connections := mk_connections ∅ ∅ [] [].

Definition add_websocket (robot_id : string) (ws : websocket) (s : connections)
    : connections :=
  let robot_id := normalize_robot_id robot_id in
  let sockets := default [] (_websockets s !! robot_id) in
  mk_connections (_tcp_clients s)
    (<[robot_id := if bool_decide (ws ∈ sockets) then sockets
                   else sockets ++ [ws]]> (_websockets s))
    (_addr_to_robot s) (_robot_to_addr s).

(** [l.remove(ws)]: the first occurrence. *)
Fixpoint list_remove (ws : websocket) (l : list websocket) : list websocket :=
  match l with
  | [] => []
  | w :: l' => if decide (ws = w) then l' else w :: list_remove ws l'
  end.

Definition remove_websocket (robot_id : string) (ws : websocket)
    (s : connections) : connections :=
  let robot_id := normalize_robot_id robot_id in
  match _websockets s !! robot_id with
  | Some sockets =>
      if bool_decide (ws ∈ sockets) then
        mk_connections (_tcp_clients s)
          (<[robot_id := list_remove ws sockets]> (_websockets s))
          (_addr_to_robot s) (_robot_to_addr s)
      else s
  | None => s
  end.

(** [client_addr] is [None] when the argument is left out. *)
Definition set_tcp_client (robot_id : string) (client : tcp_client)
    (client_addr : option addr) (s : connections) : connections :=
  let clients := ConnectionManager.set_tcp_client robot_id client (_tcp_clients s) in
  match client_addr with
  | Some a =>
      mk_connections clients (_websockets s)
        (dict_set a robot_id (_addr_to_robot s))
        (dict_set robot_id a (_robot_to_addr s))
  | None =>
      mk_connections clients (_websockets s) (_addr_to_robot s) (_robot_to_addr s)
  end.

Definition remove_tcp_client (robot_id : string) (s : connections) : connections :=
  match _tcp_clients s !! robot_id with
  | Some _ =>
      let clients := ConnectionManager.remove_tcp_client robot_id (_tcp_clients s) in
      match dict_get robot_id (_robot_to_addr s) with
      | Some a =>
          mk_connections clients (_websockets s)
            (if dict_has a (_addr_to_robot s) then dict_del a (_addr_to_robot s)
             else _addr_to_robot s)
            (dict_del robot_id (_robot_to_addr s))
      | None =>
          mk_connections clients (_websockets s) (_addr_to_robot s)
            (_robot_to_addr s)
      end
  | None => s
  end.

Definition get_websockets (robot_id : string) (s : connections) : list websocket :=
  default [] (_websockets s !! normalize_robot_id robot_id).

Definition get_tcp_client (robot_id : string) (s : connections)
    : option tcp_client :=
  ConnectionManager.get_tcp_client robot_id (_tcp_clients s).

(** The [for ... else] over [_addr_to_robot.items()]: the robot of the
    first address with this IP. *)
Definition first_robot_at (ip : string) (s : connections) : option string :=
  match List.find (fun entry : addr * string => bool_decide (fst (fst entry) = ip))
          (_addr_to_robot s) with
  | Some (_, rid) => Some rid
  | None => None
  end.

Definition get_robot_id_by_ip (ip : string) (port : option nat) (s : connections)
    : option string :=
  match port with
  | Some p => dict_get (ip, p) (_addr_to_robot s)
  | None => first_robot_at ip s
  end.

Definition get_tcp_client_by_addr (ip : string) (port : option nat)
    (s : connections) : option tcp_client :=
  match nonempty (get_robot_id_by_ip ip port s) with
  | Some robot_id => _tcp_clients s !! robot_id
  | None => None
  end.

Definition get_ip_by_robot_id (robot_id : string) (s : connections)
    : option string :=
  match dict_get robot_id (_robot_to_addr s) with
  | Some a => Some (fst a)
  | None => None
  end.

Definition get_all_robots_with_ip (s : connections) : list pyobj :=
  map (fun entry : string * addr =>
         let '(robot_id, (ip, port)) := entry in
         [ ("robot_id", JStr robot_id); ("ip", JStr ip);
           ("port", JInt (Z.of_nat port));
           ("connected", JBool (bool_decide (is_Some (_tcp_clients s !! robot_id)))) ])
    (_robot_to_addr s).

(** [{"websocket_count": .., "has_tcp": ..}] for each robot that has a
    websocket list. *)
Definition get_connection_stats (s : connections) : gmap string (nat * bool) :=
  map_imap
    (fun robot_id conn =>
       Some (length conn, bool_decide (is_Some (_tcp_clients s !! robot_id))))
    (_websockets s).

Definition get_addr_by_robot_id (robot_id : string) (s : connections)
    : option addr :=
  dict_get (normalize_robot_id robot_id) (_robot_to_addr s).

(** A call on the class, and the class after a sequence of calls from
    the empty dicts. *)
Inductive call : Type :=
| AddWebsocket (robot_id : string) (ws : websocket)
| RemoveWebsocket (robot_id : string) (ws : websocket)
| SetTcpClient (robot_id : string) (client : tcp_client) (client_addr : option addr)
| RemoveTcpClient (robot_id : string).

Definition run_call (s : connections) (c : call) : connections :=
  match c with
  | AddWebsocket robot_id ws => add_websocket robot_id ws s
  | RemoveWebsocket robot_id ws => remove_websocket robot_id ws s
  | SetTcpClient robot_id client client_addr =>
      set_tcp_client robot_id client client_addr s
  | RemoveTcpClient robot_id => remove_tcp_client robot_id s
  end.

Definition run_calls (calls : list call) : connections :=
  fold_left run_call calls no_connections.

(** What the methods keep true: the address dicts have distinct keys and
    no websocket list holds a socket twice. *)
Definition distinct (s : connections) : Prop :=
  NoDup (_addr_to_robot s).*1
  /\ NoDup (_robot_to_addr s).*1
  /\ forall (robot_id : string) (sockets : list websocket),
       _websockets s !! robot_id = Some sockets -> NoDup sockets.

End Connections.

(** * Alias registry: [robot_alias_manager] *)

Module Registry.

Record robot_alias_manager : Type := mk_manager {
  ip_port_to_alias : list (string * string);
  alias_to_ip_port : list (string * string);
  ip_to_alias : list (string * string);
  alias_to_ip : list (string * string);
  next_robot_number : nat
}.

Definition initial : robot_alias_manager := mk_manager [] [] [] [] 1.

(** [f"{robot_ip_address}:{robot_port}"] *)
Definition unique_key (robot_ip_address : string) (robot_port : nat) : string :=
  robot_ip_address +:+ ":" +:+ pretty robot_port.

(** Alias assignment at the head of [handle_tcp_client]. *)
Definition register (robot_ip_address : string) (robot_port : nat)
    (m : robot_alias_manager) : robot_alias_manager * string :=
  let unique_robot_key := unique_key robot_ip_address robot_port in
  match dict_get unique_robot_key (ip_port_to_alias m) with
  | None =>
      let current_alias := "robot" +:+ pretty (next_robot_number m) in
      let first_for_ip := negb (dict_has robot_ip_address (ip_to_alias m)) in
      (mk_manager
         (dict_set unique_robot_key current_alias (ip_port_to_alias m))
         (dict_set current_alias unique_robot_key (alias_to_ip_port m))
         (if first_for_ip
          then dict_set robot_ip_address current_alias (ip_to_alias m)
          else ip_to_alias m)
         (if first_for_ip
          then dict_set current_alias robot_ip_address (alias_to_ip m)
          else alias_to_ip m)
         (next_robot_number m + 1),
       current_alias)
  | Some current_alias => (m, current_alias)
  end.

(** Alias cleanup in the [finally] block of [handle_tcp_client]. *)
Definition unregister (robot_ip_address : string) (robot_port : nat)
    (m : robot_alias_manager) : robot_alias_manager :=
  let unique_robot_key := unique_key robot_ip_address robot_port in
  match dict_get unique_robot_key (ip_port_to_alias m) with
  | Some alias_being_removed =>
      let primary :=
        bool_decide (dict_get robot_ip_address (ip_to_alias m)
                     = Some alias_being_removed) in
      mk_manager
        (dict_del unique_robot_key (ip_port_to_alias m))
        (if bool_decide (dict_get alias_being_removed (alias_to_ip_port m)
                         = Some unique_robot_key)
         then dict_del alias_being_removed (alias_to_ip_port m)
         else alias_to_ip_port m)
        (if primary then dict_del robot_ip_address (ip_to_alias m)
         else ip_to_alias m)
        (if primary then dict_del alias_being_removed (alias_to_ip m)
         else alias_to_ip m)
        (next_robot_number m)
  | None => m
  end.

(** The robot sessions that come and go: [Connect] is the head of
    [handle_tcp_client] for a peer, [Disconnect] its [finally] block. *)
Inductive event : Type :=
| Connect (robot_ip_address : string) (robot_port : nat)
| Disconnect (robot_ip_address : string) (robot_port : nat).

Definition step (m : robot_alias_manager) (e : event) : robot_alias_manager :=
  match e with
  | Connect robot_ip_address robot_port =>
      fst (register robot_ip_address robot_port m)
  | Disconnect robot_ip_address robot_port =>
      unregister robot_ip_address robot_port m
  end.

(** The registry after a sequence of sessions, from the empty one the
    module starts with. *)
Definition run (events : list event) : robot_alias_manager :=
  fold_left step events initial.

(** What the sessions keep true of the registry: the dicts have distinct
    keys, the forward and the reverse map mirror each other, every alias is
    [robot<n>] for a number already handed out, and every key is an
    [ip:port]. *)
Definition well_formed (m : robot_alias_manager) : Prop :=
  NoDup (ip_port_to_alias m).*1
  /\ NoDup (alias_to_ip_port m).*1
  /\ NoDup (ip_to_alias m).*1
  /\ NoDup (alias_to_ip m).*1
  /\ (forall key alias : string,
        dict_get key (ip_port_to_alias m) = Some alias
        <-> dict_get alias (alias_to_ip_port m) = Some key)
  /\ (forall key alias : string,
        dict_get key (ip_port_to_alias m) = Some alias ->
        (exists n : nat, n < next_robot_number m /\ alias = "robot" +:+ pretty n)
        /\ exists (ip : string) (port : nat), key = unique_key ip port).

End Registry.

(** * Files *)

(** The files the bridge touches: contents by path, and the file objects
    that are open. *)
Record filesystem : Type := mk_filesystem {
  contents : gmap string (list Byte.byte);
  open_files : gset nat;
  next_file : nat
}.

(** [open(path, "wb")]: creates or truncates, returns a new file object;
    [OSError] when the path cannot be opened for writing ([open_ok] says
    which paths can: the directory exists, the name is a legal one, the
    process may write there). *)
Definition fs_open_wb (open_ok : string -> bool) (path : string)
    (fs : filesystem) : result (filesystem * nat) :=
  if open_ok path then
    Ok (mk_filesystem (<[path := []]> (contents fs))
          (open_files fs ∪ {[next_file fs]}) (S (next_file fs)),
        next_file fs)
  else Raise OSError.

(** [f.write(raw)] on the file object of [path]. *)
Definition fs_write (path : string) (raw : list Byte.byte) (fs : filesystem)
    : filesystem :=
  mk_filesystem
    (<[path := default [] (contents fs !! path) ++ raw]> (contents fs))
    (open_files fs) (next_file fs).

(** [f.close()] *)
Definition fs_close (file : nat) (fs : filesystem) : filesystem :=
  mk_filesystem (contents fs) (open_files fs ∖ {[file]}) (next_file fs).

(** [os.remove(path)] *)
Definition fs_remove (path : string) (fs : filesystem) : filesystem :=
  mk_filesystem (delete path (contents fs)) (open_files fs) (next_file fs).

(** [os.path.exists(path)] *)
Definition fs_exists (path : string) (fs : filesystem) : bool :=
  bool_decide (is_Some (contents fs !! path)).

(** * Firmware staging: [FirmwareUploadManager] *)

(** The exact value of a finite binary64 as [m * 2^e]. *)
Definition float_eq_Z (f : float) (n : Z) : bool :=
  match Prim2SF f with
  | S754_zero _ => (n =? 0)%Z
  | S754_finite sign m e =>
      let sm := if sign then Z.neg m else Z.pos m in
      if (0 <=? e)%Z then (n =? sm * 2 ^ e)%Z
      else (n * 2 ^ (- e) =? sm)%Z
  | _ => false
  end.

(** [n == v] for an [int] [n]. *)
Definition py_int_eq (n : Z) (v : json) : bool :=
  match v with
  | JInt z => (n =? z)%Z
  | JBool b => (n =? Z.b2z b)%Z
  | JFloat f => float_eq_Z f n
  | _ => false
  end.

Module FirmwareUploadManager.

(** One entry of [self._uploads]. *)
Record upload : Type := mk_upload {
  file : nat;
  path : string;
  filesize : json;
  received : nat
}.

(** [self._uploads], keyed by the [robot_ip] field (a string or [None]). *)
Abbreviation uploads := (gmap (option string) upload).

Section Manager.
(** [os.path.join] and [base64.b64decode]; the paths [open(path, "wb")]
    can open. *)
Variable os_path_join : string -> string -> string.
Variable b64decode : string -> result (list Byte.byte).
Variable open_ok : string -> bool.

(** [start]; [now] is [int(time.time())].  When [open] raises, no entry
    has been written to [self._uploads]. *)
Definition start (temp_dir : string) (now : Z) (robot_ip filename : option string)
    (filesize : json) (st : uploads * filesystem)
    : uploads * filesystem * result unit :=
  let (_uploads, fs) := st in
  let path :=
    os_path_join temp_dir
      (fmt robot_ip +:+ "_" +:+ pretty now +:+ "_" +:+ fmt filename) in
  match fs_open_wb open_ok path fs with
  | Raise e => (st, Raise e)
  | Ok (fs, f) =>
      (<[robot_ip := mk_upload f path filesize 0]> _uploads, fs, Ok ())
  end.

(** [add_chunk]: the running total, or [0] when no upload is open. *)
Definition add_chunk (robot_ip : option string) (b64_chunk : option string)
    (st : uploads * filesystem) : uploads * filesystem * result nat :=
  let (_uploads, fs) := st in
  match _uploads !! robot_ip with
  | None => (st, Ok 0)
  | Some inf =>
      match b64_chunk with
      | None => (st, Raise TypeError)
      | Some chunk =>
          match b64decode chunk with
          | Raise e => (st, Raise e)
          | Ok raw =>
              let inf' :=
                mk_upload (file inf) (path inf) (filesize inf)
                  (received inf + length raw) in
              (<[robot_ip := inf']> _uploads, fs_write (path inf) raw fs,
               Ok (received inf'))
          end
      end
  end.

(** [finish]: the staged path, or [None]. *)
Definition finish (robot_ip : option string) (st : uploads * filesystem)
    : uploads * filesystem * option string :=
  let (_uploads, fs) := st in
  match _uploads !! robot_ip with
  | None => (st, None)
  | Some inf =>
      let _uploads := delete robot_ip _uploads in
      let fs := fs_close (file inf) fs in
      if negb (py_int_eq (Z.of_nat (received inf)) (filesize inf))
      then (_uploads, fs, None)
      else (_uploads, fs, Some (path inf))
  end.

Definition get_received_bytes (robot_ip : option string) (_uploads : uploads)
    : nat :=
  match _uploads !! robot_ip with
  | Some inf => received inf
  | None => 0
  end.
End Manager.
End FirmwareUploadManager.

(** * OTA server: [OTAConnection] *)

Module OTAConnection.

(** The arm: [self.firmware_to_send_path] and
    [self.ota_server_robot_ip_target]. *)
Record ota : Type := mk_ota {
  firmware_to_send_path : option string;
  ota_server_robot_ip_target : option string
}.

Definition disarmed : ota := mk_ota None None.

Definition prepare_firmware_for_send (file_path : string)
    (target_robot_ip : option string) (fs : filesystem) (o : ota)
    : ota * bool :=
  if negb (fs_exists file_path fs) then (o, false)
  else (mk_ota (Some file_path) target_robot_ip, true).

(** What the sockets and the disk do during one transfer: the index of
    the chunk after whose [writer.write] the [await writer.drain()]
    raises, if one does ([writer.write] itself only buffers: on a lost
    connection it returns, and the error surfaces in [drain]), and whether
    [os.remove] succeeds. *)
Record transfer_io : Type := mk_io {
  drain_fails_at : option nat;
  remove_ok : bool
}.

Definition chunk_size : nat := 1024.

(** The [while True] loop over [f.read(chunk_size)]: the bytes handed to
    [writer.write] and whether the loop ended without an exception.  A
    chunk is written before its [drain] is awaited, so the chunk whose
    [drain] raises has been written.  [fuel] bounds the iterations;
    [S (length data)] is enough. *)
Fixpoint send_chunks (fuel : nat) (io : transfer_io) (index : nat)
    (rest sent : list Byte.byte) : list Byte.byte * bool :=
  match fuel with
  | O => (sent, true)
  | S fuel' =>
      match firstn chunk_size rest with
      | [] => (sent, true)
      | chunk =>
          let sent := sent ++ chunk in
          if bool_decide (drain_fails_at io = Some index) then (sent, false)
          else send_chunks fuel' io (S index) (skipn chunk_size rest) sent
      end
  end.

(** [handle_ota_robot_connection] for a peer at [robot_actual_ip], run
    from the accept to its end with no other task in between: the arm and
    the files afterwards, and the firmware bytes written to the peer. *)
Definition handle_ota_robot_connection (robot_actual_ip : string)
    (io : transfer_io) (st : ota * filesystem)
    : ota * filesystem * list Byte.byte :=
  let (o, fs) := st in
  let current_firmware_path_for_this_connection :=
    if str_truthy (firmware_to_send_path o)
       && bool_decide (ota_server_robot_ip_target o = Some robot_actual_ip)
    then firmware_to_send_path o else None in
  match current_firmware_path_for_this_connection with
  | Some current_path =>
      (* the except branch: consume the arm if it is still this one *)
      let on_error (sent : list Byte.byte) :=
        if bool_decide (ota_server_robot_ip_target o = Some robot_actual_ip)
           && bool_decide (firmware_to_send_path o = Some current_path)
        then (disarmed, fs, sent) else (o, fs, sent) in
      match contents fs !! current_path with
      | None => on_error []
      | Some data =>
          match send_chunks (S (length data)) io 0 data [] with
          | (sent, true) =>
              (disarmed,
               if fs_exists current_path fs && remove_ok io
               then fs_remove current_path fs else fs,
               sent)
          | (sent, false) => on_error sent
          end
      end
  | None => (o, fs, [])
  end.

(** The OTA server handling a sequence of connections that do not overlap
    in time, each handler ending before the next connection is accepted:
    the peer address and the I/O behaviour of each, and what was written
    to each peer.  Connections that overlap are [run] below. *)
Fixpoint serve (accepts : list (string * transfer_io)) (st : ota * filesystem)
    : ota * filesystem * list (list Byte.byte) :=
  match accepts with
  | [] => (st, [])
  | (robot_actual_ip, io) :: accepts' =>
      let '(o, fs, sent) := handle_ota_robot_connection robot_actual_ip io st in
      let '(st', received) := serve accepts' (o, fs) in
      (st', sent :: received)
  end.

(** ** Connections that overlap in time

    [asyncio.start_server] runs [handle_ota_robot_connection] as one task
    per accepted connection.  A task runs alone until it awaits; in
    [await writer.drain()], when the transport has paused the protocol
    (its write buffer is above the high-water mark), the event loop runs
    the other tasks.  The arm is tested when the handler starts and cleared
    only when the transfer has ended, with the transfer in between. *)

(** Where the handler of a connection stands. *)
Inductive task : Type :=
| Accepted
    (** accepted, the handler has not run yet *)
| Draining (current_path : string) (index : nat) (rest : list Byte.byte)
    (** in [await writer.drain()] after [writer.write] of chunk [index];
        [rest] is what the open file [f] has left to read *)
| Closed
    (** past the transfer, at [writer.close()] *).

Record connection : Type := mk_connection {
  peer : string;
  peer_io : transfer_io;
  handler : task;
  written : list Byte.byte
}.

(** The [except] branch: the arm is cleared when it still is the arm this
    connection started with. *)
Definition clear_after_error (robot_actual_ip current_path : string)
    (st : ota * filesystem) : ota * filesystem :=
  let (o, fs) := st in
  if bool_decide (ota_server_robot_ip_target o = Some robot_actual_ip)
     && bool_decide (firmware_to_send_path o = Some current_path)
  then (disarmed, fs) else st.

(** One round of the loop, from [f.read] to the next [drain]: at the end of
    the file the arm is cleared and the file removed; else the chunk is
    written and the task awaits. *)
Definition read_and_write (io : transfer_io) (current_path : string)
    (index : nat) (rest : list Byte.byte) (st : ota * filesystem)
    : task * (ota * filesystem) * list Byte.byte :=
  match firstn chunk_size rest with
  | [] =>
      let (_, fs) := st in
      (Closed,
       (disarmed,
        if fs_exists current_path fs && remove_ok io
        then fs_remove current_path fs else fs),
       [])
  | chunk => (Draining current_path index (skipn chunk_size rest), st, chunk)
  end.

(** The handler of a peer at [robot_actual_ip], run from where it stands
    to its next [drain] or to its end: where it stands then, the arm and
    the files, and the bytes it has written meanwhile.  The open file
    keeps the data it had when it was opened, also when another task
    removes its name. *)
Definition resume (robot_actual_ip : string) (io : transfer_io) (t : task)
    (st : ota * filesystem) : task * (ota * filesystem) * list Byte.byte :=
  match t with
  | Accepted =>
      let (o, fs) := st in
      let current_firmware_path_for_this_connection :=
        if str_truthy (firmware_to_send_path o)
           && bool_decide (ota_server_robot_ip_target o = Some robot_actual_ip)
        then firmware_to_send_path o else None in
      match current_firmware_path_for_this_connection with
      | Some current_path =>
          match contents fs !! current_path with
          | None => (Closed, clear_after_error robot_actual_ip current_path st, [])
          | Some data => read_and_write io current_path 0 data st
          end
      | None => (Closed, st, [])
      end
  | Draining current_path index rest =>
      if bool_decide (drain_fails_at io = Some index)
      then (Closed, clear_after_error robot_actual_ip current_path st, [])
      else read_and_write io current_path (S index) rest st
  | Closed => (Closed, st, [])
  end.

(** The server: the arm, the files and the connections accepted so far or
    still to come. *)
Definition server : Type := ota * filesystem * list connection.

Definition connections (s : server) : list connection := snd s.

Definition accept_all (accepts : list (string * transfer_io))
    : list connection :=
  map (fun a => mk_connection (fst a) (snd a) Accepted []) accepts.

(** The event loop runs the task of connection [i] to its next await. *)
Definition step (s : server) (i : nat) : server :=
  let '(o, fs, conns) := s in
  match conns !! i with
  | Some c =>
      let '(t, (o, fs), bytes) := resume (peer c) (peer_io c) (handler c) (o, fs) in
      (o, fs, <[i := mk_connection (peer c) (peer_io c) t (written c ++ bytes)]> conns)
  | None => s
  end.

(** A schedule names the task that runs at each turn of the event loop.
    A [drain] that returns without waiting is two turns of the same
    task in a row; a turn given to a handler that has ended changes
    nothing. *)
Definition run (schedule : list nat) (s : server) : server :=
  fold_left step schedule s.


End OTAConnection.

(** * UI session handler: [DirectBridge.handle_ws_client] *)

(** What a handler does to the outside. *)
Inductive effect : Type :=
| RobotWrite (client : ConnectionManager.tcp_client) (data : string)
    (** [writer.write(data.encode('utf-8')); await writer.drain()] *)
| WsSend (message : pyobj)
    (** [await websocket.send(json.dumps(message))] to the requesting client *).

Definition newline : string := String (ascii_of_nat 10) EmptyString.

(** The names bound on a [TrajectoryCalculator] instance: the attribute set
    in [__init__] and the methods of the class body. *)
Definition TrajectoryCalculator_attributes : list string :=
  [ "robot_data"; "__init__"; "_ensure_robot_data"; "update_imu_data";
    "_rpm_to_omega"; "update_encoder_data"; "_try_calculate_trajectory" ].

(** [getattr(obj, name)]: [AttributeError] when the name is not bound. *)
Definition py_getattr {A : Type} (attributes : list string) (name : string)
    (value : A) : result A :=
  if existsb (String.eqb name) attributes then Ok value
  else Raise AttributeError.

Module DirectBridge.
Import Registry.

Definition GLOBAL_SUBSCRIPTION_KEY : string := "__GLOBAL__".

Section Commands.
(** [str(v)] on a value that is not a string; [json.dumps]; [str(e)] on
    an exception. *)
Variable py_str : json -> string.
Variable json_dumps : json -> string.
Variable str_exn : exn -> string.

(** [except Exception as e_ws_loop] around the dispatch of one message. *)
Definition catch_server_error (r : result (list effect)) : list effect :=
  match r with
  | Ok effects => effects
  | Raise e =>
      [ WsSend [ ("type", JStr "error");
                 ("message", JStr ("Server error: " +:+ str_exn e)) ] ]
  end.

(** ** [send_to_robot] *)

(** Target resolution, first block ([if target_ip:]): the unique key
    found through the IP, and [target_alias], which the scan of
    [ip_port_to_alias] overwrites. *)
Definition resolve_by_ip (m : robot_alias_manager)
    (target_ip target_alias : option string)
    : option string * option string :=
  match nonempty target_ip with
  | Some ip =>
      let unique_key_to_send :=
        match nonempty (dict_get ip (ip_to_alias m)) with
        | Some found_alias => dict_get found_alias (alias_to_ip_port m)
        | None => None
        end in
      if str_truthy unique_key_to_send
      then (unique_key_to_send, target_alias)
      else
        (* first key of ip_port_to_alias that starts with ip + ":" *)
        match List.find (fun kv => String.prefix (ip +:+ ":") (fst kv))
                (ip_port_to_alias m) with
        | Some (key, alias_val) => (Some key, Some alias_val)
        | None => (unique_key_to_send, target_alias)
        end
  | None => (None, target_alias)
  end.

(** Target resolution: the unique key to send to, with the updated
    [target_ip] and [target_alias].  The second block
    ([if not unique_key_to_send and target_alias:]) consults the alias
    only when the IP gave no key. *)
Definition resolve_send_target (m : robot_alias_manager)
    (target_ip target_alias : option string)
    : option string * option string * option string :=
  let (unique_key_to_send, target_alias) :=
    resolve_by_ip m target_ip target_alias in
  match nonempty target_alias with
  | Some alias =>
      if negb (str_truthy unique_key_to_send) then
        let unique_key_to_send := dict_get alias (alias_to_ip_port m) in
        if str_truthy unique_key_to_send then
          (unique_key_to_send,
           match dict_get alias (alias_to_ip m) with
           | Some ip => Some ip
           | None => target_ip
           end,
           target_alias)
        else (unique_key_to_send, target_ip, target_alias)
      else (unique_key_to_send, target_ip, target_alias)
  | None => (unique_key_to_send, target_ip, target_alias)
  end.

(** The key a resolution ends on, when it is a true value. *)
Definition resolved_key (r : option string * option string * option string)
    : option string :=
  nonempty (fst (fst r)).

(** The bytes written to the robot: the [MOTOR:] line for
    [pid_values], else the JSON text and a newline. *)
Definition encode_robot_command (robot_command_payload : pyobj)
    : result string :=
  if py_eq_str (py_get "type" robot_command_payload) "pid_values" then
    let motor := py_get "motor" robot_command_payload in
    let kp := py_get "kp" robot_command_payload in
    let ki := py_get "ki" robot_command_payload in
    let kd := py_get "kd" robot_command_payload in
    match motor, kp, ki, kd with
    | JNull, _, _, _ | _, JNull, _, _ | _, _, JNull, _ | _, _, _, JNull =>
        Raise ValueError
    | _, _, _, _ =>
        Ok ("MOTOR:" +:+ py_format py_str motor +:+ " Kp:" +:+ py_format py_str kp
            +:+ " Ki:" +:+ py_format py_str ki +:+ " Kd:" +:+ py_format py_str kd)
    end
  else Ok (json_dumps (JObj robot_command_payload) +:+ newline).

Definition command_response (status message : string)
    (payload_type : option json) (robot_ip robot_alias : option string)
    : pyobj :=
  [ ("type", JStr "command_response");
    ("original_command", JStr "send_to_robot") ]
  ++ match payload_type with
     | Some t => [ ("payload_type_sent_to_robot", t) ]
     | None => []
     end
  ++ [ ("status", JStr status);
       ("message", JStr message);
       ("robot_ip", json_of_field robot_ip);
       ("robot_alias", json_of_field robot_alias) ].

(** The [send_to_robot] branch.  [target_ip] and [target_alias] are the
    [robot_ip] and [robot_alias] fields (a string or [None]);
    [robot_command_payload] is the [payload] field; [write_result] is
    what writing to the robot's socket does. *)
Definition send_to_robot (m : robot_alias_manager)
    (_tcp_clients : gmap string ConnectionManager.tcp_client)
    (target_ip target_alias : option string) (robot_command_payload : json)
    (write_result : result unit) : list effect :=
  match robot_command_payload with
  | JObj ((_ :: _) as command) =>
      let '(unique_key_to_send, target_ip, target_alias) :=
        resolve_send_target m target_ip target_alias in
      match nonempty unique_key_to_send with
      | Some key =>
          match ConnectionManager.get_tcp_client key _tcp_clients with
          | Some writer_to_use =>
              let alias_from_map := dict_get key (ip_port_to_alias m) in
              let current_connection_alias :=
                if str_truthy alias_from_map then alias_from_map
                else target_alias in
              let payload_type := py_get "type" command in
              match encode_robot_command command with
              | Ok command_sent_to_robot_str =>
                  match write_result with
                  | Ok _ =>
                      [ RobotWrite writer_to_use command_sent_to_robot_str;
                        WsSend (command_response "sent_to_robot"
                          ("Command '" +:+ py_format py_str payload_type
                           +:+ "' sent to robot "
                           +:+ fmt current_connection_alias +:+ ".")
                          (Some payload_type) target_ip current_connection_alias) ]
                  | Raise e_send =>
                      [ WsSend (command_response "error"
                          ("Error sending to robot: " +:+ str_exn e_send)
                          (Some payload_type) target_ip current_connection_alias) ]
                  end
              | Raise e_send =>
                  [ WsSend (command_response "error"
                      ("Error sending to robot: " +:+ str_exn e_send)
                      (Some payload_type) target_ip current_connection_alias) ]
              end
          | None =>
              [ WsSend (command_response "error" "Robot not connected via TCP."
                          None target_ip target_alias) ]
          end
      | None =>
          [ WsSend [ ("type", JStr "command_response");
                     ("original_command", JStr "send_to_robot");
                     ("status", JStr "error");
                     ("message", JStr ("Robot IP '" +:+ fmt target_ip
                        +:+ "' or alias '" +:+ fmt target_alias
                        +:+ "' not found/connected.")) ] ]
      end
  | _ =>
      [ WsSend [ ("type", JStr "command_response");
                 ("original_command", JStr "send_to_robot");
                 ("status", JStr "error");
                 ("message", JStr "Invalid or missing payload content") ] ]
  end.

(** The writes to robots among the effects of a handler. *)
Definition robot_writes (effects : list effect)
    : list (ConnectionManager.tcp_client * string) :=
  flat_map
    (fun e => match e with
              | RobotWrite client data => [ (client, data) ]
              | WsSend _ => []
              end)
    effects.

(** ** [request_trajectory] *)

(** What the attributes [max_points] and [get_trajectory] of the
    calculator would yield, were they bound. *)
Variable max_points : json.
Variable get_trajectory : string -> json -> json.

(** The [request_trajectory] branch; [limit] is the [limit] field when
    the message has one, [now] is [time.time()]. *)
Definition request_trajectory (m : robot_alias_manager)
    (target_ip target_alias : option string) (limit : option json)
    (now : float) : result (list effect) :=
  (* limit = payload.get("limit", self.trajectory_calculator.max_points):
     the default is evaluated before the call *)
  max_points ← py_getattr TrajectoryCalculator_attributes "max_points" max_points;
  let limit := default max_points limit in
  let unique_key_for_traj :=
    match nonempty target_alias with
    | Some alias => dict_get alias (alias_to_ip_port m)
    | None =>
        match nonempty target_ip with
        | Some ip =>
            match nonempty (dict_get ip (ip_to_alias m)) with
            | Some primary_alias_for_ip =>
                dict_get primary_alias_for_ip (alias_to_ip_port m)
            | None => None
            end
        | None => None
        end
    end in
  match nonempty unique_key_for_traj with
  | Some key =>
      get_trajectory ← py_getattr TrajectoryCalculator_attributes
                         "get_trajectory" get_trajectory;
      let trajectory_data := get_trajectory key limit in
      if truthy trajectory_data then
        Ok [ WsSend
               [ ("type", JStr "trajectory_data");
                 ("robot_alias",
                   json_of_field
                     (match dict_get key (ip_port_to_alias m) with
                      | Some alias => Some alias
                      | None =>
                          if str_truthy target_alias then target_alias
                          else target_ip
                      end));
                 ("robot_ip", JStr (hd "" (py_split ":" key)));
                 ("trajectory", trajectory_data);
                 ("timestamp", JFloat now) ] ]
      else
        Ok [ WsSend [ ("type", JStr "error");
                      ("command", JStr "request_trajectory");
                      ("message", JStr "No trajectory data for robot.") ] ]
  | None =>
      Ok [ WsSend [ ("type", JStr "error");
                    ("command", JStr "request_trajectory");
                    ("message", JStr "Robot not found for trajectory request.") ] ]
  end.

(** One [request_trajectory] message, inside the dispatcher's
    [try ... except Exception]. *)
Definition handle_request_trajectory (m : robot_alias_manager)
    (target_ip target_alias : option string) (limit : option json)
    (now : float) : list effect :=
  catch_server_error (request_trajectory m target_ip target_alias limit now).

(** ** Firmware upload commands *)

Variable os_path_join : string -> string -> string.
Variable b64decode : string -> result (list Byte.byte).
Variable open_ok : string -> bool.

(** The staging buffer, the files and the OTA arm. *)
Definition firmware_state : Type :=
  FirmwareUploadManager.uploads * filesystem * OTAConnection.ota.

(** The [upload_firmware_start] branch; [now] is [int(time.time())].
    When [start] raises, the [except] around the dispatch answers. *)
Definition upload_firmware_start (temp_dir : string) (now : Z)
    (robot_ip filename : option string) (filesize : json)
    (st : firmware_state) : firmware_state * list effect :=
  let '(_uploads, fs, o) := st in
  let '(_uploads, fs, started) :=
    FirmwareUploadManager.start os_path_join open_ok temp_dir now robot_ip
      filename filesize (_uploads, fs) in
  ((_uploads, fs, o),
   catch_server_error
     (_ ← started;
      Ok [ WsSend [ ("type", JStr "ack"); ("stage", JStr "upload_started");
                    ("robot_ip", json_of_field robot_ip) ] ])).

(** The [firmware_data_chunk] branch. *)
Definition firmware_data_chunk (robot_ip b64 : option string)
    (st : firmware_state) : firmware_state * list effect :=
  let '(_uploads, fs, o) := st in
  let '(_uploads, fs, rec) :=
    FirmwareUploadManager.add_chunk b64decode robot_ip b64 (_uploads, fs) in
  ((_uploads, fs, o),
   catch_server_error
     (_ ← rec;
      Ok [ WsSend
             [ ("type", JStr "firmware_chunk_ack");
               ("robot_ip", json_of_field robot_ip);
               ("received",
                 JInt (Z.of_nat
                   (FirmwareUploadManager.get_received_bytes robot_ip _uploads))) ] ])).

(** A run of [firmware_data_chunk] messages for one robot, in order. *)
Definition firmware_data_chunks (robot_ip : option string) (chunks : list string)
    (st : firmware_state) : firmware_state :=
  fold_left (fun st b64 => fst (firmware_data_chunk robot_ip (Some b64) st))
    chunks st.

(** The [upload_firmware_end] branch. *)
Definition upload_firmware_end (robot_ip : option string)
    (st : firmware_state) : firmware_state * list effect :=
  let '(_uploads, fs, o) := st in
  let '(_uploads, fs, fw_path) :=
    FirmwareUploadManager.finish robot_ip (_uploads, fs) in
  match nonempty fw_path with
  | Some fw_path =>
      let (o, _) :=
        OTAConnection.prepare_firmware_for_send fw_path robot_ip fs o in
      ((_uploads, fs, o),
       catch_server_error
         (* os.path.getsize(fw_path) *)
         (match contents fs !! fw_path with
          | Some data =>
              Ok [ WsSend
                     [ ("type", JStr "firmware_prepared_for_ota");
                       ("robot_ip", json_of_field robot_ip);
                       ("firmware_size", JInt (Z.of_nat (length data)));
                       ("status", JStr "success") ] ]
          | None => Raise OSError
          end))
  | None =>
      ((_uploads, fs, o),
       [ WsSend [ ("type", JStr "error"); ("stage", JStr "upload_finish");
                  ("robot_ip", json_of_field robot_ip);
                  ("message", JStr "Firmware file incomplete") ] ])
  end.

(** ** [upgrade_signal] and [trigger_robot_pid_task] *)

(** [{"type": "error", "command": command, "message": message}] *)
Definition command_error (command message : string) : pyobj :=
  [ ("type", JStr "error"); ("command", JStr command);
    ("message", JStr message) ].

(** Target resolution of [upgrade_signal]: [if target_ip: ... elif
    target_alias: ...]; the key, and the two fields as the branch leaves
    them. *)
Definition resolve_upgrade_target (m : robot_alias_manager)
    (target_ip target_alias : option string)
    : option string * option string * option string :=
  match nonempty target_ip with
  | Some ip =>
      match nonempty (dict_get ip (ip_to_alias m)) with
      | Some primary_alias_for_ip =>
          (dict_get primary_alias_for_ip (alias_to_ip_port m), target_ip,
           if negb (str_truthy target_alias) then Some primary_alias_for_ip
           else target_alias)
      | None => (None, target_ip, target_alias)
      end
  | None =>
      match nonempty target_alias with
      | Some alias =>
          let unique_key_to_send := dict_get alias (alias_to_ip_port m) in
          (unique_key_to_send,
           if negb (str_truthy target_ip) && str_truthy unique_key_to_send
           then dict_get alias (alias_to_ip m) else target_ip,
           target_alias)
      | None => (None, target_ip, target_alias)
      end
  end.

(** The [upgrade_signal] branch; [write_result] is what writing to the
    robot's socket does, [now] is [time.time()]. *)
Definition upgrade_signal (m : robot_alias_manager)
    (_tcp_clients : gmap string ConnectionManager.tcp_client)
    (target_ip target_alias : option string) (write_result : result unit)
    (now : float) : list effect :=
  if negb (str_truthy target_ip) && negb (str_truthy target_alias) then
    [ WsSend (command_error "upgrade_signal"
                "Missing 'robot_ip' or 'robot_alias' for upgrade_signal.") ]
  else
    let '(unique_key_to_send, target_ip, target_alias) :=
      resolve_upgrade_target m target_ip target_alias in
    match nonempty unique_key_to_send with
    | None =>
        [ WsSend (command_error "upgrade_signal"
                    ("Robot not found for IP '" +:+ fmt target_ip
                     +:+ "' or alias '" +:+ fmt target_alias
                     +:+ "' for upgrade_signal.")) ]
    | Some key =>
        match ConnectionManager.get_tcp_client key _tcp_clients with
        | Some writer =>
            match write_result with
            | Ok _ =>
                [ RobotWrite writer "Upgrade";
                  WsSend
                    [ ("type", JStr "command_response");
                      ("original_command", JStr "upgrade_signal");
                      ("status", JStr "success");
                      ("robot_ip", json_of_field target_ip);
                      ("robot_alias", json_of_field target_alias);
                      ("message",
                        JStr ("Command 'upgrade_signal' sent to robot "
                              +:+ fmt (if str_truthy target_alias
                                       then target_alias else target_ip)
                              +:+ "."));
                      ("timestamp", JFloat now) ] ]
            | Raise e_send_upgrade =>
                [ WsSend
                    [ ("type", JStr "command_response");
                      ("original_command", JStr "upgrade_signal");
                      ("status", JStr "error");
                      ("robot_ip", json_of_field target_ip);
                      ("robot_alias", json_of_field target_alias);
                      ("message",
                        JStr ("Failed to send upgrade_signal to robot: "
                              +:+ str_exn e_send_upgrade)) ] ]
            end
        | None =>
            [ WsSend (command_error "upgrade_signal"
                        "Robot TCP connection not found for upgrade_signal.") ]
        end
    end.

(** Target resolution of [trigger_robot_pid_task]: [if target_alias: ...
    elif target_ip: ...]. *)
Definition resolve_pid_task_target (m : robot_alias_manager)
    (target_ip target_alias : option string)
    : option string * option string * option string :=
  match nonempty target_alias with
  | Some alias =>
      let unique_key_to_send := dict_get alias (alias_to_ip_port m) in
      (unique_key_to_send,
       if str_truthy unique_key_to_send && negb (str_truthy target_ip)
       then dict_get alias (alias_to_ip m) else target_ip,
       target_alias)
  | None =>
      match nonempty target_ip with
      | Some ip =>
          match nonempty (dict_get ip (ip_to_alias m)) with
          | Some primary_alias_for_ip =>
              (dict_get primary_alias_for_ip (alias_to_ip_port m), target_ip,
               if negb (str_truthy target_alias) then Some primary_alias_for_ip
               else target_alias)
          | None => (None, target_ip, target_alias)
          end
      | None => (None, target_ip, target_alias)
      end
  end.

Definition pid_task_response (status message : string)
    (robot_ip robot_alias : option string) : pyobj :=
  [ ("type", JStr "command_response");
    ("original_command", JStr "trigger_robot_pid_task");
    ("status", JStr status); ("message", JStr message);
    ("robot_ip", json_of_field robot_ip);
    ("robot_alias", json_of_field robot_alias) ].

(** The [trigger_robot_pid_task] branch. *)
Definition trigger_robot_pid_task (m : robot_alias_manager)
    (_tcp_clients : gmap string ConnectionManager.tcp_client)
    (target_ip target_alias : option string) (write_result : result unit)
    : list effect :=
  let '(unique_key_to_send, target_ip, target_alias) :=
    resolve_pid_task_target m target_ip target_alias in
  match nonempty unique_key_to_send with
  | None =>
      [ WsSend
          [ ("type", JStr "command_response");
            ("original_command", JStr "trigger_robot_pid_task");
            ("status", JStr "error");
            ("message",
              JStr ("Robot not found for IP '" +:+ fmt target_ip
                    +:+ "' or alias '" +:+ fmt target_alias
                    +:+ "' to trigger PID task.")) ] ]
  | Some key =>
      match ConnectionManager.get_tcp_client key _tcp_clients with
      | Some writer_to_use =>
          let alias_from_map := dict_get key (ip_port_to_alias m) in
          let actual_alias_for_response :=
            if str_truthy alias_from_map then alias_from_map else target_alias in
          match write_result with
          | Ok _ =>
              [ RobotWrite writer_to_use "Set PID";
                WsSend (pid_task_response "success"
                          ("'Set PID' command sent to robot "
                           +:+ fmt actual_alias_for_response +:+ ".")
                          target_ip actual_alias_for_response) ]
          | Raise e_send_pid_task =>
              [ WsSend (pid_task_response "error"
                          ("Error sending 'Set PID' command: "
                           +:+ str_exn e_send_pid_task)
                          target_ip actual_alias_for_response) ]
          end
      | None =>
          [ WsSend (pid_task_response "error"
                      ("No active TCP connection for robot " +:+ fmt target_alias
                       +:+ " (" +:+ fmt target_ip +:+ ").")
                      target_ip target_alias) ]
      end
  end.

(** ** [get_available_robots] and the list sent to a new UI client *)

Definition robot_entry (ip alias unique_key : string) : json :=
  JObj [ ("ip", JStr ip); ("alias", JStr alias);
         ("unique_key", JStr unique_key); ("status", JStr "connected") ].

(** The loop of [get_available_robots]: [ip_addr, _ = key.split(":", 1)]
    raises [ValueError] on a key without a colon. *)
Fixpoint connected_robots (entries : list (string * string))
    : result (list json) :=
  match entries with
  | [] => Ok []
  | (ip_port_key, alias_val) :: entries' =>
      match split_once ":" ip_port_key with
      | Some (ip_addr, _) =>
          robots ← connected_robots entries';
          Ok (robot_entry ip_addr alias_val ip_port_key :: robots)
      | None => Raise ValueError
      end
  end.

(** The [get_available_robots] branch, inside the dispatcher's
    [try ... except Exception]. *)
Definition get_available_robots (m : robot_alias_manager) (now : float)
    : list effect :=
  catch_server_error
    (robots ← connected_robots (ip_port_to_alias m);
     Ok [ WsSend [ ("type", JStr "connected_robots_list");
                   ("robots", JArr robots);
                   ("timestamp", JFloat now) ] ]).

(** The [initial_robot_list] sent when a UI client connects; here the IP
    is [key.split(":")[0]]. *)
Definition initial_robot_list (m : robot_alias_manager) (now : float) : pyobj :=
  [ ("type", JStr "initial_robot_list");
    ("robots",
      JArr (map (fun entry : string * string =>
                   robot_entry (hd "" (py_split ":" (fst entry))) (snd entry)
                     (fst entry))
              (ip_port_to_alias m)));
    ("timestamp", JFloat now) ].
End Commands.

(** ** Subscriptions: [self.websocket_subscriptions] and [ui_websockets] *)

(** A UI client is known by the [remote_address] of its websocket. *)
Definition client_addr : Type := string * nat.

(** [{client_addr: {entity_key: set(data_type)}}] *)
Abbreviation subscriptions := (gmap client_addr (gmap string (gset string))).

Definition error_reply (command message : string) : pyobj :=
  [ ("type", JStr "error"); ("command", JStr command);
    ("message", JStr message) ].

(** The locked block of [subscribe]. *)
Definition add_subscription (c : client_addr) (entity_key data_type : string)
    (subs : subscriptions) : subscriptions :=
  let client_subs := default ∅ (subs !! c) in
  let types := default ∅ (client_subs !! entity_key) in
  <[c := <[entity_key := types ∪ {[data_type]}]> client_subs]> subs.

(** The [subscribe] branch. *)
Definition subscribe (m : robot_alias_manager) (c : client_addr)
    (data_type_to_sub target_alias : option string) (subs : subscriptions)
    : subscriptions * list effect :=
  match nonempty data_type_to_sub with
  | None =>
      (subs, [ WsSend (error_reply "subscribe"
                         "Missing 'type' (data_type) for subscription") ])
  | Some data_type =>
      match nonempty target_alias with
      | None =>
          (subs, [ WsSend (error_reply "subscribe"
                             "Missing 'robot_alias' for subscription") ])
      | Some alias =>
          if negb (dict_has alias (alias_to_ip_port m)) then
            (subs, [ WsSend (error_reply "subscribe"
                               ("Unknown robot_alias '" +:+ alias
                                +:+ "' for subscription.")) ])
          else
            (add_subscription c alias data_type subs,
             [ WsSend [ ("type", JStr "ack"); ("command", JStr "subscribe");
                        ("status", JStr "success");
                        ("data_type", JStr data_type);
                        ("subscribed_key", JStr alias);
                        ("robot_alias", JStr alias) ] ])
      end
  end.

(** The locked block of [unsubscribe], when the client holds the entity
    key: discard the type, drop the set if it is empty, drop the client
    if its map is empty. *)
Definition remove_subscription (c : client_addr) (entity_key data_type : string)
    (client_subs : gmap string (gset string)) (types : gset string)
    (subs : subscriptions) : subscriptions :=
  let types := types ∖ {[data_type]} in
  let client_subs :=
    if decide (types = ∅) then delete entity_key client_subs
    else <[entity_key := types]> client_subs in
  if decide (client_subs = ∅) then delete c subs
  else <[c := client_subs]> subs.

(** The [unsubscribe] branch. *)
Definition unsubscribe (c : client_addr)
    (data_type_to_unsub target_alias : option string) (subs : subscriptions)
    : subscriptions * list effect :=
  match nonempty data_type_to_unsub with
  | None =>
      (subs, [ WsSend (error_reply "unsubscribe"
                         "Missing 'type' (data_type) for unsubscription") ])
  | Some data_type =>
      match nonempty target_alias with
      | None =>
          (subs, [ WsSend (error_reply "unsubscribe"
                             "Missing 'robot_alias' for unsubscription") ])
      | Some alias =>
          match subs !! c with
          | Some client_subs =>
              match client_subs !! alias with
              | Some types =>
                  (remove_subscription c alias data_type client_subs types subs,
                   [ WsSend [ ("type", JStr "ack"); ("command", JStr "unsubscribe");
                              ("status", JStr "success");
                              ("data_type", JStr data_type);
                              ("unsubscribed_key", JStr alias);
                              ("robot_alias", JStr alias) ] ])
              | None =>
                  (subs, [ WsSend [ ("type", JStr "ack");
                                    ("command", JStr "unsubscribe");
                                    ("status", JStr "not_subscribed");
                                    ("data_type", JStr data_type);
                                    ("robot_alias", JStr alias) ] ])
              end
          | None =>
              (subs, [ WsSend [ ("type", JStr "ack");
                                ("command", JStr "unsubscribe");
                                ("status", JStr "not_subscribed");
                                ("data_type", JStr data_type);
                                ("robot_alias", JStr alias) ] ])
          end
      end
  end.

(** What a client holds, an absent entry read as the empty map. *)
Definition client_subscriptions (c : client_addr) (subs : subscriptions)
    : gmap string (gset string) :=
  default ∅ (subs !! c).

(** The entity key of [direct_subscribe]: the alias when it is registered,
    else the primary alias of the IP, else the global key. *)
Definition direct_subscribe_key (m : robot_alias_manager)
    (target_ip target_alias : option string) : string :=
  match nonempty target_alias with
  | Some alias =>
      if dict_has alias (alias_to_ip_port m) then alias
      else GLOBAL_SUBSCRIPTION_KEY
  | None =>
      match nonempty target_ip with
      | Some ip =>
          match nonempty (dict_get ip (ip_to_alias m)) with
          | Some resolved_alias_for_ip => resolved_alias_for_ip
          | None => GLOBAL_SUBSCRIPTION_KEY
          end
      | None => GLOBAL_SUBSCRIPTION_KEY
      end
  end.

(** The [direct_subscribe] branch. *)
Definition direct_subscribe (m : robot_alias_manager) (c : client_addr)
    (data_type_to_sub target_ip target_alias : option string)
    (subs : subscriptions) : subscriptions * list effect :=
  match nonempty data_type_to_sub with
  | None =>
      (subs, [ WsSend (error_reply "direct_subscribe"
                         "Missing 'type' (data_type) for subscription") ])
  | Some data_type =>
      let actual_subscription_entity_key :=
        direct_subscribe_key m target_ip target_alias in
      (add_subscription c actual_subscription_entity_key data_type subs,
       [ WsSend [ ("type", JStr "ack"); ("command", JStr "direct_subscribe");
                  ("status", JStr "success");
                  ("data_type", JStr data_type);
                  ("subscribed_key", JStr actual_subscription_entity_key) ] ])
  end.

(** The entity key of [direct_unsubscribe]: the alias as given, else the
    primary alias of the IP, else the global key. *)
Definition direct_unsubscribe_key (m : robot_alias_manager)
    (target_ip target_alias : option string) : string :=
  match nonempty target_alias with
  | Some alias => alias
  | None =>
      match nonempty target_ip with
      | Some ip =>
          match nonempty (dict_get ip (ip_to_alias m)) with
          | Some resolved_alias_for_ip => resolved_alias_for_ip
          | None => GLOBAL_SUBSCRIPTION_KEY
          end
      | None => GLOBAL_SUBSCRIPTION_KEY
      end
  end.

(** The [direct_unsubscribe] branch: the same reply whether or not the
    client held the key. *)
Definition direct_unsubscribe (m : robot_alias_manager) (c : client_addr)
    (data_type_to_unsub target_ip target_alias : option string)
    (subs : subscriptions) : subscriptions * list effect :=
  match nonempty data_type_to_unsub with
  | None =>
      (subs, [ WsSend (error_reply "direct_unsubscribe"
                         "Missing 'type' (data_type) for unsubscription") ])
  | Some data_type =>
      let unsubscription_entity_key :=
        direct_unsubscribe_key m target_ip target_alias in
      (match subs !! c with
       | Some client_subs =>
           match client_subs !! unsubscription_entity_key with
           | Some types =>
               remove_subscription c unsubscription_entity_key data_type
                 client_subs types subs
           | None => subs
           end
       | None => subs
       end,
       [ WsSend [ ("type", JStr "ack"); ("command", JStr "direct_unsubscribe");
                  ("status", JStr "success");
                  ("data_type", JStr data_type);
                  ("unsubscribed_key", JStr unsubscription_entity_key) ] ])
  end.

(** The head of [handle_ws_client]: the client joins [ui_websockets] and
    gets an empty subscription map unless it has one already. *)
Definition ws_connect (c : client_addr)
    (st : gset client_addr * subscriptions) : gset client_addr * subscriptions :=
  let (ui_websockets, subs) := st in
  (ui_websockets ∪ {[c]},
   match subs !! c with
   | Some _ => subs
   | None => <[c := ∅]> subs
   end).

(** The [finally] block of [handle_ws_client]. *)
Definition ws_disconnect (c : client_addr)
    (st : gset client_addr * subscriptions) : gset client_addr * subscriptions :=
  let (ui_websockets, subs) := st in
  (ui_websockets ∖ {[c]}, delete c subs).

(** ** Router: [broadcast_to_subscribers] *)

(** One [ws_client.send(message_json)]: the client, the text, and whether
    the send returned ([true]) or raised. *)
Definition send_attempt : Type := client_addr * string * bool.

(** [data_type_to_send in client_specific_subs[key]], with
    [key in client_specific_subs] before it.  The sets hold strings, so a
    hashable type that is not a string is in none of them. *)
Definition subscribed (entity_key : string) (data_type_to_send : json)
    (client_specific_subs : gmap string (gset string)) : bool :=
  match client_specific_subs !! entity_key, data_type_to_send with
  | Some types, JStr t => bool_decide (t ∈ types)
  | _, _ => false
  end.

(** A list or a dict cannot be looked up in a set: [TypeError]. *)
Definition unhashable (v : json) : bool :=
  match v with
  | JArr _ | JObj _ => true
  | _ => false
  end.

(** Whether the loop evaluates a membership test for this entry: its
    websocket is active and it holds the robot's key or the global key. *)
Definition membership_tested (robot_alias_source : string)
    (ui_websockets : gset client_addr)
    (entry : client_addr * gmap string (gset string)) : bool :=
  bool_decide (fst entry ∈ ui_websockets)
  && (bool_decide (is_Some (snd entry !! robot_alias_source))
      || bool_decide (is_Some (snd entry !! GLOBAL_SUBSCRIPTION_KEY))).

(** The body of the loop for one client whose websocket is active. *)
Definition broadcast_to_client (robot_alias_source : string)
    (data_type_to_send : json) (message_json : string) (send_ok : bool)
    (c : client_addr) (client_specific_subs : gmap string (gset string))
    : list send_attempt :=
  let specific :=
    if subscribed robot_alias_source data_type_to_send client_specific_subs
    then [ (c, message_json, send_ok) ] else [] in
  let sent_to_this_client_for_payload :=
    subscribed robot_alias_source data_type_to_send client_specific_subs
    && send_ok in
  let global :=
    if negb sent_to_this_client_for_payload
       && subscribed GLOBAL_SUBSCRIPTION_KEY data_type_to_send client_specific_subs
    then [ (c, message_json, send_ok) ] else [] in
  specific ++ global.

Section Router.
Variable json_dumps : json -> string.
(** Whether a send to the client's websocket returns. *)
Variable send_ok : client_addr -> bool.

(** [broadcast_to_subscribers]: the sends attempted, client by client
    (the clients come in the order of [map_to_list], which stands for the
    order of the Python dict), and the two shared collections after the
    cleanup of the clients whose send raised. *)
Definition broadcast_to_subscribers (robot_alias_source : string)
    (payload : pyobj) (ui_websockets : gset client_addr)
    (subs : subscriptions)
    : result (gset client_addr * subscriptions * list send_attempt) :=
  if negb (dict_has "type" payload)
     || negb (py_eq_str (py_get "robot_alias" payload) robot_alias_source)
  then Ok (ui_websockets, subs, [])
  else
    let data_type_to_send := py_get "type" payload in
    let message_json := json_dumps (JObj payload) in
    if unhashable data_type_to_send
       && existsb (membership_tested robot_alias_source ui_websockets)
            (map_to_list subs)
    then
      (* the first membership test raises; no send precedes it, since a
         send follows a test that returned *)
      Raise TypeError
    else
    let attempts :=
      flat_map
        (fun entry : client_addr * gmap string (gset string) =>
           let (c, client_specific_subs) := entry in
           if bool_decide (c ∈ ui_websockets) then
             broadcast_to_client robot_alias_source data_type_to_send
               message_json (send_ok c) c client_specific_subs
           else [])
        (map_to_list subs) in
    let clients_failed_to_send : gset client_addr :=
      list_to_set (map (fun a => fst (fst a))
                     (filter (fun a => snd a = false) attempts)) in
    Ok (ui_websockets ∖ clients_failed_to_send,
        filter (fun entry => fst entry ∉ clients_failed_to_send) subs,
        attempts).
End Router.

(** The sends attempted on client [c]. *)
Definition sends_to (c : client_addr) (attempts : list send_attempt)
    : list send_attempt :=
  filter (fun a => fst (fst a) = c) attempts.

(** The sends to client [c] that returned: what it received. *)
Definition delivered (c : client_addr) (attempts : list send_attempt)
    : list send_attempt :=
  filter (fun a => snd a = true) (sends_to c attempts).

(** The data types client [c] holds for an entity key, [subs[c][key]];
    empty when it holds none. *)
Definition types_of (c : client_addr) (entity_key : string)
    (subs : subscriptions) : gset string :=
  default ∅ (client_subscriptions c subs !! entity_key).

(** The match rule: [T ∈ subs[c][R]] or [T ∈ subs[c][GLOBAL]]. *)
Definition matches (c : client_addr) (robot_alias data_type : string)
    (subs : subscriptions) : bool :=
  bool_decide (data_type ∈ types_of c robot_alias subs)
  || bool_decide (data_type ∈ types_of c GLOBAL_SUBSCRIPTION_KEY subs).
End DirectBridge.

(** * A fleet of two robots

    The registry and the sessions after a robot at [10.0.0.5:4000] and a
    robot at [10.0.0.6:4001] have connected: [robot1] and [robot2]. *)

Module Fleet.
Definition registry : Registry.robot_alias_manager :=
  fst (Registry.register "10.0.0.6" 4001
         (fst (Registry.register "10.0.0.5" 4000 Registry.initial))).

Definition sessions : gmap string ConnectionManager.tcp_client :=
  ConnectionManager.set_tcp_client "10.0.0.6:4001" 2
    (ConnectionManager.set_tcp_client "10.0.0.5:4000" 1 ∅).

(** Stand-ins for [math.cos] and [math.sin], exact at 0: their Taylor
    polynomials of degree two. *)
Definition taylor_cos (f : float) : float := (1 - f * f / 2)%float.
Definition taylor_sin (f : float) : float := f.

(** The calls of a drive straight ahead: an IMU frame with yaw 0, then [n]
    encoder frames of 60 rpm on each wheel, stamped 100, 101, ... *)
Definition encoder_frame (n : nat) : TrajectoryCalculator.call :=
  TrajectoryCalculator.UpdateEncoder "10.0.0.5:4000"
    [ ("timestamp", JInt (Z.of_nat n));
      ("data", JArr [ JInt 60; JInt 60; JInt 60 ]) ]
    1%float 1%float.
Definition drive (n : nat) : list TrajectoryCalculator.call :=
  TrajectoryCalculator.UpdateImu "10.0.0.5:4000" TrajectoryCalculator.imu_zero
    1%float 1%float
  :: map encoder_frame (seq 100 n).

(** A UI client, and a printer for the texts the examples do not read. *)
Definition ui_client : DirectBridge.client_addr := ("127.0.0.1", 4100).
Definition no_text {A : Type} (_ : A) : string := "".

(** Stand-ins for [os.path.join] and [base64.b64decode], the latter exact on
    the one chunk of the firmware example: ["AQID"] is the bytes 1, 2, 3.
    In [temp_firmware], a file name without a separator can be opened for
    writing. *)
Definition path_join (a b : string) : string := a +:+ "/" +:+ b.
Definition flat_name (path : string) : bool :=
  match split_once "/" path with
  | Some (dir, name) =>
      String.eqb dir "temp_firmware" && negb (is_substring "/" name)
  | None => false
  end.
Definition b64decode (chunk : string) : result (list Byte.byte) :=
  if String.eqb chunk "AQID" then Ok [ Byte.x01; Byte.x02; Byte.x03 ]
  else Raise ValueError.

(** The firmware example: a 3-byte image staged for [10.0.0.5] in one
    chunk, then finalized. *)
Definition staged : DirectBridge.firmware_state :=
  let st := (∅, mk_filesystem ∅ ∅ 0, OTAConnection.disarmed) in
  let st :=
    fst (DirectBridge.upload_firmware_start no_text path_join flat_name
           "temp_firmware" 1700000000 (Some "10.0.0.5") (Some "f.bin")
           (JInt 3) st) in
  let st :=
    fst (DirectBridge.firmware_data_chunk no_text b64decode
           (Some "10.0.0.5") (Some "AQID") st) in
  fst (DirectBridge.upload_firmware_end no_text (Some "10.0.0.5") st).
End Fleet.

(** * PID config file: [load_pid_config_from_file], [save_pid_config_to_file] *)

(** The characters [str.strip()] removes from an ASCII string. *)
Definition is_space (c : ascii) : bool :=
  let n := nat_of_ascii c in
  (n =? 32)%nat || ((9 <=? n)%nat && (n <=? 13)%nat)
  || ((28 <=? n)%nat && (n <=? 31)%nat).

Fixpoint py_lstrip (s : string) : string :=
  match s with
  | EmptyString => EmptyString
  | String c s' => if is_space c then py_lstrip s' else s
  end.

Fixpoint py_rstrip (s : string) : string :=
  match s with
  | EmptyString => EmptyString
  | String c s' =>
      match py_rstrip s' with
      | EmptyString => if is_space c then EmptyString else String c EmptyString
      | r => String c r
      end
  end.

(** [s.strip()] *)
Definition py_strip (s : string) : string := py_rstrip (py_lstrip s).

(** [s.replace(old, new)] for a non-empty [old]: [skip] counts the
    characters of a match still to be dropped. *)
Fixpoint py_replace_from (old new : string) (skip : nat) (s : string) : string :=
  match s with
  | EmptyString => EmptyString
  | String c s' =>
      match skip with
      | S skip' => py_replace_from old new skip' s'
      | O =>
          if String.prefix old s
          then new +:+ py_replace_from old new (String.length old - 1) s'
          else String c (py_replace_from old new 0 s')
      end
  end.

Definition py_replace (old new s : string) : string :=
  py_replace_from old new 0 s.

Module PidConfig.

(** [{"kp": kp, "ki": ki, "kd": kd}] *)
Record pid : Type := mk_pid { kp : float; ki : float; kd : float }.

(** [pid_data_per_motor]: [{motor_id: pid}] *)
Abbreviation pid_data := (list (Z * pid)).

Section Loader.
(** [int(s)] and [float(s)]; [None] is their [ValueError]. *)
Variable py_int : string -> option Z.
Variable py_float : string -> option float.

(** The [try] block for a line of four fields. *)
Definition parse_entry (part0 part1 part2 part3 : string) : option (Z * pid) :=
  let motor_id_str := py_strip (py_replace "Motor" "" part0) in
  motor_id ← py_int motor_id_str;
  kp ← py_float part1;
  ki ← py_float part2;
  kd ← py_float part3;
  Some (motor_id, mk_pid kp ki kd).

(** The body of [for line in f]: the dict so far and the lines skipped
    with a warning. *)
Definition load_line (acc : pid_data * list string) (line : string)
    : pid_data * list string :=
  let (pid_data_per_motor, warned) := acc in
  let line := py_strip line in
  if String.eqb line "" || String.prefix "#" line then acc
  else
    match py_split "," line with
    | [part0; part1; part2; part3] =>
        match parse_entry part0 part1 part2 part3 with
        | Some (motor_id, entry) =>
            (dict_set motor_id entry pid_data_per_motor, warned)
        | None => (pid_data_per_motor, warned ++ [line])
        end
    | _ => (pid_data_per_motor, warned ++ [line])
    end.

(** [load_pid_config_from_file]: what it returns, and the lines it
    warned about.  [lines] is the content of the file, [None] when it
    cannot be read.  The value returned does not depend on
    [target_robot_ip]. *)
Definition load_pid_config_from_file (lines : option (list string))
    : option pid_data * list string :=
  match lines with
  | None => (None, [])
  | Some lines =>
      let (pid_data_per_motor, warned) := fold_left load_line lines ([], []) in
      match pid_data_per_motor with
      | [] => (None, warned)
      | _ => (Some pid_data_per_motor, warned)
      end
  end.

(** [DirectBridge.start]: the cache after the load. *)
Definition pid_config_cache (lines : option (list string)) : pid_data :=
  match fst (load_pid_config_from_file lines) with
  | Some loaded_pids => loaded_pids
  | None => []
  end.
End Loader.

Section Saver.
(** [str(f)] on a float. *)
Variable float_str : float -> string.

(** The lines [save_pid_config_to_file] writes. *)
Definition save_pid_config_to_file (pid_data_per_motor : option pid_data)
    : list string :=
  match pid_data_per_motor with
  | Some ((_ :: _) as data) =>
      map (fun entry : Z * pid =>
             let (motor_num, pids) := entry in
             "Motor" +:+ pretty motor_num +:+ ":" +:+ float_str (kp pids)
             +:+ "," +:+ float_str (ki pids) +:+ "," +:+ float_str (kd pids)
             +:+ newline)
        data
  | _ =>
      map (fun i : nat => "Motor" +:+ pretty i +:+ ":0.0,0.0,0.0" +:+ newline)
        (seq 1 3)
  end.
End Saver.
End PidConfig.

(** * PID commands: the push of a loaded config, [load_pid_config] *)

(** The names bound on a [tuple], such as the [(reader, writer)] that
    [handle_tcp_client] registers, apart from the special methods. *)
Definition tuple_attributes : list string := [ "count"; "index" ].

Module PidCommands.
Import Registry.

Section Push.
Variable py_int : string -> option Z.
Variable py_float : string -> option float.
(** [str(f)] on a float; [str(e)] on an exception. *)
Variable float_str : float -> string.
Variable str_exn : exn -> string.

(** [f"MOTOR:{motor_id} Kp:{kp} Ki:{ki} Kd:{kd}"], without a newline. *)
Definition pid_command_str (motor_id : Z) (p_values : PidConfig.pid) : string :=
  "MOTOR:" +:+ pretty motor_id
  +:+ " Kp:" +:+ float_str (PidConfig.kp p_values)
  +:+ " Ki:" +:+ float_str (PidConfig.ki p_values)
  +:+ " Kd:" +:+ float_str (PidConfig.kd p_values).

(** The loop [for motor_id, p_values in ....items()] inside its [try]:
    one write per motor, up to the write that raises, if one does
    ([write_fails_at] is its index). *)
Definition send_pid_commands (writer : ConnectionManager.tcp_client)
    (pid_data_per_motor : PidConfig.pid_data) (write_fails_at : option nat)
    : list effect :=
  map (fun entry : Z * PidConfig.pid =>
         RobotWrite writer (pid_command_str (fst entry) (snd entry)))
    (match write_fails_at with
     | Some index => firstn index pid_data_per_motor
     | None => pid_data_per_motor
     end).

(** The cached config sent to a robot that has just connected
    ([handle_tcp_client]). *)
Definition send_cached_pid (writer : ConnectionManager.tcp_client)
    (pid_config_cache : PidConfig.pid_data) (write_fails_at : option nat)
    : list effect :=
  match pid_config_cache with
  | [] => []
  | _ => send_pid_commands writer pid_config_cache write_fails_at
  end.

(** [load_pid_config_from_file], the whole method: what it returns and the
    writes to the target.  [conn_tuple.writer] and [conn_tuple.alias] are
    attribute reads on the registered tuple, outside the [try]. *)
Definition load_pid_config_from_file (m : robot_alias_manager)
    (_tcp_clients : gmap string ConnectionManager.tcp_client)
    (lines : option (list string)) (target_robot_ip : option string)
    (write_fails_at : option nat)
    : result (option PidConfig.pid_data * list effect) :=
  match fst (PidConfig.load_pid_config_from_file py_int py_float lines) with
  | None => Ok (None, [])
  | Some pid_data_per_motor =>
      match target_robot_ip with
      | None => Ok (Some pid_data_per_motor, [])
      | Some ip =>
          let unique_key_target :=
            match nonempty (dict_get ip (ip_to_alias m)) with
            | Some alias_for_ip => dict_get alias_for_ip (alias_to_ip_port m)
            | None => None
            end in
          writer_to_use ←
            match nonempty unique_key_target with
            | Some key =>
                match ConnectionManager.get_tcp_client key _tcp_clients with
                | Some conn_tuple =>
                    writer ← py_getattr tuple_attributes "writer" conn_tuple;
                    _ ← py_getattr tuple_attributes "alias" conn_tuple;
                    Ok (Some writer)
                | None => Ok None
                end
            | None => Ok None
            end;
          Ok (Some pid_data_per_motor,
              match writer_to_use with
              | Some writer =>
                  send_pid_commands writer pid_data_per_motor write_fails_at
              | None => []
              end)
      end
  end.

(** The [load_pid_config] branch of the UI dispatcher, inside its
    [try ... except Exception].  After the load the branch sends
    nothing. *)
Definition load_pid_config (m : robot_alias_manager)
    (_tcp_clients : gmap string ConnectionManager.tcp_client)
    (target_ip target_alias : option string) (lines : option (list string))
    (write_fails_at : option nat) : list effect :=
  let ip_to_send_pid :=
    match nonempty target_alias with
    | Some alias => dict_get alias (alias_to_ip m)
    | None => nonempty target_ip
    end in
  match nonempty ip_to_send_pid with
  | None =>
      [ WsSend (DirectBridge.error_reply "load_pid_config"
                  "Target robot IP or alias must be specified.") ]
  | Some ip =>
      DirectBridge.catch_server_error str_exn
        (loaded ← load_pid_config_from_file m _tcp_clients lines (Some ip)
                    write_fails_at;
         Ok (snd loaded))
  end.
End Push.
End PidCommands.

(** Stand-ins for [int()] and [float()], exact on the literals of the PID
    examples: the motors 1 and 2, the gains 0.5, 0.25 and 0.125. *)
Module PidExample.
Definition py_int (s : string) : option Z :=
  if String.eqb s "1" then Some 1%Z
  else if String.eqb s "2" then Some 2%Z
  else None.

Definition py_float (s : string) : option float :=
  if String.eqb s "0.5" then Some 0.5%float
  else if String.eqb s "0.25" then Some 0.25%float
  else if String.eqb s "0.125" then Some 0.125%float
  else None.
End PidExample.

(** * Log sink: [DataLogger] *)

Module DataLogger.

(** [self.log_files]: for each robot key and data type, the open file,
    named by its path; and the text of the log files on disk. *)
Record logger : Type := mk_logger {
  log_files : gmap string (gmap string string);
  log_content : gmap string string
}.

Section Logger.
Variable os_path_join : string -> string -> string.
(** [self.log_directory] and [self.session_start_time]. *)
Variables log_directory session_start_time : string.
(** Whether [open(log_filename, "a")] succeeds. *)
Variable open_ok : string -> bool.
(** [str(v)] on a value that is not a string; [json.dumps];
    [f"{v:.<digits>f}"], which raises on a value that is not a number. *)
Variable py_str : json -> string.
Variable json_dumps : json -> string.
Variable format_fixed : nat -> json -> result string.

Definition safe_robot_key (unique_robot_key : string) : string :=
  py_replace "." "_" (py_replace ":" "_" unique_robot_key).

Definition log_filename (unique_robot_key data_type : string) : string :=
  os_path_join log_directory
    (data_type +:+ "_" +:+ safe_robot_key unique_robot_key +:+ "_"
     +:+ session_start_time +:+ ".txt").

(** The header written into an empty file; no write for the other
    types. *)
Definition header (data_type : string) : string :=
  if String.eqb data_type "encoder" then "Time RPM1 RPM2 RPM3" +:+ newline
  else if String.eqb data_type "bno055" || String.eqb data_type "imu" then
    "Time Heading Pitch Roll W X Y Z AccelX AccelY AccelZ GravityX GravityY GravityZ"
    +:+ newline
  else if String.eqb data_type "log" || String.eqb data_type "log_data" then
    "Time Message" +:+ newline
  else if String.eqb data_type "position_update" then
    "Time X Y Theta" +:+ newline
  else "".

(** [get_log_file]: the open file, or [None] when it cannot be opened. *)
Definition get_log_file (unique_robot_key data_type : string) (lg : logger)
    : logger * option string :=
  let per_robot := default ∅ (log_files lg !! unique_robot_key) in
  match per_robot !! data_type with
  | Some file_handle => (lg, Some file_handle)
  | None =>
      let name := log_filename unique_robot_key data_type in
      if open_ok name then
        let text := default "" (log_content lg !! name) in
        (mk_logger
           (<[unique_robot_key := <[data_type := name]> per_robot]> (log_files lg))
           (<[name := if String.eqb text "" then header data_type else text]>
              (log_content lg)),
         Some name)
      else
        (mk_logger (<[unique_robot_key := per_robot]> (log_files lg))
           (log_content lg),
         None)
  end.

(** The [.2f] and [.4f] fields of an IMU line, with their defaults. *)
Definition imu_fields : list (string * nat * float) :=
  [ ("heading", 2, 0%float); ("pitch", 2, 0%float); ("roll", 2, 0%float);
    ("quat_w", 4, 1%float); ("quat_x", 4, 0%float); ("quat_y", 4, 0%float);
    ("quat_z", 4, 0%float);
    ("lin_accel_x", 2, 0%float); ("lin_accel_y", 2, 0%float);
    ("lin_accel_z", 2, 0%float);
    ("gravity_x", 2, 0%float); ("gravity_y", 2, 0%float);
    ("gravity_z", 2, 0%float) ].

(** [" {a:.2f} {b:.2f} ..."]: the fields in order, each after a space. *)
Fixpoint format_fields (fields : list (string * nat * float))
    (message_dict : pyobj) : result string :=
  match fields with
  | [] => Ok ""
  | (key, digits, default_value) :: fields' =>
      text ← format_fixed digits
               (py_get_default key message_dict (JFloat default_value));
      rest ← format_fields fields' message_dict;
      Ok (" " +:+ text +:+ rest)
  end.

(** The [try] block of [log_data]: the line for a message; [now] is
    [time.time()]. *)
Definition log_line (data_type : string) (message_dict : pyobj) (now : float)
    : result string :=
  let log_timestamp := py_get_default "timestamp" message_dict (JFloat now) in
  if String.eqb data_type "encoder" || String.eqb data_type "encoder_data" then
    ts ← format_fixed 3 log_timestamp;
    Ok (ts
        +:+ " " +:+ py_format py_str (py_get_default "rpm_1" message_dict (JInt 0))
        +:+ " " +:+ py_format py_str (py_get_default "rpm_2" message_dict (JInt 0))
        +:+ " " +:+ py_format py_str (py_get_default "rpm_3" message_dict (JInt 0))
        +:+ newline)
  else if String.eqb data_type "bno055" || String.eqb data_type "imu"
          || String.eqb data_type "imu_data" then
    ts ← format_fixed 3 log_timestamp;
    fields ← format_fields imu_fields message_dict;
    Ok (ts +:+ fields +:+ newline)
  else if String.eqb data_type "log" || String.eqb data_type "log_data" then
    ts ← format_fixed 3 log_timestamp;
    Ok (ts +:+ " "
        +:+ py_format py_str (py_get_default "message" message_dict (JStr ""))
        +:+ newline)
  else if String.eqb data_type "position_update" then
    ts ← format_fixed 3 log_timestamp;
    match py_get_default "position" message_dict (JObj []) with
    | JObj pos =>
        px ← format_fixed 3 (py_get_default "x" pos (JInt 0));
        py ← format_fixed 3 (py_get_default "y" pos (JInt 0));
        ptheta ← format_fixed 3 (py_get_default "theta" pos (JInt 0));
        Ok (ts +:+ " " +:+ px +:+ " " +:+ py +:+ " " +:+ ptheta +:+ newline)
    | _ => Raise AttributeError
    end
  else
    ts ← format_fixed 3 log_timestamp;
    Ok (ts +:+ " " +:+ json_dumps (JObj message_dict) +:+ newline).

(** [file_handle.write(log_line); file_handle.flush()] *)
Definition append_line (name line : string) (lg : logger) : logger :=
  mk_logger (log_files lg)
    (<[name := default "" (log_content lg !! name) +:+ line]> (log_content lg)).

(** [log_data]: an exception while the line is built is logged and
    nothing is written. *)
Definition log_data (unique_robot_key data_type : string) (message_dict : pyobj)
    (now : float) (lg : logger) : logger :=
  let (lg, file_handle) := get_log_file unique_robot_key data_type lg in
  match file_handle with
  | Some name =>
      match log_line data_type message_dict now with
      | Ok line => append_line name line lg
      | Raise _ => lg
      end
  | None => lg
  end.

(** [close_logs]: the files of one robot, or of all when no key is
    given (the keys in use, [ip:port], are not empty). *)
Definition close_logs (unique_robot_key : option string) (lg : logger) : logger :=
  match nonempty unique_robot_key with
  | Some key => mk_logger (delete key (log_files lg)) (log_content lg)
  | None => mk_logger ∅ (log_content lg)
  end.

(** What is done with the log of one robot and one data type: a message
    is logged, or the robot's logs are closed. *)
Inductive log_call : Type :=
| Log (message_dict : pyobj) (now : float)
| Close.

Definition run_log_call (unique_robot_key data_type : string) (lg : logger)
    (c : log_call) : logger :=
  match c with
  | Log message_dict now => log_data unique_robot_key data_type message_dict now lg
  | Close => close_logs (Some unique_robot_key) lg
  end.

(** The lines the calls write: none for [Close] and for a message whose
    line cannot be built. *)
Definition written (data_type : string) (c : log_call) : string :=
  match c with
  | Log message_dict now =>
      match log_line data_type message_dict now with
      | Ok line => line
      | Raise _ => ""
      end
  | Close => ""
  end.

Definition is_log (c : log_call) : bool :=
  match c with Log _ _ => true | Close => false end.
End Logger.
End DataLogger.

(** * Robot session: the frame loop of [handle_tcp_client] *)

Module RobotSession.
Import TrajectoryCalculator.

(** What the loop does with a frame, in order: a [data_logger.log_data]
    call, or a [broadcast_to_subscribers] call. *)
Inductive session_effect : Type :=
| LogData (unique_robot_key : string) (data_type : json) (message_dict : pyobj)
| Broadcast (robot_alias_source : string) (payload : pyobj).

(** The readings of [time.time()] while one frame is handled: in
    [transform_robot_message], in the two calculator methods and their
    [_try_calculate_trajectory], and for the trajectory message. *)
Record frame_clock : Type := mk_clock {
  at_transform : float;
  at_imu_update : float;
  at_imu_calc : float;
  at_encoder_update : float;
  at_encoder_calc : float;
  at_trajectory : float
}.

Definition json_of_pose (p : pose) : json :=
  JObj [ ("x", JFloat (pose_x p)); ("y", JFloat (pose_y p));
         ("theta", pose_theta p) ].

Section Frames.
Variable py_str : json -> string.
Variables libm_cos libm_sin : float -> float.
(** The peer of the session, its alias and its key. *)
Variables robot_ip_address current_alias unique_robot_key : string.

Definition trajectory_message_for_ws (now : float) (t : trajectory) : pyobj :=
  [ ("type", JStr "realtime_trajectory");
    ("robot_ip", JStr robot_ip_address);
    ("robot_alias", JStr current_alias);
    ("timestamp", JFloat now);
    ("position", json_of_pose (position t));
    ("path", JArr (map json_of_pose (path t))) ].

(** A payload that carries the address and the alias of the session and
    a string [type]: what the entry check of the router asks for. *)
Definition addressed (payload : pyobj) : Prop :=
  py_get "robot_alias" payload = JStr current_alias
  /\ py_get "robot_ip" payload = JStr robot_ip_address
  /\ exists t : string, dict_get "type" payload = Some (JStr t).

(** [if trajectory_result and ...: broadcast]; a call that raised has
    left the [try] block already. *)
Definition broadcast_trajectory (clk : frame_clock)
    (trajectory_result : result (option trajectory)) : list session_effect :=
  match trajectory_result with
  | Ok (Some t) =>
      [ Broadcast current_alias (trajectory_message_for_ws (at_trajectory clk) t) ]
  | _ => []
  end.

(** [self._latest_imu_data] and the calculator's [robot_data]. *)
Definition session_state : Type := gmap string pyobj * gmap string robot_state.

(** The body of the loop for one parsed line, inside
    [try ... except Exception]: an exception ends the handling of the
    frame and keeps what was done before it. *)
Definition process_frame (message_from_robot : json) (clk : frame_clock)
    (st : session_state) : session_state * list session_effect :=
  let (_latest_imu_data, robot_data) := st in
  match message_from_robot with
  | JObj message_dict =>
      match transform_robot_message py_str (at_transform clk) message_dict with
      | Raise _ => (st, [])
      | Ok transformed_message =>
          let transformed_message :=
            dict_set "robot_alias" (JStr current_alias)
              (dict_set "robot_ip" (JStr robot_ip_address) transformed_message) in
          let data_type_for_log_and_broadcast :=
            py_get_default "type" transformed_message (JStr "unknown_data") in
          let relayed :=
            [ LogData unique_robot_key data_type_for_log_and_broadcast
                transformed_message;
              Broadcast current_alias transformed_message ] in
          let msg_type := py_get "type" transformed_message in
          if py_eq_str msg_type "encoder_data" then
            match py_get "data" transformed_message,
                  py_get "timestamp" transformed_message with
            | _, JNull => (st, relayed)
            | JArr (rpm_1 :: rpm_2 :: rpm_3 :: _), message_timestamp =>
                let log_payload_encoder : pyobj :=
                  [ ("timestamp", message_timestamp);
                    ("robot_ip", JStr robot_ip_address);
                    ("robot_alias", JStr current_alias);
                    ("rpm_1", rpm_1); ("rpm_2", rpm_2); ("rpm_3", rpm_3) ] in
                let logged :=
                  relayed ++ [ LogData unique_robot_key (JStr "encoder_data")
                                 log_payload_encoder ] in
                let (robot_data, refreshed) :=
                  match _latest_imu_data !! unique_robot_key with
                  | Some latest_imu =>
                      update_imu_data libm_cos libm_sin unique_robot_key latest_imu
                        (at_imu_update clk) (at_imu_calc clk) robot_data
                  | None => (robot_data, Ok None)
                  end in
                match refreshed with
                | Raise _ => ((_latest_imu_data, robot_data), logged)
                | Ok _ =>
                    let (robot_data, trajectory_result) :=
                      update_encoder_data libm_cos libm_sin unique_robot_key
                        message_dict (at_encoder_update clk) (at_encoder_calc clk)
                        robot_data in
                    ((_latest_imu_data, robot_data),
                     logged ++ broadcast_trajectory clk trajectory_result)
                end
            | _, _ => (st, relayed)
            end
          else if py_eq_str msg_type "imu_data" then
            let _latest_imu_data :=
              <[unique_robot_key := transformed_message]> _latest_imu_data in
            match py_get_default "data" transformed_message (JObj []) with
            | JObj imu_measurement_data =>
                let (robot_data, trajectory_result) :=
                  update_imu_data libm_cos libm_sin unique_robot_key
                    imu_measurement_data (at_imu_update clk) (at_imu_calc clk)
                    robot_data in
                ((_latest_imu_data, robot_data),
                 relayed ++ broadcast_trajectory clk trajectory_result)
            | _ =>
                (* not reached: the [data] of an [imu_data] envelope is the
                   dict that [transform_robot_message] builds *)
                ((_latest_imu_data, robot_data), relayed)
            end
          else (st, relayed)
      end
  | _ => (st, [])
  end.

(** The frames of one session, in order. *)
Definition process_frames (frames : list (json * frame_clock))
    (st : session_state) : session_state * list session_effect :=
  fold_left
    (fun acc frame =>
       let (st', effects) := process_frame (fst frame) (snd frame) (fst acc) in
       (st', snd acc ++ effects))
    frames (st, []).
End Frames.
End RobotSession.

(** * Properties *)

(** ** Fields of a UI command *)

Lemma nonempty_Some (o : option string) (s : string) :
  nonempty o = Some s <-> o = Some s /\ s <> "".
Proof.
  unfold nonempty. destruct o as [s'|]; [|by split; [|intros []]].
  destruct (String.eqb_spec s' ""); split; try done.
  - intros [[= ->] ?]. done.
  - intros [= ->]. done.
  - intros [[= ->] ?]. done.
Qed.

Lemma str_truthy_nonempty (o : option string) :
  str_truthy o = bool_decide (is_Some (nonempty o)).
Proof.
  unfold str_truthy, nonempty. destruct o as [s|]; [|done].
  destruct (String.eqb s ""); done.
Qed.

(** ** Frame normalizer *)

Section NormalizerFacts.
Variable py_str : json -> string.

(** The envelopes are built on literal keys: the lookups compute. *)
Ltac core_lookup :=
  unfold has_core, set_reported_id, dict_has;
  repeat match goal with
         | |- context [if truthy ?v then _ else _] => destruct (truthy v)
         end;
  simpl; repeat split; reflexivity.

(** Whenever [transform_robot_message] returns, the envelope has the
    four keys and one of the six types. *)
Lemma transform_robot_message_shape (now : float) (m e : pyobj) :
  transform_robot_message py_str now m = Ok e -> envelope_ok py_str m e.
Proof.
  unfold transform_robot_message, envelope_ok, envelope_type.
  destruct (if py_eq_str (py_get "type" m) "bno055" then _ else _) as [c|].
  { intros [= <-]. exists (JStr "imu_data"). split; [core_lookup | tauto]. }
  destruct (_ && _ && _).
  { intros [= <-]. exists (JStr "encoder_data"). split; [core_lookup | tauto]. }
  destruct (py_eq_str (py_get "type" m) "log").
  { intros [= <-]. exists (JStr "log"). split; [core_lookup | tauto]. }
  destruct (_ && _).
  { destruct (dict_has "robot_id" m).
    { intros [= <-]. exists (JStr "registration"). split; [core_lookup | tauto]. }
    destruct (truthy (py_get "id" m)).
    - destruct (py_in_str _ _) as [found|]; simpl; [|done].
      destruct (negb found); intros [= <-]; exists (JStr "registration");
        (split; [core_lookup | tauto]).
    - intros [= <-]. exists (JStr "registration"). split; [core_lookup | tauto]. }
  destruct (truthy (py_get "type" m)); intros [= <-]; eexists;
    (split; [core_lookup | tauto]).
Qed.

(** The only way [transform_robot_message] raises: a registration frame
    without [robot_id], with a true [id], whose [data] is not a
    container. *)
Lemma transform_robot_message_raise (now : float) (m : pyobj) (e : exn) :
  transform_robot_message py_str now m = Raise e ->
  e = TypeError
  /\ py_get "type" m = JStr "registration"
  /\ dict_has "capabilities" m = true
  /\ dict_has "robot_id" m = false
  /\ truthy (py_get "id" m) = true
  /\ py_in_str "robot_id" (py_get_default "data" m (JObj [])) = Raise TypeError.
Proof.
  unfold transform_robot_message.
  destruct (if py_eq_str (py_get "type" m) "bno055" then _ else _); [done|].
  destruct (_ && _ && _); [done|].
  destruct (py_eq_str (py_get "type" m) "log"); [done|].
  destruct (py_eq_str (py_get "type" m) "registration") eqn:Hty; simpl.
  2: { destruct (truthy _); done. }
  destruct (dict_has "capabilities" m) eqn:Hcap; simpl.
  2: { destruct (truthy _); done. }
  destruct (dict_has "robot_id" m) eqn:Hrid; [done|].
  destruct (truthy (py_get "id" m)) eqn:Hid; [|done].
  destruct (py_in_str _ _) as [found|e'] eqn:Hin; simpl.
  { destruct (negb found); done. }
  intros [= <-].
  assert (e' = TypeError) as ->.
  { unfold py_in_str in Hin. destruct (py_get_default _ _ _); congruence. }
  repeat split; try done.
  unfold py_eq_str in Hty. destruct (py_get "type" m); try done.
  apply String.eqb_eq in Hty. by subst.
Qed.

(** C10: [transform_robot_message] is not total on JSON objects.  On the
    registration frame
    [{"type": "registration", "capabilities": [], "id": "r1", "data": null}]
    the test ["robot_id" not in message_dict.get("data", {})] is applied to
    [None] and the call raises [TypeError], whatever the clock reads. *)
Theorem transform_robot_message_raises_on_registration (now : float) :
  transform_robot_message py_str now
    [ ("type", JStr "registration"); ("capabilities", JArr []);
      ("id", JStr "r1"); ("data", JNull) ]
  = Raise TypeError.
Proof. reflexivity. Qed.
End NormalizerFacts.

(** ** [request_trajectory] *)

(** C2: a [request_trajectory] command never yields a [trajectory_data]
    reply.  [TrajectoryCalculator] binds neither [max_points] nor
    [get_trajectory]; the default of [payload.get("limit", ...)] is evaluated
    first and raises [AttributeError], which the dispatcher answers with a
    ["Server error: ..."] reply, for every target, limit and registry. *)
Theorem request_trajectory_replies_server_error
    (str_exn : exn -> string) (max_points : json)
    (get_trajectory : string -> json -> json)
    (m : Registry.robot_alias_manager) (target_ip target_alias : option string)
    (limit : option json) (now : float) :
  DirectBridge.handle_request_trajectory str_exn max_points get_trajectory
    m target_ip target_alias limit now
  = [ WsSend [ ("type", JStr "error");
               ("message", JStr ("Server error: " +:+ str_exn AttributeError)) ] ].
Proof. reflexivity. Qed.

(** ** PID config file *)

Section PidConfigFacts.
Variable py_int : string -> option Z.
Variable py_float : string -> option float.
Variable float_str : float -> string.

(** A line that does not split into four fields at the commas is skipped
    with a warning. *)
Lemma load_line_not_four_fields (acc : PidConfig.pid_data * list string)
    (line : string) :
  py_strip line <> "" ->
  String.prefix "#" (py_strip line) = false ->
  length (py_split "," (py_strip line)) <> 4 ->
  PidConfig.load_line py_int py_float acc line
  = (fst acc, snd acc ++ [py_strip line]).
Proof.
  intros Hne Hhash Hlen. unfold PidConfig.load_line. destruct acc as [d w].
  apply String.eqb_neq in Hne. rewrite Hne, Hhash. simpl.
  destruct (py_split "," (py_strip line)) as [|p0 [|p1 [|p2 [|p3 [|p4 l]]]]];
    simpl in *; try done.
Qed.

(** The second record form, [<n>,<kp>,<ki>,<kd>], is loaded. *)
Lemma load_comma_record (a b c : float) :
  py_int "1" = Some 1%Z -> py_float "0.5" = Some a ->
  py_float "0.1" = Some b -> py_float "0.05" = Some c ->
  PidConfig.load_pid_config_from_file py_int py_float
    (Some [ "# gains" +:+ newline; "1,0.5,0.1,0.05" +:+ newline ])
  = (Some [ (1%Z, PidConfig.mk_pid a b c) ], []).
Proof.
  intros Hi Ha Hb Hc. cbv. rewrite Hi, Ha, Hb, Hc. reflexivity.
Qed.

(** C3: the loader does not accept the record form
    [Motor<n>:<kp>,<ki>,<kd>].  Such a line has three comma-separated
    fields, not four, so it is skipped: the file [Motor1:0.5,0.1,0.05]
    loads nothing, and neither does the file that
    [save_pid_config_to_file] writes by default. *)
Theorem load_pid_config_skips_motor_colon_records :
  PidConfig.load_pid_config_from_file py_int py_float
    (Some [ "Motor1:0.5,0.1,0.05" +:+ newline ])
  = (None, [ "Motor1:0.5,0.1,0.05" ])
  /\ PidConfig.load_pid_config_from_file py_int py_float
       (Some (PidConfig.save_pid_config_to_file float_str None))
     = (None, [ "Motor1:0.0,0.0,0.0"; "Motor2:0.0,0.0,0.0"; "Motor3:0.0,0.0,0.0" ])
  /\ PidConfig.pid_config_cache py_int py_float
       (Some (PidConfig.save_pid_config_to_file float_str None)) = [].
Proof. repeat split; vm_compute; reflexivity. Qed.
End PidConfigFacts.

(** ** [send_to_robot]: target resolution *)

Section SendToRobotFacts.
Import DirectBridge.
Variable py_str : json -> string.
Variable json_dumps : json -> string.
Variable str_exn : exn -> string.

(** The key found through the IP does not depend on the alias field. *)
Lemma resolve_by_ip_key (m : Registry.robot_alias_manager)
    (target_ip alias alias' : option string) :
  fst (resolve_by_ip m target_ip alias) = fst (resolve_by_ip m target_ip alias').
Proof.
  unfold resolve_by_ip. destruct (nonempty target_ip) as [ip|]; [|done].
  destruct (str_truthy _); [done|].
  destruct (List.find _ _) as [[key alias_val]|]; done.
Qed.

Lemma prefix_colon_nonempty (ip key : string) :
  String.prefix (ip +:+ ":") key = true -> key <> "".
Proof. intros Hp ->. destruct ip; discriminate. Qed.

(** When the IP gives no key, the first block leaves the alias field as
    it was. *)
Lemma resolve_by_ip_no_key (m : Registry.robot_alias_manager)
    (target_ip alias : option string) :
  nonempty (fst (resolve_by_ip m target_ip alias)) = None ->
  snd (resolve_by_ip m target_ip alias) = alias.
Proof.
  unfold resolve_by_ip. destruct (nonempty target_ip) as [ip|]; [|done].
  destruct (str_truthy _); [done|].
  destruct (List.find _ _) as [[key alias_val]|] eqn:Hfind; [|done].
  apply find_some in Hfind as [_ Hp]. apply prefix_colon_nonempty in Hp.
  cbn [fst snd]. intros Hk. exfalso.
  assert (nonempty (Some key) = Some key) as Hs by (by apply nonempty_Some).
  congruence.
Qed.

(** A key found through the IP is the key the resolution ends on,
    whatever the alias field holds. *)
Lemma resolve_send_target_ip_first (m : Registry.robot_alias_manager)
    (target_ip alias : option string) (k : string) :
  resolved_key (resolve_send_target m target_ip None) = Some k ->
  resolved_key (resolve_send_target m target_ip alias) = Some k.
Proof.
  unfold resolved_key, resolve_send_target.
  pose proof (resolve_by_ip_key m target_ip None alias) as Hkey.
  pose proof (resolve_by_ip_no_key m target_ip None) as Hnone.
  destruct (resolve_by_ip m target_ip None) as [key0 alias0].
  destruct (resolve_by_ip m target_ip alias) as [key1 alias1].
  simpl in Hkey, Hnone. subst key1.
  destruct (str_truthy key0) eqn:Ht0; simpl.
  - destruct (nonempty alias0), (nonempty alias1); done.
  - rewrite str_truthy_nonempty in Ht0. apply bool_decide_eq_false in Ht0.
    destruct (nonempty key0) eqn:Hk0; [exfalso; apply Ht0; by eexists|].
    rewrite Hnone by done. simpl. congruence.
Qed.

(** C1, as the code has it: when [robot_ip] and [robot_alias] resolve to
    two different connected robots, the command is written to the robot
    designated by [robot_ip], and to no other; the alias is consulted
    only when the IP gives no key. *)
Theorem send_to_robot_ip_wins (m : Registry.robot_alias_manager)
    (_tcp_clients : gmap string ConnectionManager.tcp_client)
    (ip alias k_ip k_alias : string)
    (w_ip w_alias : ConnectionManager.tcp_client)
    (command : pyobj) (data : string) :
  resolved_key (resolve_send_target m (Some ip) None) = Some k_ip ->
  resolved_key (resolve_send_target m None (Some alias)) = Some k_alias ->
  k_ip <> k_alias ->
  ConnectionManager.get_tcp_client k_ip _tcp_clients = Some w_ip ->
  ConnectionManager.get_tcp_client k_alias _tcp_clients = Some w_alias ->
  command <> [] ->
  encode_robot_command py_str json_dumps command = Ok data ->
  robot_writes
    (send_to_robot py_str json_dumps str_exn m _tcp_clients
       (Some ip) (Some alias) (JObj command) (Ok ()))
  = [ (w_ip, data) ].
Proof.
  intros Hip _ _ Hw _ Hcmd Henc.
  apply (resolve_send_target_ip_first _ _ (Some alias)) in Hip.
  unfold send_to_robot. destruct command as [|entry command]; [done|].
  unfold resolved_key in Hip.
  destruct (resolve_send_target m (Some ip) (Some alias)) as [[key ip'] alias'].
  simpl in Hip. rewrite Hip, Hw, Henc. reflexivity.
Qed.

End SendToRobotFacts.

(** In the fleet of two robots, [robot_ip = 10.0.0.5] is [robot1] and
    [robot_alias = robot2] is the other robot; the command goes to the
    session of [robot1]. *)
Lemma send_to_robot_ip_wins_witness :
  DirectBridge.robot_writes
    (DirectBridge.send_to_robot Fleet.no_text Fleet.no_text Fleet.no_text
       Fleet.registry Fleet.sessions
       (Some "10.0.0.5") (Some "robot2") (JObj [ ("type", JStr "ping") ]) (Ok ()))
  = [ (1, newline) ].
Proof.
  apply (send_to_robot_ip_wins Fleet.no_text Fleet.no_text Fleet.no_text
           Fleet.registry Fleet.sessions "10.0.0.5" "robot2"
           "10.0.0.5:4000" "10.0.0.6:4001" 1 2);
    first [ reflexivity | discriminate | vm_compute; reflexivity ].
Defined.

(** With no [robot_ip], the alias designates the robot. *)
Lemma send_to_robot_by_alias :
  map fst
    (DirectBridge.robot_writes
       (DirectBridge.send_to_robot Fleet.no_text Fleet.no_text Fleet.no_text
          Fleet.registry Fleet.sessions None (Some "robot2")
          (JObj [ ("type", JStr "ping") ]) (Ok ())))
  = [ 2 ].
Proof. vm_compute. reflexivity. Qed.

(** C1, as stated, fails: with [robot_ip] naming [robot1] and [robot_alias]
    naming [robot2], both connected, the command is not written to the
    session of [robot2] (socket 2) but to that of [robot1] (socket 1). *)
Lemma send_to_robot_alias_does_not_win :
  DirectBridge.resolved_key
    (DirectBridge.resolve_send_target Fleet.registry (Some "10.0.0.5") None)
  = Some "10.0.0.5:4000"
  /\ DirectBridge.resolved_key
       (DirectBridge.resolve_send_target Fleet.registry None (Some "robot2"))
     = Some "10.0.0.6:4001"
  /\ ConnectionManager.get_tcp_client "10.0.0.5:4000" Fleet.sessions = Some 1
  /\ ConnectionManager.get_tcp_client "10.0.0.6:4001" Fleet.sessions = Some 2
  /\ map fst
       (DirectBridge.robot_writes
          (DirectBridge.send_to_robot Fleet.no_text Fleet.no_text Fleet.no_text
             Fleet.registry Fleet.sessions (Some "10.0.0.5") (Some "robot2")
             (JObj [ ("type", JStr "ping") ]) (Ok ())))
     = [ 1 ]
  /\ map fst
       (DirectBridge.robot_writes
          (DirectBridge.send_to_robot Fleet.no_text Fleet.no_text Fleet.no_text
             Fleet.registry Fleet.sessions (Some "10.0.0.5") (Some "robot2")
             (JObj [ ("type", JStr "ping") ]) (Ok ())))
     <> [ 2 ].
Proof. repeat split; try (vm_compute; reflexivity). vm_compute. discriminate. Qed.

(** ** Subscriptions *)

Section SubscriptionFacts.
Import DirectBridge.

(** C7, as the code has it: when [c] does not yet hold [T] for [A] (and,
    as the handlers keep it, holds no empty set for [A]), [subscribe]
    followed by [unsubscribe] leaves the subscription map of [c] as it
    was, an absent entry read as the empty map. *)
Theorem subscribe_unsubscribe_restores (m : Registry.robot_alias_manager)
    (c : client_addr) (A T : string) (subs : subscriptions) :
  dict_has A (Registry.alias_to_ip_port m) = true ->
  A <> "" -> T <> "" ->
  T ∉ types_of c A subs ->
  client_subscriptions c subs !! A <> Some ∅ ->
  client_subscriptions c
    (fst (unsubscribe c (Some T) (Some A)
            (fst (subscribe m c (Some T) (Some A) subs))))
  = client_subscriptions c subs.
Proof.
  intros Hreg HA HT Hnotin Hnonempty.
  assert (nonempty (Some A) = Some A) as HnA by (by apply nonempty_Some).
  assert (nonempty (Some T) = Some T) as HnT by (by apply nonempty_Some).
  unfold subscribe, unsubscribe. rewrite HnT, HnA, Hreg. cbn [negb fst].
  unfold add_subscription. rewrite lookup_insert_eq, lookup_insert_eq.
  cbn [fst]. unfold remove_subscription.
  unfold types_of in Hnotin. fold (client_subscriptions c subs) in *.
  set (cs := client_subscriptions c subs) in *.
  set (types := default ∅ (cs !! A)) in *.
  assert ((types ∪ {[T]}) ∖ {[T]} = types) as Hdiscard.
  { apply set_eq. intros t. rewrite elem_of_difference, elem_of_union,
      elem_of_singleton. split; [tauto|]. intros Ht. split; [tauto|].
    intros ->. done. }
  rewrite Hdiscard.
  assert (Hcs : (if decide (types = ∅)
                 then delete A (<[A := types ∪ {[T]}]> cs)
                 else <[A := types]> (<[A := types ∪ {[T]}]> cs)) = cs).
  { destruct (decide (types = ∅)) as [He|He].
    - apply delete_insert_id. subst types.
      destruct (cs !! A) as [t|] eqn:Hl; [|done]. simpl in He. by subst.
    - rewrite insert_insert_eq. apply insert_id. subst types.
      destruct (cs !! A) as [t|] eqn:Hl; [done|]. by simpl in He. }
  rewrite Hcs. unfold client_subscriptions at 1.
  destruct (decide (cs = ∅)) as [He|He].
  - by rewrite lookup_delete_eq.
  - by rewrite lookup_insert_eq.
Qed.
End SubscriptionFacts.

(** The fleet's client subscribes to [imu_data] of [robot1], a registered
    alias, from an empty map, and unsubscribes again. *)
Lemma subscribe_unsubscribe_restores_witness :
  DirectBridge.client_subscriptions Fleet.ui_client
    (fst (DirectBridge.unsubscribe Fleet.ui_client (Some "imu_data") (Some "robot1")
            (fst (DirectBridge.subscribe Fleet.registry Fleet.ui_client
                    (Some "imu_data") (Some "robot1") ∅))))
  = DirectBridge.client_subscriptions Fleet.ui_client ∅.
Proof.
  apply (subscribe_unsubscribe_restores Fleet.registry Fleet.ui_client
           "robot1" "imu_data" ∅);
    first [ reflexivity | discriminate
          | unfold DirectBridge.types_of, DirectBridge.client_subscriptions;
            rewrite lookup_empty; simpl; rewrite ?lookup_empty; simpl;
            first [ set_solver | discriminate ] ].
Defined.

(** C7, as stated, fails on a prior state that already holds the type: from
    [{robot1: {imu_data}}], a second [subscribe] changes nothing and the
    [unsubscribe] removes the type, its set and the client's entry. *)
Lemma subscribe_unsubscribe_drops_prior_subscription :
  let prior :=
    DirectBridge.add_subscription Fleet.ui_client "robot1" "imu_data" ∅ in
  dict_has "robot1" (Registry.alias_to_ip_port Fleet.registry) = true
  /\ DirectBridge.client_subscriptions Fleet.ui_client
       (fst (DirectBridge.unsubscribe Fleet.ui_client (Some "imu_data") (Some "robot1")
               (fst (DirectBridge.subscribe Fleet.registry Fleet.ui_client
                       (Some "imu_data") (Some "robot1") prior))))
     <> DirectBridge.client_subscriptions Fleet.ui_client prior.
Proof.
  split; [reflexivity|]. intros Heq.
  apply (f_equal (fun cs : gmap string (gset string) => cs !! "robot1")) in Heq.
  vm_compute in Heq. discriminate.
Qed.

(** ** Firmware staging *)

Lemma py_int_eq_int (n z : Z) : py_int_eq n (JInt z) = true <-> n = z.
Proof. simpl. apply Z.eqb_eq. Qed.

(** C8: finalizing an upload in progress returns the staged path exactly
    when the bytes received equal the declared size; in both outcomes the
    entry is removed and its file closed; on a mismatch the handler replies
    [error] with stage [upload_finish] and leaves the OTA arm as it was. *)
Theorem upload_firmware_end_finalization (str_exn : exn -> string)
    (_uploads : FirmwareUploadManager.uploads) (fs : filesystem)
    (o : OTAConnection.ota) (robot_ip : option string)
    (inf : FirmwareUploadManager.upload) :
  _uploads !! robot_ip = Some inf ->
  let size_matches :=
    py_int_eq (Z.of_nat (FirmwareUploadManager.received inf))
      (FirmwareUploadManager.filesize inf) in
  let '(_uploads', fs', fw_path) :=
    FirmwareUploadManager.finish robot_ip (_uploads, fs) in
  (fw_path = Some (FirmwareUploadManager.path inf) <-> size_matches = true)
  /\ (fw_path = None <-> size_matches = false)
  /\ (forall n : Z, FirmwareUploadManager.filesize inf = JInt n ->
        (size_matches = true <-> Z.of_nat (FirmwareUploadManager.received inf) = n))
  /\ _uploads' !! robot_ip = None
  /\ (FirmwareUploadManager.file inf ∉ open_files fs')
  /\ (size_matches = false ->
        DirectBridge.upload_firmware_end str_exn robot_ip (_uploads, fs, o)
        = ((_uploads', fs', o),
           [ WsSend [ ("type", JStr "error"); ("stage", JStr "upload_finish");
                      ("robot_ip", json_of_field robot_ip);
                      ("message", JStr "Firmware file incomplete") ] ])).
Proof.
  intros Hup. cbn zeta.
  unfold DirectBridge.upload_firmware_end, FirmwareUploadManager.finish.
  rewrite Hup.
  assert (Hint : forall (b : bool) (n : Z),
    py_int_eq (Z.of_nat (FirmwareUploadManager.received inf))
      (FirmwareUploadManager.filesize inf) = b ->
    FirmwareUploadManager.filesize inf = JInt n ->
    (b = true <-> Z.of_nat (FirmwareUploadManager.received inf) = n)).
  { intros b n Hb Hn. rewrite Hn in Hb. rewrite <- Hb. apply py_int_eq_int. }
  assert (Hclosed : FirmwareUploadManager.file inf
                    ∉ open_files (fs_close (FirmwareUploadManager.file inf) fs)).
  { simpl. rewrite elem_of_difference, elem_of_singleton. tauto. }
  destruct (py_int_eq _ _) eqn:Hsize; cbn [negb].
  - split; [done|]. split; [done|].
    split; [intros n Hn; by apply (Hint true n)|].
    split; [apply lookup_delete_eq|]. split; [exact Hclosed | done].
  - split; [done|]. split; [done|].
    split; [intros n Hn; by apply (Hint false n)|].
    split; [apply lookup_delete_eq|]. split; [exact Hclosed | done].
Qed.

(** An upload for [10.0.0.5] that declared 4 bytes and received 3. *)
Lemma upload_firmware_end_finalization_witness :
  let inf := FirmwareUploadManager.mk_upload 0 "temp_firmware/fw.bin" (JInt 4) 3 in
  let _uploads : FirmwareUploadManager.uploads := {[ Some "10.0.0.5" := inf ]} in
  let fs := mk_filesystem ∅ {[ 0 ]} 1 in
  let '(_uploads', fs', fw_path) :=
    FirmwareUploadManager.finish (Some "10.0.0.5") (_uploads, fs) in
  (fw_path = Some "temp_firmware/fw.bin" <-> false = true)
  /\ (fw_path = None <-> false = false)
  /\ (forall n : Z, JInt 4 = JInt n -> (false = true <-> 3%Z = n))
  /\ _uploads' !! Some "10.0.0.5" = None
  /\ (0 ∉ open_files fs')
  /\ (false = false ->
        DirectBridge.upload_firmware_end Fleet.no_text (Some "10.0.0.5")
          (_uploads, fs, OTAConnection.disarmed)
        = ((_uploads', fs', OTAConnection.disarmed),
           [ WsSend [ ("type", JStr "error"); ("stage", JStr "upload_finish");
                      ("robot_ip", JStr "10.0.0.5");
                      ("message", JStr "Firmware file incomplete") ] ])).
Proof.
  exact (upload_firmware_end_finalization Fleet.no_text
           {[ Some "10.0.0.5" :=
                FirmwareUploadManager.mk_upload 0 "temp_firmware/fw.bin" (JInt 4) 3 ]}
           (mk_filesystem ∅ {[ 0 ]} 1) OTAConnection.disarmed (Some "10.0.0.5")
           (FirmwareUploadManager.mk_upload 0 "temp_firmware/fw.bin" (JInt 4) 3)
           (lookup_singleton_eq _ _)).
Defined.

(** ** OTA server *)

Section OtaFacts.
Import OTAConnection.

(** With no arm, an accept sends nothing and changes nothing. *)
Lemma handle_ota_disarmed (robot_actual_ip : string) (io : transfer_io)
    (fs : filesystem) :
  handle_ota_robot_connection robot_actual_ip io (disarmed, fs)
  = (disarmed, fs, []).
Proof. reflexivity. Qed.

(** Without a re-arm, every later accept receives nothing. *)
Lemma serve_disarmed (accepts : list (string * transfer_io)) (fs : filesystem) :
  serve accepts (disarmed, fs)
  = (disarmed, fs, map (fun _ => []) accepts).
Proof.
  induction accepts as [|[ip io] accepts IH]; [done|].
  cbn [serve]. rewrite handle_ota_disarmed, IH. reflexivity.
Qed.

(** The chunk loop has fuel enough: with no I/O error, it sends the whole
    of what remains. *)
Lemma send_chunks_complete (io : transfer_io) (fuel index : nat)
    (rest sent : list Byte.byte) :
  drain_fails_at io = None -> length rest < fuel ->
  send_chunks fuel io index rest sent = (sent ++ rest, true).
Proof.
  intros Hio. revert index rest sent.
  induction fuel as [|fuel IH]; intros index rest sent Hlen; [lia|].
  cbn [send_chunks].
  destruct rest as [|b rest]; [by rewrite app_nil_r|].
  change (firstn chunk_size (b :: rest))
    with (b :: firstn (pred chunk_size) rest).
  rewrite Hio. rewrite bool_decide_eq_false_2 by done.
  rewrite IH.
  - rewrite <- app_assoc. f_equal. f_equal.
    change (b :: firstn (pred chunk_size) rest)
      with (firstn chunk_size (b :: rest)).
    apply firstn_skipn.
  - change (skipn chunk_size (b :: rest)) with (skipn (pred chunk_size) rest).
    rewrite length_skipn. simpl in Hlen. lia.
Qed.

(** A transfer without I/O error delivers the whole file and deletes it. *)
Lemma ota_transfer_complete (robot_actual_ip current_path : string)
    (io : transfer_io) (fs : filesystem) (data : list Byte.byte) :
  current_path <> "" ->
  contents fs !! current_path = Some data ->
  drain_fails_at io = None -> remove_ok io = true ->
  handle_ota_robot_connection robot_actual_ip io
    (mk_ota (Some current_path) (Some robot_actual_ip), fs)
  = (disarmed, fs_remove current_path fs, data).
Proof.
  intros Hne Hdata Hio Hrm. unfold handle_ota_robot_connection.
  cbn [firmware_to_send_path ota_server_robot_ip_target str_truthy].
  apply String.eqb_neq in Hne. rewrite Hne. cbn [negb andb].
  rewrite bool_decide_eq_true_2 by done. rewrite Hdata.
  rewrite send_chunks_complete by (done || lia).
  unfold fs_exists. rewrite Hdata, Hrm.
  rewrite bool_decide_eq_true_2 by (by eexists). reflexivity.
Qed.

(** Connections that do not overlap: an accept from the armed target,
    whether the transfer completes or an I/O error stops it, leaves the
    server disarmed; every accept after it, from any address, receives no
    byte, as long as nothing re-arms. *)
Lemma serve_one_transfer_per_arming (o : ota) (fs : filesystem)
    (robot_actual_ip current_path : string) (io : transfer_io)
    (accepts : list (string * transfer_io)) :
  firmware_to_send_path o = Some current_path ->
  current_path <> "" ->
  ota_server_robot_ip_target o = Some robot_actual_ip ->
  let '(o1, fs1, _) := handle_ota_robot_connection robot_actual_ip io (o, fs) in
  o1 = disarmed
  /\ let '(o2, _, received) := serve accepts (o1, fs1) in
     o2 = disarmed /\ Forall (fun bytes => bytes = []) received.
Proof.
  intros Hpath Hne Htarget.
  assert (Hafter : forall fs1 : filesystem,
    let '(o2, _, received) := serve accepts (disarmed, fs1) in
    o2 = disarmed /\ Forall (fun bytes => bytes = []) received).
  { intros fs1. rewrite serve_disarmed. split; [done|].
    apply Forall_forall. intros bytes Hin. apply list_elem_of_fmap in Hin.
    by destruct Hin as (? & -> & _). }
  unfold handle_ota_robot_connection.
  rewrite Hpath, Htarget. cbn [str_truthy].
  apply String.eqb_neq in Hne. rewrite Hne. cbn [negb andb].
  rewrite !bool_decide_eq_true_2 by done. cbn [andb].
  destruct (contents fs !! current_path) as [data|].
  - destruct (send_chunks _ _ _ _ _) as [sent [|]]; (split; [done | apply Hafter]).
  - split; [done | apply Hafter].
Qed.
End OtaFacts.

(** ** OTA server: connections that overlap *)

Section OtaScheduleFacts.
Import OTAConnection.

Lemma run_app (schedule schedule' : list nat) (s : server) :
  run (schedule ++ schedule') s = run schedule' (run schedule s).
Proof. apply fold_left_app. Qed.

Lemma run_repeat_succ (i n : nat) (s : server) :
  run (repeat i (S n)) s = run (repeat i n) (step s i).
Proof. reflexivity. Qed.

(** A handler that has ended does nothing more. *)
Lemma step_closed (i : nat) (ip : string) (io : transfer_io)
    (w : list Byte.byte) (o : ota) (fs : filesystem) (conns : list connection) :
  conns !! i = Some (mk_connection ip io Closed w) ->
  step (o, fs, conns) i = (o, fs, conns).
Proof.
  intros Hi. cbn [step]. rewrite Hi.
  cbn [resume peer peer_io handler written].
  by rewrite app_nil_r, list_insert_id.
Qed.

Lemma run_repeat_closed (i n : nat) (ip : string) (io : transfer_io)
    (w : list Byte.byte) (o : ota) (fs : filesystem) (conns : list connection) :
  conns !! i = Some (mk_connection ip io Closed w) ->
  run (repeat i n) (o, fs, conns) = (o, fs, conns).
Proof.
  intros Hi. induction n as [|n IH]; [done|].
  by rewrite run_repeat_succ, (step_closed i ip io w).
Qed.

(** The chunk loop does not depend on its fuel, once it has enough. *)
Lemma send_chunks_fuel (io : transfer_io) (fuel fuel' : nat) :
  forall (index : nat) (rest sent : list Byte.byte),
    length rest < fuel -> length rest < fuel' ->
    send_chunks fuel io index rest sent = send_chunks fuel' io index rest sent.
Proof.
  revert fuel'. induction fuel as [|fuel IH];
    intros fuel' index rest sent Hlen Hlen'; [lia|].
  destruct fuel' as [|fuel']; [lia|].
  cbn [send_chunks].
  destruct rest as [|b rest]; [done|].
  change (firstn chunk_size (b :: rest))
    with (b :: firstn (pred chunk_size) rest).
  cbn zeta. destruct (bool_decide _); [done|].
  assert (Hskip : length (skipn chunk_size (b :: rest)) <= length rest).
  { change (skipn chunk_size (b :: rest)) with (skipn (pred chunk_size) rest).
    rewrite length_skipn. lia. }
  simpl in Hlen, Hlen'. apply IH; lia.
Qed.

(** A handler that awaits its [drain], run alone to its end: it goes on
    as the chunk loop does. *)
Lemma run_draining (i : nat) (ip p : string) (io : transfer_io) (fuel : nat) :
  forall (index : nat) (rest w : list Byte.byte) (o : ota) (fs : filesystem)
         (conns : list connection),
    conns !! i = Some (mk_connection ip io (Draining p index rest) w) ->
    length rest < fuel ->
    run (repeat i fuel) (o, fs, conns)
    = (let '(sent, ok) :=
         if bool_decide (drain_fails_at io = Some index) then (w, false)
         else send_chunks fuel io (S index) rest w in
       let '(o', fs') :=
         if ok : bool
         then (disarmed,
               if fs_exists p fs && remove_ok io then fs_remove p fs else fs)
         else clear_after_error ip p (o, fs) in
       (o', fs', <[i := mk_connection ip io Closed sent]> conns)).
Proof.
  induction fuel as [|fuel IH]; intros index rest w o fs conns Hi Hlen; [lia|].
  assert (Hlt : i < length conns) by (by eapply lookup_lt_Some).
  rewrite run_repeat_succ. cbn [step]. rewrite Hi.
  cbn [resume peer peer_io handler written].
  destruct (bool_decide (drain_fails_at io = Some index)) eqn:Hfail.
  - rewrite app_nil_r.
    destruct (clear_after_error ip p (o, fs)) as [o' fs'].
    apply (run_repeat_closed i fuel ip io w).
    by apply list_lookup_insert_eq.
  - unfold read_and_write. cbn [send_chunks].
    destruct rest as [|b rest].
    + cbn [firstn chunk_size]. rewrite app_nil_r.
      apply (run_repeat_closed i fuel ip io w).
      by apply list_lookup_insert_eq.
    + change (firstn chunk_size (b :: rest))
        with (b :: firstn (pred chunk_size) rest).
      cbn beta iota zeta.
      change (b :: firstn (pred chunk_size) rest)
        with (firstn chunk_size (b :: rest)).
      assert (Hskip : length (skipn chunk_size (b :: rest)) < fuel).
      { change (skipn chunk_size (b :: rest)) with (skipn (pred chunk_size) rest).
        rewrite length_skipn. simpl in Hlen. lia. }
      rewrite (IH (S index) (skipn chunk_size (b :: rest))
                 (w ++ firstn chunk_size (b :: rest)) o fs
                 (<[i := mk_connection ip io
                           (Draining p (S index) (skipn chunk_size (b :: rest)))
                           (w ++ firstn chunk_size (b :: rest))]> conns));
        [|by apply list_lookup_insert_eq|exact Hskip].
      destruct (if bool_decide (drain_fails_at io = Some (S index))
                then _ else _) as [sent ok].
      destruct ok; [|destruct (clear_after_error ip p (o, fs)) as [o' fs']];
        by rewrite list_insert_insert_eq.
Qed.

(** [handle_ota_robot_connection] is the handler of a connection run alone,
    from the accept to its end: [n] turns are enough when the armed file
    is shorter than [n]. *)
Lemma handle_ota_robot_connection_run (i n : nat) (ip : string)
    (io : transfer_io) (o : ota) (fs : filesystem) (conns : list connection) :
  conns !! i = Some (mk_connection ip io Accepted []) ->
  (forall (p : string) (data : list Byte.byte),
     firmware_to_send_path o = Some p -> contents fs !! p = Some data ->
     length data < n) ->
  run (repeat i (S n)) (o, fs, conns)
  = (let '(o', fs', sent) := handle_ota_robot_connection ip io (o, fs) in
     (o', fs', <[i := mk_connection ip io Closed sent]> conns)).
Proof.
  intros Hi Hn.
  assert (Hlt : i < length conns) by (by eapply lookup_lt_Some).
  rewrite run_repeat_succ. cbn [step]. rewrite Hi.
  cbn [resume peer peer_io handler written app].
  unfold handle_ota_robot_connection.
  destruct (str_truthy (firmware_to_send_path o)
            && bool_decide (ota_server_robot_ip_target o = Some ip)) eqn:Harm.
  - destruct (firmware_to_send_path o) as [p|] eqn:Hp; [|done].
    destruct (contents fs !! p) as [data|] eqn:Hdata.
    + specialize (Hn p data eq_refl Hdata).
      unfold read_and_write. cbn [send_chunks].
      destruct data as [|b data].
      * cbn [firstn chunk_size].
        apply (run_repeat_closed i n ip io []). by apply list_lookup_insert_eq.
      * change (firstn chunk_size (b :: data))
          with (b :: firstn (pred chunk_size) data).
        cbn beta iota zeta.
        change (b :: firstn (pred chunk_size) data)
          with (firstn chunk_size (b :: data)).
        assert (Hskip : length (skipn chunk_size (b :: data)) < length (b :: data)).
        { change (skipn chunk_size (b :: data))
            with (skipn (pred chunk_size) data).
          rewrite length_skipn. simpl. lia. }
        rewrite (run_draining i ip p io n 0 (skipn chunk_size (b :: data))
                   (firstn chunk_size (b :: data)) o fs);
          [|by apply list_lookup_insert_eq|lia].
        rewrite (send_chunks_fuel io n (length (b :: data))) by lia.
        unfold clear_after_error. rewrite Hp.
        destruct (if bool_decide (drain_fails_at io = Some 0) then _ else _)
          as [sent ok].
        destruct ok; [by rewrite list_insert_insert_eq|].
        destruct (bool_decide _ && bool_decide _);
          by rewrite list_insert_insert_eq.
    + unfold clear_after_error. rewrite Hp.
      destruct (bool_decide _ && bool_decide _);
        (apply (run_repeat_closed i n ip io []); by apply list_lookup_insert_eq).
  - apply (run_repeat_closed i n ip io []). by apply list_lookup_insert_eq.
Qed.

(** [serve] is [run] on a schedule: the one that runs each handler to its
    end before the next one starts. *)
Lemma serve_run (accepts : list (string * transfer_io)) :
  forall (o : ota) (fs : filesystem) (before : list connection),
    exists schedule : list nat,
      run schedule (o, fs, before ++ accept_all accepts)
      = (let '(o', fs', received) := serve accepts (o, fs) in
         (o', fs',
          before
          ++ zip_with (fun a sent => mk_connection (fst a) (snd a) Closed sent)
               accepts received)).
Proof.
  induction accepts as [|[ip io] accepts IH]; intros o fs before.
  - exists []. reflexivity.
  - cbn [serve].
    set (n := S (length (default [] (firmware_to_send_path o
                                      ≫= (contents fs !!.))))).
    pose proof (handle_ota_robot_connection_run (length before) n ip io o fs
                  (before ++ mk_connection ip io Accepted []
                          :: accept_all accepts)) as Hrun.
    rewrite list_lookup_middle in Hrun by done.
    specialize (Hrun eq_refl).
    assert (Hn : forall (p : string) (data : list Byte.byte),
               firmware_to_send_path o = Some p -> contents fs !! p = Some data ->
               length data < n).
    { intros p data Hp Hdata. subst n. rewrite Hp. cbn [mbind option_bind].
      rewrite Hdata. cbn [default from_option id]. lia. }
    specialize (Hrun Hn).
    destruct (handle_ota_robot_connection ip io (o, fs)) as [[o1 fs1] sent].
    destruct (IH o1 fs1 (before ++ [ mk_connection ip io Closed sent ]))
      as [schedule Hsched].
    exists (repeat (length before) (S n) ++ schedule).
    cbn [accept_all map fst snd]. fold (accept_all accepts).
    rewrite run_app, Hrun.
    rewrite insert_app_r_alt, Nat.sub_diag by done. cbn [insert list_insert].
    rewrite (cons_middle _ before), app_assoc.
    rewrite Hsched.
    destruct (serve accepts (o1, fs1)) as [[o2 fs2] received].
    cbn [zip_with fst snd]. by rewrite <- app_assoc.
Qed.

(** ** One arming, any schedule *)










(** ** Two connections from the target for one arming *)


End OtaScheduleFacts.




(** Firmware round trip: after [upload_firmware_start], one chunk and
    [upload_firmware_end], the image is armed for [10.0.0.5]; the first
    accept from that address receives the 3 bytes and the file is deleted; a
    second accept from the same address receives nothing. *)
Lemma firmware_round_trip :
  let '(_uploads, fs, o) := Fleet.staged in
  let path := "temp_firmware/10.0.0.5_1700000000_f.bin" in
  let io := OTAConnection.mk_io None true in
  _uploads = ∅
  /\ o = OTAConnection.mk_ota (Some path) (Some "10.0.0.5")
  /\ contents fs !! path = Some [ Byte.x01; Byte.x02; Byte.x03 ]
  /\ open_files fs = ∅
  /\ snd (OTAConnection.serve [ ("10.0.0.5", io); ("10.0.0.5", io) ] (o, fs))
     = [ [ Byte.x01; Byte.x02; Byte.x03 ]; [] ]
  /\ fst (OTAConnection.serve [ ("10.0.0.5", io) ] (o, fs))
     = (OTAConnection.disarmed, fs_remove path fs).
Proof. vm_compute. repeat split; reflexivity. Qed.

(** ** Router *)

Section RouterFacts.
Import DirectBridge.
Variable json_dumps : json -> string.
Variable send_ok : client_addr -> bool.

Lemma subscribed_types (entity_key t : string) (cs : gmap string (gset string)) :
  subscribed entity_key (JStr t) cs
  = bool_decide (t ∈ default ∅ (cs !! entity_key)).
Proof.
  unfold subscribed. destruct (cs !! entity_key) as [types|]; [done|].
  simpl. symmetry. apply bool_decide_eq_false_2. apply not_elem_of_empty.
Qed.

(** The sends of one turn of the loop all go to the client of that turn. *)
Lemma sends_to_broadcast_to_client (robot_alias_source : string)
    (data_type_to_send : json) (message_json : string) (ok : bool)
    (c c' : client_addr) (cs : gmap string (gset string)) :
  sends_to c (broadcast_to_client robot_alias_source data_type_to_send
                message_json ok c' cs)
  = if decide (c' = c)
    then broadcast_to_client robot_alias_source data_type_to_send
           message_json ok c' cs
    else [].
Proof.
  unfold broadcast_to_client, sends_to.
  destruct (decide (c' = c)) as [->|Hne];
    destruct (subscribed robot_alias_source _ _), ok,
             (subscribed GLOBAL_SUBSCRIPTION_KEY _ _); simpl;
    rewrite ?filter_cons_True, ?filter_nil by done;
    rewrite ?filter_cons_False, ?filter_nil by done; reflexivity.
Qed.

Lemma sends_to_app (c : client_addr) (l1 l2 : list send_attempt) :
  sends_to c (l1 ++ l2) = sends_to c l1 ++ sends_to c l2.
Proof. apply filter_app. Qed.

(** The loop visits each client once: its sends to [c] are those of the
    turn of [c]. *)
Lemma sends_to_loop (f : client_addr * gmap string (gset string) -> list send_attempt)
    (l : list (client_addr * gmap string (gset string))) (c : client_addr) :
  (forall c' cs, sends_to c (f (c', cs)) = if decide (c' = c) then f (c', cs) else []) ->
  NoDup l.*1 ->
  (forall cs, (c, cs) ∈ l -> sends_to c (flat_map f l) = f (c, cs))
  /\ (c ∉ l.*1 -> sends_to c (flat_map f l) = []).
Proof.
  intros Hf. induction l as [|[c0 cs0] l IH]; intros Hnd.
  - split; [intros cs Hin; by apply elem_of_nil in Hin | done].
  - apply NoDup_cons in Hnd as [Hc0 Hnd]. destruct (IH Hnd) as [IHin IHout].
    cbn [flat_map]. rewrite sends_to_app, Hf.
    split.
    + intros cs Hin. apply elem_of_cons in Hin as [[= <- <-]|Hin].
      * rewrite decide_True by done. rewrite IHout by done. apply app_nil_r.
      * assert (c0 <> c) as Hne.
        { intros ->. apply Hc0. apply list_elem_of_fmap. by exists (c, cs). }
        rewrite decide_False by done. by apply IHin.
    + intros Hout. apply not_elem_of_cons in Hout as [Hne Hout].
      rewrite decide_False by done. by apply IHout.
Qed.

(** C6: for a frame of robot [R] and type [T] and a connected client [c],
    the router sends nothing to [c] when neither [subs[c][R]] nor
    [subs[c][GLOBAL]] holds [T]; [c] never receives the frame twice; and when
    the send to [c] goes through, [c] is sent the frame exactly once if one
    of the two sets holds [T], also when both do. *)
Theorem broadcast_sends_exactly_once (robot_alias data_type : string)
    (payload : pyobj) (ui_websockets : gset client_addr) (subs : subscriptions)
    (c : client_addr) :
  dict_get "type" payload = Some (JStr data_type) ->
  py_get "robot_alias" payload = JStr robot_alias ->
  c ∈ ui_websockets ->
  exists ui' subs' attempts,
    broadcast_to_subscribers json_dumps send_ok robot_alias payload
      ui_websockets subs = Ok (ui', subs', attempts)
    /\ (matches c robot_alias data_type subs = false -> sends_to c attempts = [])
    /\ length (delivered c attempts) <= 1
    /\ (send_ok c = true ->
        sends_to c attempts
        = if matches c robot_alias data_type subs
          then [ (c, json_dumps (JObj payload), true) ] else []).
Proof.
  intros Htype Halias Hc. unfold broadcast_to_subscribers.
  assert (Hty : py_get "type" payload = JStr data_type)
    by (unfold py_get; by rewrite Htype).
  unfold dict_has. rewrite Htype, Hty, Halias. cbn [negb orb py_eq_str].
  rewrite String.eqb_refl. cbn [negb unhashable andb].
  set (f := fun entry : client_addr * gmap string (gset string) =>
              let (c0, client_specific_subs) := entry in
              if bool_decide (c0 ∈ ui_websockets) then
                broadcast_to_client robot_alias (JStr data_type)
                  (json_dumps (JObj payload)) (send_ok c0) c0 client_specific_subs
              else []).
  eexists _, _, (flat_map f (map_to_list subs)). split; [reflexivity|].
  assert (Hf : forall c' cs,
    sends_to c (f (c', cs)) = if decide (c' = c) then f (c', cs) else []).
  { intros c' cs. unfold f. destruct (bool_decide (c' ∈ ui_websockets)).
    - apply sends_to_broadcast_to_client.
    - by destruct (decide (c' = c)). }
  destruct (sends_to_loop f (map_to_list subs) c Hf (NoDup_fst_map_to_list subs))
    as [Hin Hout].
  assert (Hsends : sends_to c (flat_map f (map_to_list subs))
    = broadcast_to_client robot_alias (JStr data_type)
        (json_dumps (JObj payload)) (send_ok c) c (client_subscriptions c subs)).
  { unfold client_subscriptions. destruct (subs !! c) as [cs|] eqn:Hl; simpl.
    - rewrite (Hin cs) by (by apply elem_of_map_to_list).
      unfold f. by rewrite bool_decide_eq_true_2.
    - rewrite Hout; [reflexivity|].
      intros Hel. apply list_elem_of_fmap in Hel as ([c' cs] & -> & Hel).
      apply elem_of_map_to_list in Hel. simpl in Hl. congruence. }
  unfold delivered. rewrite Hsends. unfold matches, types_of, broadcast_to_client.
  rewrite !subscribed_types.
  destruct (bool_decide (data_type ∈ default ∅ (client_subscriptions c subs !! robot_alias))),
           (bool_decide (data_type ∈ default ∅
              (client_subscriptions c subs !! GLOBAL_SUBSCRIPTION_KEY))),
           (send_ok c); simpl;
    (split; [done|]); (split; [|done]);
    rewrite ?filter_cons_True, ?filter_cons_False, ?filter_nil by done;
    simpl; lia.
Qed.
End RouterFacts.

(** A client whose socket has closed, holding [imu_data] both for [robot1]
    and for the global key: the send on the robot's key raises, the send on
    the global key is tried as well, nothing is delivered, and the client is
    dropped from both collections. *)
Lemma broadcast_closed_socket :
  let subs :=
    DirectBridge.add_subscription Fleet.ui_client "__GLOBAL__" "imu_data"
      (DirectBridge.add_subscription Fleet.ui_client "robot1" "imu_data" ∅) in
  exists attempts,
    DirectBridge.broadcast_to_subscribers Fleet.no_text (fun _ => false) "robot1"
      [ ("type", JStr "imu_data"); ("robot_alias", JStr "robot1") ]
      {[ Fleet.ui_client ]} subs
    = Ok (∅, ∅, attempts)
    /\ length (DirectBridge.sends_to Fleet.ui_client attempts) = 2
    /\ DirectBridge.delivered Fleet.ui_client attempts = [].
Proof.
  eexists. split; [vm_compute; reflexivity|]. split; vm_compute; reflexivity.
Qed.

(** The fleet's client, connected and subscribed to [imu_data] of [robot1],
    is sent an IMU frame of [robot1] once. *)
Lemma broadcast_sends_exactly_once_witness :
  exists ui' subs' attempts,
    DirectBridge.broadcast_to_subscribers Fleet.no_text (fun _ => true) "robot1"
      [ ("type", JStr "imu_data"); ("robot_alias", JStr "robot1") ]
      {[ Fleet.ui_client ]}
      (DirectBridge.add_subscription Fleet.ui_client "robot1" "imu_data" ∅)
    = Ok (ui', subs', attempts)
    /\ length (DirectBridge.delivered Fleet.ui_client attempts) <= 1
    /\ length (DirectBridge.sends_to Fleet.ui_client attempts)
       = if DirectBridge.matches Fleet.ui_client "robot1" "imu_data"
              (DirectBridge.add_subscription Fleet.ui_client "robot1" "imu_data" ∅)
         then 1 else 0.
Proof.
  destruct (broadcast_sends_exactly_once Fleet.no_text (fun _ => true)
              "robot1" "imu_data"
              [ ("type", JStr "imu_data"); ("robot_alias", JStr "robot1") ]
              {[ Fleet.ui_client ]}
              (DirectBridge.add_subscription Fleet.ui_client "robot1" "imu_data" ∅)
              Fleet.ui_client eq_refl eq_refl
              (proj2 (elem_of_singleton Fleet.ui_client Fleet.ui_client) eq_refl))
    as (ui' & subs' & attempts & Heq & _ & Hle & Hsent).
  exists ui', subs', attempts. split; [exact Heq|]. split; [exact Hle|].
  rewrite (Hsent eq_refl).
  destruct (DirectBridge.matches _ _ _ _); reflexivity.
Defined.

(** ** Pose estimator *)

Section PathFacts.
Import TrajectoryCalculator.
Variables libm_cos libm_sin : float -> float.

Lemma path_step_same (history : list pose) :
  length history <= MAX_TRAJECTORY_POINTS_DEFAULT -> path_step history history.
Proof.
  intros Hlen. exists []. split; [simpl; lia|]. rewrite app_nil_r.
  replace (length history - MAX_TRAJECTORY_POINTS_DEFAULT) with 0 by lia.
  reflexivity.
Qed.

Lemma path_step_append (p : pose) (history : list pose) :
  path_step history (append_capped p history).
Proof.
  exists [p]. split; [simpl; lia|]. unfold append_capped.
  destruct (Nat.ltb_spec MAX_TRAJECTORY_POINTS_DEFAULT (length (history ++ [p])))
    as [Hlt|Hge]; [reflexivity|].
  replace (length (history ++ [p]) - MAX_TRAJECTORY_POINTS_DEFAULT) with 0 by lia.
  reflexivity.
Qed.

Lemma path_step_length (before after : list pose) :
  length before <= MAX_TRAJECTORY_POINTS_DEFAULT ->
  path_step before after ->
  length after <= MAX_TRAJECTORY_POINTS_DEFAULT.
Proof.
  intros Hlen (new & Hnew & ->). rewrite length_skipn, length_app.
  unfold MAX_TRAJECTORY_POINTS_DEFAULT in *. lia.
Qed.

(** [_try_calculate_trajectory] touches the path by one such step. *)
Lemma try_calculate_path (current_time : float) (st : robot_state) :
  length (path_history st) <= MAX_TRAJECTORY_POINTS_DEFAULT ->
  path_step (path_history st)
    (path_history (fst (_try_calculate_trajectory libm_cos libm_sin current_time st))).
Proof.
  intros Hlen. unfold _try_calculate_trajectory.
  repeat case_match; cbn [fst path_history set_path_history set_theta set_xy
                          set_last_timestamp_encoder];
    try (by apply path_step_same); try apply path_step_append.
  match goal with
  | H : path_history _ = [] |- _ =>
      cbn [path_history set_theta set_last_timestamp_encoder] in H; rewrite H
  end.
  eexists [_]. split; [simpl; lia | reflexivity].
Qed.

Lemma get_state_ensure (key k : string) (robot_data : gmap string robot_state) :
  get_state key (_ensure_robot_data k robot_data) = get_state key robot_data.
Proof.
  unfold get_state, _ensure_robot_data.
  destruct (robot_data !! k) eqn:Hk; [done|].
  destruct (decide (k = key)) as [->|Hne].
  - by rewrite lookup_insert_eq, Hk.
  - by rewrite lookup_insert_ne.
Qed.

Lemma get_state_insert (key k : string) (st : robot_state)
    (robot_data : gmap string robot_state) :
  get_state key (<[k := st]> robot_data)
  = if decide (k = key) then st else get_state key robot_data.
Proof.
  unfold get_state. destruct (decide (k = key)) as [->|Hne].
  - by rewrite lookup_insert_eq.
  - by rewrite lookup_insert_ne.
Qed.

(** The state of a robot after [update_imu_data] on key [k]. *)
Lemma update_imu_data_state (key k : string) (imu_data : pyobj)
    (current_time calc_time : float) (robot_data : gmap string robot_state) :
  get_state key
    (fst (update_imu_data libm_cos libm_sin k imu_data current_time calc_time
            robot_data))
  = if decide (k = key) then
      match imu_yaw imu_data JNull with
      | Raise _ => get_state key robot_data
      | Ok yaw =>
          let st := get_state key robot_data in
          let st := match yaw with JNull => st | _ => set_theta yaw st end in
          fst (_try_calculate_trajectory libm_cos libm_sin calc_time
                 (set_latest_imu imu_data current_time st))
      end
    else get_state key robot_data.
Proof.
  unfold update_imu_data. rewrite (get_state_ensure k k).
  destruct (imu_yaw imu_data JNull) as [yaw|e]; cbn [fst].
  - destruct (_try_calculate_trajectory _ _ _ _) as [st r] eqn:Htry. cbn [fst].
    rewrite get_state_insert, get_state_ensure.
    destruct (decide (k = key)) as [->|Hne]; [|done].
    cbn zeta. by rewrite Htry.
  - rewrite get_state_ensure. by destruct (decide (k = key)).
Qed.

(** The state of a robot after [update_encoder_data] on key [k]. *)
Lemma update_encoder_data_state (key k : string) (encoder_data : pyobj)
    (current_time calc_time : float) (robot_data : gmap string robot_state) :
  get_state key
    (fst (update_encoder_data libm_cos libm_sin k encoder_data current_time
            calc_time robot_data))
  = if decide (k = key) then
      fst (_try_calculate_trajectory libm_cos libm_sin calc_time
             (set_latest_encoder encoder_data current_time
                (get_state key robot_data)))
    else get_state key robot_data.
Proof.
  unfold update_encoder_data. rewrite (get_state_ensure k k).
  destruct (_try_calculate_trajectory _ _ _ _) as [st r] eqn:Htry. cbn [fst].
  rewrite get_state_insert, get_state_ensure.
  destruct (decide (k = key)) as [->|Hne]; [|done].
  by rewrite Htry.
Qed.

(** Every call moves the path of every robot by one step. *)
Lemma run_call_path (c : call) (key : string)
    (robot_data : gmap string robot_state) :
  length (path_history (get_state key robot_data)) <= MAX_TRAJECTORY_POINTS_DEFAULT ->
  path_step (path_history (get_state key robot_data))
    (path_history (get_state key (fst (run_call libm_cos libm_sin c robot_data)))).
Proof.
  intros Hlen. destruct c as [k d t1 t2|k d t1 t2]; cbn [run_call].
  - rewrite update_imu_data_state.
    destruct (decide (k = key)); [|by apply path_step_same].
    destruct (imu_yaw d JNull) as [yaw|err]; [|by apply path_step_same].
    cbn zeta.
    set (st := set_latest_imu d t1 _).
    assert (Hst : path_history st = path_history (get_state key robot_data))
      by (subst st; by destruct yaw).
    rewrite <- Hst. apply try_calculate_path. by rewrite Hst.
  - rewrite update_encoder_data_state.
    destruct (decide (k = key)); [|by apply path_step_same].
    set (st := set_latest_encoder d t1 _).
    assert (Hst : path_history st = path_history (get_state key robot_data))
      by done.
    rewrite <- Hst. apply try_calculate_path. by rewrite Hst.
Qed.

Lemma run_calls_snoc (calls : list call) (c : call) :
  run_calls libm_cos libm_sin (calls ++ [c])
  = fst (run_call libm_cos libm_sin c (run_calls libm_cos libm_sin calls)).
Proof. unfold run_calls. by rewrite fold_left_app. Qed.

Lemma run_calls_capped (calls : list call) (key : string) :
  length (path_history (get_state key (run_calls libm_cos libm_sin calls)))
  <= MAX_TRAJECTORY_POINTS_DEFAULT.
Proof.
  induction calls as [|c calls IH] using rev_ind.
  - unfold run_calls, get_state. cbn [fold_left]. rewrite lookup_empty.
    simpl. lia.
  - rewrite run_calls_snoc.
    eapply path_step_length; [exact IH | by apply run_call_path].
Qed.

(** The cap keeps the tail: the pose appended is the last entry, and what
    exceeds 1000 entries is dropped at the head. *)
Lemma append_capped_tail (p : pose) (history : list pose) :
  append_capped p history
  = skipn (length (history ++ [ p ]) - 1000) (history ++ [ p ]).
Proof.
  unfold append_capped.
  destruct (Nat.ltb_spec MAX_TRAJECTORY_POINTS_DEFAULT (length (history ++ [p])))
    as [Hlt|Hge]; [reflexivity|].
  unfold MAX_TRAJECTORY_POINTS_DEFAULT in Hge.
  by replace (length (history ++ [p]) - 1000) with 0 by lia.
Qed.

(** What [_try_calculate_trajectory] does to the path: nothing, and then
    [(x, y)] has not changed either, or the pose it leaves is appended
    under the cap. *)
Lemma try_calculate_appends (current_time : float) (st : robot_state) :
  let st' := fst (_try_calculate_trajectory libm_cos libm_sin current_time st) in
  let appended := path_history st ++ [ current_pose st' ] in
  (path_history st' = path_history st /\ x st' = x st /\ y st' = y st)
  \/ path_history st' = skipn (length appended - 1000) appended.
Proof.
  unfold _try_calculate_trajectory.
  repeat case_match;
    cbn [fst path_history x y current_pose set_path_history set_theta set_xy
         set_last_timestamp_encoder];
    try (by left); right; try apply append_capped_tail.
  match goal with
  | H : path_history _ = [] |- _ =>
      cbn [path_history set_theta set_last_timestamp_encoder] in H; rewrite H
  end.
  reflexivity.
Qed.

(** The kinematic step appends the integrated pose, under the cap. *)
Lemma try_calculate_integrates (current_time : float) (st : robot_state)
    (imu_data encoder_data : pyobj) (r1 r2 r3 heading : json) (dt : num)
    (x' y' : float) :
  latest_imu_data st = Some imu_data -> imu_data <> [] ->
  latest_encoder_data st = Some encoder_data -> encoder_data <> [] ->
  too_old (data_age current_time (last_imu_timestamp st)) = false ->
  too_old (data_age current_time (last_encoder_timestamp st)) = false ->
  py_get_default "data" encoder_data
    (py_get_default "encoders" encoder_data (JArr [])) = JArr [ r1; r2; r3 ] ->
  imu_yaw imu_data (theta st) = Ok heading ->
  last_timestamp_encoder st <> JNull ->
  py_sub (py_get_default "timestamp" encoder_data (JFloat current_time))
    (last_timestamp_encoder st) = Ok dt ->
  num_le0 dt = false ->
  integrate libm_cos libm_sin
    (set_last_timestamp_encoder
       (py_get_default "timestamp" encoder_data (JFloat current_time)) st)
    r1 r2 r3 dt = Ok (x', y') ->
  let appended := path_history st ++ [ mk_pose x' y' heading ] in
  path_history (fst (_try_calculate_trajectory libm_cos libm_sin current_time st))
  = skipn (length appended - 1000) appended.
Proof.
  intros Himu Himu' Henc Henc' Hage1 Hage2 Hrpms Hyaw Hseed Hdt Hpos Hint.
  unfold _try_calculate_trajectory. rewrite Himu, Henc.
  destruct imu_data as [|i0 imu_data]; [done|].
  destruct encoder_data as [|e0 encoder_data]; [done|].
  rewrite Hage1, Hage2. cbn [orb]. rewrite Hrpms, Hyaw.
  destruct (last_timestamp_encoder st) eqn:Hlast; [done|..];
    rewrite Hdt, Hpos, Hint;
    cbn [fst path_history current_pose x y theta set_path_history set_theta
         set_xy set_last_timestamp_encoder];
    apply append_capped_tail.
Qed.

(** The same for a call on the calculator, for every robot. *)
Lemma run_call_appends (c : call) (key : string)
    (robot_data : gmap string robot_state) :
  let st := get_state key robot_data in
  let st' := get_state key (fst (run_call libm_cos libm_sin c robot_data)) in
  let appended := path_history st ++ [ current_pose st' ] in
  (path_history st' = path_history st /\ x st' = x st /\ y st' = y st)
  \/ path_history st' = skipn (length appended - 1000) appended.
Proof.
  destruct c as [k d t1 t2|k d t1 t2]; cbn [run_call].
  - rewrite update_imu_data_state.
    destruct (decide (k = key)); [|by left].
    destruct (imu_yaw d JNull) as [yaw|err]; [|by left].
    cbn zeta.
    set (st0 := set_latest_imu d t1 _).
    assert (Hst : path_history st0 = path_history (get_state key robot_data)
                  /\ x st0 = x (get_state key robot_data)
                  /\ y st0 = y (get_state key robot_data))
      by (subst st0; by destruct yaw).
    destruct Hst as (<- & <- & <-). apply try_calculate_appends.
  - rewrite update_encoder_data_state.
    destruct (decide (k = key)); [|by left].
    set (st0 := set_latest_encoder d t1 _).
    change (path_history (get_state key robot_data)) with (path_history st0).
    change (x (get_state key robot_data)) with (x st0).
    change (y (get_state key robot_data)) with (y st0).
    apply try_calculate_appends.
Qed.

(** C9: after any sequence of [update_imu_data] and [update_encoder_data]
    calls, on any keys, the path of every robot holds at most 1000 poses.
    Each call leaves the path as it is or appends the pose the robot then
    has, keeping the last 1000 entries: what is dropped is dropped at the
    head.  A call that moves the robot does append, and on a full path the
    oldest entry goes, the others move up and the new pose is the last.
    And every kinematic step appends the pose it has integrated. *)
Theorem path_history_capped_fifo (calls : list call) (key : string) :
  length (path_history (get_state key (run_calls libm_cos libm_sin calls))) <= 1000
  /\ (forall c : call,
        let st := get_state key (run_calls libm_cos libm_sin calls) in
        let st' := get_state key (run_calls libm_cos libm_sin (calls ++ [c])) in
        let appended := path_history st ++ [ current_pose st' ] in
        (path_history st' = path_history st
         \/ path_history st' = skipn (length appended - 1000) appended)
        /\ (x st' <> x st \/ y st' <> y st ->
            path_history st' = skipn (length appended - 1000) appended)
        /\ (length (path_history st) = 1000 ->
            path_history st' <> path_history st ->
            path_history st' = skipn 1 (path_history st) ++ [ current_pose st' ]))
  /\ (forall (current_time : float) (st : robot_state)
             (imu_data encoder_data : pyobj) (r1 r2 r3 heading : json)
             (dt : num) (x' y' : float),
        latest_imu_data st = Some imu_data -> imu_data <> [] ->
        latest_encoder_data st = Some encoder_data -> encoder_data <> [] ->
        too_old (data_age current_time (last_imu_timestamp st)) = false ->
        too_old (data_age current_time (last_encoder_timestamp st)) = false ->
        py_get_default "data" encoder_data
          (py_get_default "encoders" encoder_data (JArr [])) = JArr [ r1; r2; r3 ] ->
        imu_yaw imu_data (theta st) = Ok heading ->
        last_timestamp_encoder st <> JNull ->
        py_sub (py_get_default "timestamp" encoder_data (JFloat current_time))
          (last_timestamp_encoder st) = Ok dt ->
        num_le0 dt = false ->
        integrate libm_cos libm_sin
          (set_last_timestamp_encoder
             (py_get_default "timestamp" encoder_data (JFloat current_time)) st)
          r1 r2 r3 dt = Ok (x', y') ->
        let appended := path_history st ++ [ mk_pose x' y' heading ] in
        path_history
          (fst (_try_calculate_trajectory libm_cos libm_sin current_time st))
        = skipn (length appended - 1000) appended).
Proof.
  split; [apply run_calls_capped|]. split; [|apply try_calculate_integrates].
  intros c. cbn zeta. rewrite run_calls_snoc.
  pose proof (run_call_appends c key (run_calls libm_cos libm_sin calls)) as Hstep.
  cbn zeta in Hstep.
  set (st := get_state key (run_calls libm_cos libm_sin calls)) in *.
  set (st' := get_state key (fst (run_call libm_cos libm_sin c _))) in *.
  split; [destruct Hstep as [(Hp & _ & _)|Hp]; [by left | by right]|].
  split.
  - intros Hmoved. destruct Hstep as [(_ & Hx & Hy)|Hp]; [|exact Hp].
    by destruct Hmoved.
  - intros Hfull Hchanged. destruct Hstep as [(Hp & _ & _)|Hp]; [done|].
    rewrite Hp, length_app, Hfull. cbn [length Nat.add].
    replace (1000 + 1 - 1000) with 1 by lia.
    destruct (path_history st) as [|p0 history]; [done|]. reflexivity.
Qed.
End PathFacts.

(** A drive of 1000 encoder frames fills the path; the next frame moves the
    robot, the origin leaves the path at its head and the new pose enters
    at its end. *)
Lemma path_history_capped_fifo_witness :
  let calls := Fleet.drive 1000 in
  let c := Fleet.encoder_frame 1100 in
  let st :=
    TrajectoryCalculator.get_state "10.0.0.5:4000"
      (TrajectoryCalculator.run_calls Fleet.taylor_cos Fleet.taylor_sin calls) in
  let st' :=
    TrajectoryCalculator.get_state "10.0.0.5:4000"
      (TrajectoryCalculator.run_calls Fleet.taylor_cos Fleet.taylor_sin
         (calls ++ [ c ])) in
  length (TrajectoryCalculator.path_history st) = 1000
  /\ hd_error (TrajectoryCalculator.path_history st)
     = Some (TrajectoryCalculator.mk_pose 0 0 (JFloat 0))
  /\ TrajectoryCalculator.path_history st'
     = skipn 1 (TrajectoryCalculator.path_history st)
       ++ [ TrajectoryCalculator.current_pose st' ].
Proof.
  cbv zeta. split; [vm_compute; reflexivity|]. split; [vm_compute; reflexivity|].
  destruct (path_history_capped_fifo Fleet.taylor_cos Fleet.taylor_sin
              (Fleet.drive 1000) "10.0.0.5:4000") as (_ & Hcall & _).
  destruct (Hcall (Fleet.encoder_frame 1100)) as (_ & _ & Hfull).
  apply Hfull; [vm_compute; reflexivity|].
  set (starts_at_origin := fun history : list TrajectoryCalculator.pose =>
         match history with
         | p :: _ => PrimFloat.eqb (TrajectoryCalculator.pose_x p) 0
         | [] => false
         end).
  intros Hsame.
  lazymatch type of Hsame with
  | ?after = ?before =>
      assert (Hbefore : starts_at_origin before = true)
        by (vm_compute; reflexivity);
      assert (Hafter : starts_at_origin after = false)
        by (vm_compute; reflexivity)
  end.
  rewrite Hsame, Hbefore in Hafter. discriminate.
Defined.

Section PoseSeedFacts.
Import TrajectoryCalculator.
Variables libm_cos libm_sin : float -> float.
Hypothesis cos_zero : libm_cos 0%float = 1%float.
Hypothesis sin_zero : libm_sin 0%float = 0%float.

Lemma imu_frame_stores (t1 c1 : float) :
  fst (_try_calculate_trajectory libm_cos libm_sin c1 (after_imu t1))
  = after_imu t1.
Proof. reflexivity. Qed.

Lemma first_encoder_seeds (t1 t2 c2 : float) :
  within_window c2 t1 -> within_window c2 t2 ->
  fst (_try_calculate_trajectory libm_cos libm_sin c2
         (set_latest_encoder (encoder_at 100%float) t2 (after_imu t1)))
  = after_seed t1 t2.
Proof.
  unfold within_window. intros H1 H2.
  unfold _try_calculate_trajectory.
  cbn -[too_old data_age]. rewrite H1, H2. reflexivity.
Qed.

Lemma second_encoder_moves (t1 t2 t3 c3 : float) :
  within_window c3 t1 -> within_window c3 t3 ->
  fst (_try_calculate_trajectory libm_cos libm_sin c3
         (set_latest_encoder (encoder_at 101%float) t3 (after_seed t1 t2)))
  = after_move t1 t3.
Proof.
  unfold within_window. intros H1 H3.
  unfold _try_calculate_trajectory.
  cbn -[too_old data_age integrate]. rewrite H1, H3.
  unfold integrate, math_trig. cbn. rewrite cos_zero, sin_zero. reflexivity.
Qed.

(** C5: from a fresh pose state, the IMU frame [{yaw: 0.0}] and the encoder
    frames [{timestamp: 100.0, data: [60, 60, 60]}] and
    [{timestamp: 101.0, data: [60, 60, 60]}], all within the freshness
    window, leave the pose at [(0.0325 * 2 * pi, 0, 0)] within [1e-6] (in
    binary64, with [cos 0 = 1] and [sin 0 = 0]); the first encoder frame
    only seeds [last_timestamp_encoder] and leaves [(x, y)] at the
    origin. *)
Theorem pose_seed_scenario (key : string) (robot_data : gmap string robot_state)
    (t1 c1 t2 c2 t3 c3 : float) :
  robot_data !! key = None ->
  within_window c2 t1 -> within_window c2 t2 ->
  within_window c3 t1 -> within_window c3 t3 ->
  let robot_data1 :=
    fst (update_imu_data libm_cos libm_sin key imu_zero t1 c1 robot_data) in
  let robot_data2 :=
    fst (update_encoder_data libm_cos libm_sin key (encoder_at 100%float) t2 c2
           robot_data1) in
  let robot_data3 :=
    fst (update_encoder_data libm_cos libm_sin key (encoder_at 101%float) t3 c3
           robot_data2) in
  let seeded := get_state key robot_data2 in
  let moved := get_state key robot_data3 in
  x seeded = 0%float /\ y seeded = 0%float
  /\ last_timestamp_encoder seeded = JFloat 100%float
  /\ (abs (x moved - WHEEL_RADIUS_DEFAULT * (2 * math_pi))
       <? 0x1.0c6f7a0b5ed8dp-20)%float = true
  /\ y moved = 0%float
  /\ theta moved = JFloat 0%float.
Proof.
  intros Hnew H21 H22 H31 H33. cbn zeta.
  rewrite !update_encoder_data_state, update_imu_data_state.
  rewrite !decide_True by done.
  unfold get_state. rewrite Hnew. cbn [default].
  assert (Hyaw : imu_yaw imu_zero JNull = Ok (JFloat 0%float)) by reflexivity.
  rewrite Hyaw. cbn zeta. fold (after_imu t1).
  rewrite imu_frame_stores.
  rewrite (first_encoder_seeds t1 t2 c2) by done.
  rewrite (second_encoder_moves t1 t2 t3 c3) by done.
  repeat split; reflexivity.
Qed.
End PoseSeedFacts.

(** The scenario for the robot at [10.0.0.5:4000], the three frames
    arriving one second apart. *)
Lemma pose_seed_scenario_witness :
  let key := "10.0.0.5:4000" in
  let robot_data1 :=
    fst (TrajectoryCalculator.update_imu_data Fleet.taylor_cos Fleet.taylor_sin
           key TrajectoryCalculator.imu_zero 1000%float 1000%float ∅) in
  let robot_data2 :=
    fst (TrajectoryCalculator.update_encoder_data Fleet.taylor_cos Fleet.taylor_sin
           key (TrajectoryCalculator.encoder_at 100%float) 1001%float 1001%float
           robot_data1) in
  let robot_data3 :=
    fst (TrajectoryCalculator.update_encoder_data Fleet.taylor_cos Fleet.taylor_sin
           key (TrajectoryCalculator.encoder_at 101%float) 1002%float 1002%float
           robot_data2) in
  let seeded := TrajectoryCalculator.get_state key robot_data2 in
  let moved := TrajectoryCalculator.get_state key robot_data3 in
  TrajectoryCalculator.x seeded = 0%float
  /\ TrajectoryCalculator.y seeded = 0%float
  /\ TrajectoryCalculator.last_timestamp_encoder seeded = JFloat 100%float
  /\ (abs (TrajectoryCalculator.x moved
           - TrajectoryCalculator.WHEEL_RADIUS_DEFAULT
             * (2 * TrajectoryCalculator.math_pi))
       <? 0x1.0c6f7a0b5ed8dp-20)%float = true
  /\ TrajectoryCalculator.y moved = 0%float
  /\ TrajectoryCalculator.theta moved = JFloat 0%float.
Proof.
  apply (pose_seed_scenario Fleet.taylor_cos Fleet.taylor_sin eq_refl eq_refl
           "10.0.0.5:4000" ∅ 1000%float 1000%float 1001%float 1001%float
           1002%float 1002%float);
    first [ apply lookup_empty | vm_compute; reflexivity ].
Defined.
(** ** Python dicts *)

Section PyDictFacts.
Context {K V : Type} `{EqDecision K}.
Implicit Types (d : list (K * V)) (k : K) (v : V).

Lemma dict_get_set k k' v d :
  dict_get k (dict_set k' v d) = if decide (k = k') then Some v else dict_get k d.
Proof.
  induction d as [|[k0 v0] d IH]; simpl.
  - destruct (decide (k = k')); done.
  - destruct (decide (k' = k0)) as [->|Hne]; simpl.
    + destruct (decide (k = k0)); done.
    + destruct (decide (k = k0)) as [->|]; [by rewrite decide_False|exact IH].
Qed.

Lemma dict_get_Some_key k v d : dict_get k d = Some v -> k ∈ d.*1.
Proof.
  induction d as [|[k0 v0] d IH]; simpl; [done|].
  destruct (decide (k = k0)) as [->|]; intros Hg.
  - apply elem_of_cons. by left.
  - apply elem_of_cons. right. by apply IH.
Qed.

Lemma dict_get_None_key k d : k ∉ d.*1 -> dict_get k d = None.
Proof.
  intros Hk. destruct (dict_get k d) as [v|] eqn:Hg; [|done].
  by apply dict_get_Some_key in Hg.
Qed.

Lemma dict_get_key_Some k d : k ∈ d.*1 -> is_Some (dict_get k d).
Proof.
  induction d as [|[k0 v0] d IH]; simpl; intros Hin.
  - by apply elem_of_nil in Hin.
  - destruct (decide (k = k0)) as [->|Hne]; [by eexists|].
    apply elem_of_cons in Hin as [->|Hin]; [done|]. by apply IH.
Qed.

Lemma dict_get_elem_of k v d : dict_get k d = Some v -> (k, v) ∈ d.
Proof.
  induction d as [|[k0 v0] d IH]; simpl; [done|].
  destruct (decide (k = k0)) as [->|]; intros Hg.
  - injection Hg as ->. apply elem_of_cons. by left.
  - apply elem_of_cons. right. by apply IH.
Qed.

Lemma dict_has_true k d : dict_has k d = true <-> is_Some (dict_get k d).
Proof.
  unfold dict_has.
  destruct (dict_get k d); split; first [done | by eexists | by intros [? ?]].
Qed.

Lemma dict_set_key k0 k v d : k0 ∈ (dict_set k v d).*1 -> k0 = k \/ k0 ∈ d.*1.
Proof.
  induction d as [|[k1 v1] d IH]; simpl.
  - intros Hin. apply list_elem_of_singleton in Hin. by left.
  - destruct (decide (k = k1)) as [->|]; simpl; intros Hin;
      apply elem_of_cons in Hin as [->|Hin].
    + by left.
    + right. apply elem_of_cons. by right.
    + right. apply elem_of_cons. by left.
    + destruct (IH Hin) as [->|Hd]; [by left|].
      right. apply elem_of_cons. by right.
Qed.

Lemma dict_del_key k0 k d : k0 ∈ (dict_del k d).*1 -> k0 ∈ d.*1.
Proof.
  induction d as [|[k1 v1] d IH]; simpl; [done|].
  destruct (decide (k = k1)) as [->|]; simpl; intros Hin.
  - apply elem_of_cons. by right.
  - apply elem_of_cons in Hin as [->|Hin]; apply elem_of_cons; [by left|].
    right. by apply IH.
Qed.

Lemma dict_set_NoDup k v d : NoDup d.*1 -> NoDup (dict_set k v d).*1.
Proof.
  induction d as [|[k1 v1] d IH]; simpl; intros Hnd.
  - apply NoDup_singleton.
  - apply NoDup_cons in Hnd as [Hk1 Hnd].
    destruct (decide (k = k1)) as [->|Hne]; simpl.
    + by apply NoDup_cons.
    + apply NoDup_cons. split; [|by apply IH].
      intros Hin. apply dict_set_key in Hin as [->|Hin]; done.
Qed.

Lemma dict_del_NoDup k d : NoDup d.*1 -> NoDup (dict_del k d).*1.
Proof.
  induction d as [|[k1 v1] d IH]; simpl; intros Hnd; [done|].
  apply NoDup_cons in Hnd as [Hk1 Hnd].
  destruct (decide (k = k1)) as [->|Hne]; simpl; [done|].
  apply NoDup_cons. split; [|by apply IH].
  intros Hin. by apply dict_del_key in Hin.
Qed.

Lemma dict_get_del k k' d :
  NoDup d.*1 ->
  dict_get k (dict_del k' d) = if decide (k = k') then None else dict_get k d.
Proof.
  induction d as [|[k1 v1] d IH]; simpl; intros Hnd.
  - by destruct (decide (k = k')).
  - apply NoDup_cons in Hnd as [Hk1 Hnd].
    destruct (decide (k' = k1)) as [->|Hne]; simpl.
    + destruct (decide (k = k1)) as [->|]; [|done].
      by apply dict_get_None_key.
    + destruct (decide (k = k1)) as [->|]; [by rewrite decide_False|].
      by apply IH.
Qed.

Lemma dict_set_length k v d :
  length (dict_set k v d) = if dict_has k d then length d else S (length d).
Proof.
  unfold dict_has. induction d as [|[k1 v1] d IH]; simpl; [done|].
  destruct (decide (k = k1)) as [->|]; simpl; [done|].
  rewrite IH. by destruct (dict_get k d).
Qed.
End PyDictFacts.

(** ** Alias registry *)

Section RegistryFacts.
Import Registry.

Lemma append_cancel (a b c : string) : a +:+ b = a +:+ c -> b = c.
Proof. induction a as [|ch a IH]; simpl; [done|]. intros [= Heq]. by apply IH. Qed.

Lemma alias_number_inj (n n' : nat) :
  "robot" +:+ pretty n = "robot" +:+ pretty n' -> n = n'.
Proof. intros Heq. apply append_cancel in Heq. by apply (inj pretty). Qed.

Lemma unique_key_port_inj (ip : string) (port port' : nat) :
  unique_key ip port = unique_key ip port' -> port = port'.
Proof.
  unfold unique_key. intros Heq. apply append_cancel, append_cancel in Heq.
  by apply (inj pretty).
Qed.

Lemma initial_well_formed : well_formed initial.
Proof.
  unfold well_formed, initial; simpl.
  repeat split; try apply NoDup_nil_2; try done.
Qed.

(** A fresh alias is not the alias of any session. *)
Lemma next_alias_unused (m : robot_alias_manager) :
  well_formed m ->
  dict_get ("robot" +:+ pretty (next_robot_number m)) (alias_to_ip_port m) = None.
Proof.
  intros (_ & _ & _ & _ & Hbij & Hnum).
  destruct (dict_get _ (alias_to_ip_port m)) as [key|] eqn:Hg; [|done].
  apply Hbij, Hnum in Hg as [(n & Hlt & Heq) _].
  apply alias_number_inj in Heq. lia.
Qed.

Lemma register_well_formed (ip : string) (port : nat) (m : robot_alias_manager) :
  well_formed m -> well_formed (fst (register ip port m)).
Proof.
  intros Hwf. pose proof (next_alias_unused m Hwf) as Hfresh.
  pose proof Hwf as (Hf & Hr & Hi & Ha & Hbij & Hnum).
  unfold register.
  destruct (dict_get (unique_key ip port) (ip_port_to_alias m)) as [a|] eqn:Hkey;
    [exact Hwf|].
  cbn [fst]. unfold well_formed.
  cbn [ip_port_to_alias alias_to_ip_port ip_to_alias alias_to_ip next_robot_number].
  set (alias := "robot" +:+ pretty (next_robot_number m)) in *.
  split; [by apply dict_set_NoDup|]. split; [by apply dict_set_NoDup|].
  split; [destruct (negb _); [by apply dict_set_NoDup|done]|].
  split; [destruct (negb _); [by apply dict_set_NoDup|done]|].
  split.
  - intros key a. rewrite !dict_get_set.
    destruct (decide (key = unique_key ip port)) as [->|Hk],
             (decide (a = alias)) as [->|Ha'].
    + done.
    + split; [congruence|]. intros Hg. apply Hbij in Hg. congruence.
    + split; [|congruence]. intros Hg. apply Hbij in Hg. congruence.
    + apply Hbij.
  - intros key a. rewrite dict_get_set.
    destruct (decide (key = unique_key ip port)) as [->|Hk].
    + intros [= <-]. split; [exists (next_robot_number m); split; [lia|done]|].
      by exists ip, port.
    + intros Hg. apply Hnum in Hg as [(n & Hlt & Heq) Hkey'].
      split; [exists n; split; [lia|done]|done].
Qed.

Lemma unregister_well_formed (ip : string) (port : nat) (m : robot_alias_manager) :
  well_formed m -> well_formed (unregister ip port m).
Proof.
  intros Hwf. pose proof Hwf as (Hf & Hr & Hi & Ha & Hbij & Hnum).
  unfold unregister.
  destruct (dict_get (unique_key ip port) (ip_port_to_alias m)) as [a0|] eqn:Hkey;
    [|exact Hwf].
  pose proof (proj1 (Hbij _ _) Hkey) as Hrev.
  rewrite (bool_decide_eq_true_2 _ Hrev).
  unfold well_formed.
  cbn [ip_port_to_alias alias_to_ip_port ip_to_alias alias_to_ip next_robot_number].
  split; [by apply dict_del_NoDup|]. split; [by apply dict_del_NoDup|].
  split; [destruct (bool_decide _); [by apply dict_del_NoDup|done]|].
  split; [destruct (bool_decide _); [by apply dict_del_NoDup|done]|].
  split.
  - intros key a. rewrite !dict_get_del by done.
    destruct (decide (key = unique_key ip port)) as [->|Hk],
             (decide (a = a0)) as [->|Ha'].
    + done.
    + split; [done|]. intros Hg. apply Hbij in Hg. congruence.
    + split; [|done]. intros Hg. apply Hbij in Hg. congruence.
    + apply Hbij.
  - intros key a. rewrite dict_get_del by done.
    destruct (decide (key = unique_key ip port)); [done|]. apply Hnum.
Qed.

Lemma step_well_formed (m : robot_alias_manager) (e : event) :
  well_formed m -> well_formed (step m e).
Proof.
  destruct e; [apply register_well_formed | apply unregister_well_formed].
Qed.

Lemma run_snoc (events : list event) (e : event) :
  run (events ++ [e]) = step (run events) e.
Proof. unfold run. by rewrite fold_left_app. Qed.

Lemma run_well_formed (events : list event) : well_formed (run events).
Proof.
  induction events as [|e events IH] using rev_ind.
  - apply initial_well_formed.
  - rewrite run_snoc. by apply step_well_formed.
Qed.

(** The counter of aliases never goes down. *)
Lemma step_next_robot_number (m : robot_alias_manager) (e : event) :
  next_robot_number m <= next_robot_number (step m e).
Proof.
  destruct e as [ip port|ip port]; cbn [step]; unfold register, unregister;
    destruct (dict_get _ _); cbn [fst next_robot_number]; lia.
Qed.

Lemma run_app_next_robot_number (events events' : list event) :
  next_robot_number (run events) <= next_robot_number (run (events ++ events')).
Proof.
  induction events' as [|e events' IH] using rev_ind.
  - by rewrite app_nil_r.
  - rewrite app_assoc, run_snoc.
    etrans; [exact IH | apply step_next_robot_number].
Qed.
End RegistryFacts.

(** X1: the forward map [ip_port_to_alias] and the reverse map
    [alias_to_ip_port] mirror each other after any sequence of robot
    sessions, and no two sessions share an alias. *)
Theorem registry_maps_mirror (events : list Registry.event) (key alias : string) :
  (dict_get key (Registry.ip_port_to_alias (Registry.run events)) = Some alias
   <-> dict_get alias (Registry.alias_to_ip_port (Registry.run events)) = Some key)
  /\ (forall key' : string,
        dict_get key (Registry.ip_port_to_alias (Registry.run events)) = Some alias ->
        dict_get key' (Registry.ip_port_to_alias (Registry.run events)) = Some alias ->
        key' = key).
Proof.
  destruct (run_well_formed events) as (_ & _ & _ & _ & Hbij & _).
  split; [apply Hbij|]. intros key' Hk Hk'.
  apply Hbij in Hk, Hk'. congruence.
Qed.

(** X2: an alias is handed out once: a session that gets a new alias, at any
    later time, does not get an alias that some session held before, also
    when that session has gone. *)
Theorem alias_never_reused (events events' : list Registry.event)
    (ip ip' : string) (port port' : nat) (alias : string) :
  dict_get (Registry.unique_key ip port)
    (Registry.ip_port_to_alias (Registry.run events)) = Some alias ->
  dict_get (Registry.unique_key ip' port')
    (Registry.ip_port_to_alias (Registry.run (events ++ events'))) = None ->
  snd (Registry.register ip' port' (Registry.run (events ++ events'))) <> alias.
Proof.
  intros Hheld Hnew. unfold Registry.register. rewrite Hnew. cbn [snd].
  destruct (run_well_formed events) as (_ & _ & _ & _ & _ & Hnum).
  apply Hnum in Hheld as [(n & Hlt & ->) _].
  intros Heq. apply alias_number_inj in Heq.
  pose proof (run_app_next_robot_number events events'). lia.
Qed.

(** The robot at [10.0.0.5:4000] connects, disconnects and connects again
    from the same address: it is [robot2] now, not [robot1]. *)
Lemma alias_never_reused_witness :
  dict_get (Registry.unique_key "10.0.0.5" 4000)
    (Registry.ip_port_to_alias
       (Registry.run [ Registry.Connect "10.0.0.5" 4000 ])) = Some "robot1"
  /\ snd (Registry.register "10.0.0.5" 4000
            (Registry.run ([ Registry.Connect "10.0.0.5" 4000 ]
                           ++ [ Registry.Disconnect "10.0.0.5" 4000 ])))
     <> "robot1".
Proof.
  split; [vm_compute; reflexivity|].
  apply (alias_never_reused [ Registry.Connect "10.0.0.5" 4000 ]
           [ Registry.Disconnect "10.0.0.5" 4000 ] "10.0.0.5" "10.0.0.5" 4000 4000);
    vm_compute; reflexivity.
Defined.

(** A second [Connect] of a session that is registered changes nothing and
    yields the alias of the first. *)
Lemma register_twice (ip : string) (port : nat) (m : Registry.robot_alias_manager) :
  Registry.register ip port (fst (Registry.register ip port m))
  = Registry.register ip port m.
Proof.
  unfold Registry.register at 2 3.
  destruct (dict_get (Registry.unique_key ip port) (Registry.ip_port_to_alias m))
    as [a|] eqn:Hkey; cbn [fst snd].
  - unfold Registry.register. by rewrite Hkey.
  - unfold Registry.register.
    cbn [Registry.ip_port_to_alias]. rewrite dict_get_set, decide_True by done.
    reflexivity.
Qed.

(** ** [upgrade_signal] and [trigger_robot_pid_task] *)

Section TargetFacts.
Import DirectBridge.
Variable str_exn : exn -> string.

Lemma nonempty_value (s : string) : s <> "" -> nonempty (Some s) = Some s.
Proof. intros Hne. by apply nonempty_Some. Qed.

Lemma str_truthy_value (s : string) : s <> "" -> str_truthy (Some s) = true.
Proof. intros Hne. simpl. by apply String.eqb_neq in Hne as ->. Qed.

(** X3: when the alias of a [trigger_robot_pid_task] command names a connected
    robot, ["Set PID"] is written to that robot and to no other, whatever
    the IP field holds: here the alias wins. *)
Theorem trigger_robot_pid_task_alias_wins (m : Registry.robot_alias_manager)
    (_tcp_clients : gmap string ConnectionManager.tcp_client)
    (target_ip : option string) (alias key : string)
    (writer : ConnectionManager.tcp_client) :
  alias <> "" -> key <> "" ->
  dict_get alias (Registry.alias_to_ip_port m) = Some key ->
  ConnectionManager.get_tcp_client key _tcp_clients = Some writer ->
  robot_writes
    (trigger_robot_pid_task str_exn m _tcp_clients target_ip (Some alias) (Ok ()))
  = [ (writer, "Set PID") ].
Proof.
  intros Ha Hk Hkey Hw. unfold trigger_robot_pid_task, resolve_pid_task_target.
  rewrite (nonempty_value alias Ha), Hkey. cbn [fst snd].
  rewrite (nonempty_value key Hk), Hw. reflexivity.
Qed.

(** X4: when the IP of an [upgrade_signal] command has a primary alias whose
    robot is connected, ["Upgrade"] is written to that robot and to no
    other, whatever the alias field holds: here the IP wins. *)
Theorem upgrade_signal_ip_wins (m : Registry.robot_alias_manager)
    (_tcp_clients : gmap string ConnectionManager.tcp_client)
    (target_alias : option string) (ip primary key : string)
    (writer : ConnectionManager.tcp_client) (now : float) :
  ip <> "" -> primary <> "" -> key <> "" ->
  dict_get ip (Registry.ip_to_alias m) = Some primary ->
  dict_get primary (Registry.alias_to_ip_port m) = Some key ->
  ConnectionManager.get_tcp_client key _tcp_clients = Some writer ->
  robot_writes
    (upgrade_signal str_exn m _tcp_clients (Some ip) target_alias (Ok ()) now)
  = [ (writer, "Upgrade") ].
Proof.
  intros Hi Hp Hk Hip Hkey Hw. unfold upgrade_signal, resolve_upgrade_target.
  rewrite (str_truthy_value ip Hi). cbn [negb andb].
  rewrite (nonempty_value ip Hi), Hip, (nonempty_value primary Hp), Hkey.
  rewrite (nonempty_value key Hk), Hw. reflexivity.
Qed.

(** X5: [upgrade_signal] does not fall back on the alias: when the IP field is
    given and has no primary alias, nothing is written to any robot, also
    when the alias field names a connected robot. *)
Theorem upgrade_signal_no_alias_fallback (m : Registry.robot_alias_manager)
    (_tcp_clients : gmap string ConnectionManager.tcp_client)
    (target_alias : option string) (ip : string) (write_result : result unit)
    (now : float) :
  ip <> "" ->
  dict_get ip (Registry.ip_to_alias m) = None ->
  upgrade_signal str_exn m _tcp_clients (Some ip) target_alias write_result now
  = [ WsSend (command_error "upgrade_signal"
                ("Robot not found for IP '" +:+ ip +:+ "' or alias '"
                 +:+ fmt target_alias +:+ "' for upgrade_signal.")) ].
Proof.
  intros Hi Hip. unfold upgrade_signal, resolve_upgrade_target.
  rewrite (str_truthy_value ip Hi). cbn [negb andb].
  rewrite (nonempty_value ip Hi), Hip. reflexivity.
Qed.
End TargetFacts.

(** In the fleet of two robots, [robot_alias = robot2] with
    [robot_ip = 10.0.0.5] (the address of [robot1]): ["Set PID"] goes to
    the session of [robot2]. *)
Lemma trigger_robot_pid_task_alias_wins_witness :
  DirectBridge.robot_writes
    (DirectBridge.trigger_robot_pid_task Fleet.no_text Fleet.registry Fleet.sessions
       (Some "10.0.0.5") (Some "robot2") (Ok ()))
  = [ (2, "Set PID") ].
Proof.
  apply (trigger_robot_pid_task_alias_wins Fleet.no_text Fleet.registry
           Fleet.sessions (Some "10.0.0.5") "robot2" "10.0.0.6:4001" 2);
    first [ discriminate | vm_compute; reflexivity ].
Defined.

(** The same two fields in an [upgrade_signal] command: ["Upgrade"] goes
    to the session of [robot1]. *)
Lemma upgrade_signal_ip_wins_witness :
  DirectBridge.robot_writes
    (DirectBridge.upgrade_signal Fleet.no_text Fleet.registry Fleet.sessions
       (Some "10.0.0.5") (Some "robot2") (Ok ()) 0%float)
  = [ (1, "Upgrade") ].
Proof.
  apply (upgrade_signal_ip_wins Fleet.no_text Fleet.registry Fleet.sessions
           (Some "robot2") "10.0.0.5" "robot1" "10.0.0.5:4000" 1 0%float);
    first [ discriminate | vm_compute; reflexivity ].
Defined.

(** An unknown IP with the alias of the connected [robot2]. *)
Lemma upgrade_signal_no_alias_fallback_witness :
  DirectBridge.upgrade_signal Fleet.no_text Fleet.registry Fleet.sessions
    (Some "10.0.0.9") (Some "robot2") (Ok ()) 0%float
  = [ WsSend (DirectBridge.command_error "upgrade_signal"
                ("Robot not found for IP '" +:+ "10.0.0.9" +:+ "' or alias '"
                 +:+ fmt (Some "robot2") +:+ "' for upgrade_signal.")) ].
Proof.
  apply (upgrade_signal_no_alias_fallback Fleet.no_text Fleet.registry
           Fleet.sessions (Some "robot2") "10.0.0.9" (Ok ()) 0%float);
    first [ discriminate | vm_compute; reflexivity ].
Defined.

(** X6: the first session of an IP holds its primary alias; when that session
    ends while a later one from the same IP lives on, the IP is left with
    no primary alias: the later session keeps its own alias and is not
    promoted, and an [upgrade_signal] addressed by that IP reaches no
    robot. *)
Theorem primary_alias_not_promoted (str_exn : exn -> string)
    (events : list Registry.event) (ip : string) (port port' : nat)
    (alias alias' : string)
    (_tcp_clients : gmap string ConnectionManager.tcp_client)
    (write_result : result unit) (now : float) :
  let m := Registry.run events in
  ip <> "" -> port <> port' ->
  dict_get (Registry.unique_key ip port) (Registry.ip_port_to_alias m) = Some alias ->
  dict_get ip (Registry.ip_to_alias m) = Some alias ->
  dict_get (Registry.unique_key ip port') (Registry.ip_port_to_alias m) = Some alias' ->
  let m' := Registry.unregister ip port m in
  dict_get ip (Registry.ip_to_alias m') = None
  /\ dict_get (Registry.unique_key ip port') (Registry.ip_port_to_alias m') = Some alias'
  /\ DirectBridge.robot_writes
       (DirectBridge.upgrade_signal str_exn m' _tcp_clients (Some ip) None
          write_result now) = [].
Proof.
  intros m Hip Hport Hkey Hprim Hkey' m'.
  destruct (run_well_formed events) as (Hf & _ & Hi & _ & _ & _). fold m in Hf, Hi.
  assert (Hgone : dict_get ip (Registry.ip_to_alias m') = None).
  { subst m'. unfold Registry.unregister. rewrite Hkey.
    rewrite (bool_decide_eq_true_2 _ Hprim). cbn [Registry.ip_to_alias].
    rewrite dict_get_del by done. by rewrite decide_True. }
  split; [exact Hgone|]. split.
  - subst m'. unfold Registry.unregister. rewrite Hkey.
    cbn [Registry.ip_port_to_alias]. rewrite dict_get_del by done.
    rewrite decide_False; [done|].
    intros Heq. apply unique_key_port_inj in Heq. congruence.
  - unfold DirectBridge.upgrade_signal, DirectBridge.resolve_upgrade_target.
    rewrite (str_truthy_value ip Hip). cbn [negb andb].
    rewrite (nonempty_value ip Hip), Hgone. reflexivity.
Qed.

(** Two robots behind [10.0.0.5]; the first one, [robot1], leaves. *)
Lemma primary_alias_not_promoted_witness :
  let m' :=
    Registry.unregister "10.0.0.5" 4000
      (Registry.run [ Registry.Connect "10.0.0.5" 4000;
                      Registry.Connect "10.0.0.5" 4001 ]) in
  dict_get "10.0.0.5" (Registry.ip_to_alias m') = None
  /\ dict_get (Registry.unique_key "10.0.0.5" 4001) (Registry.ip_port_to_alias m')
     = Some "robot2"
  /\ DirectBridge.robot_writes
       (DirectBridge.upgrade_signal Fleet.no_text m'
          (ConnectionManager.set_tcp_client "10.0.0.5:4001" 2 ∅)
          (Some "10.0.0.5") None (Ok ()) 0%float) = [].
Proof.
  apply (primary_alias_not_promoted Fleet.no_text
           [ Registry.Connect "10.0.0.5" 4000; Registry.Connect "10.0.0.5" 4001 ]
           "10.0.0.5" 4000 4001 "robot1" "robot2");
    first [ discriminate | vm_compute; reflexivity ].
Defined.

(** ** Connection manager *)

Section ConnectionFacts.
Import Connections.

Lemma split_once_Some (sep : ascii) (s a b : string) :
  split_once sep s = Some (a, b) -> s = a +:+ String sep b.
Proof.
  revert a. induction s as [|c s IH]; intros a; simpl; [done|].
  destruct (Ascii.eqb_spec c sep) as [->|Hne].
  - by intros [= <- <-].
  - destruct (split_once sep s) as [[a' b']|]; [|done].
    intros [= <- <-]. change (String c s = String c (a' +:+ String sep b')).
    f_equal. by apply IH.
Qed.

(** [sep in s] for a one-character [sep]: [s] splits at it. *)
Lemma is_substring_char (sep : ascii) (s : string) :
  is_substring (String sep "") s = bool_decide (is_Some (split_once sep s)).
Proof.
  induction s as [|c s IH]; [done|].
  cbn [is_substring split_once String.prefix].
  destruct (Ascii.eqb_spec c sep) as [->|Hne].
  - destruct (ascii_dec sep sep) as [_|Hne]; [|done].
    rewrite bool_decide_eq_true_2 by (by eexists). by destruct s.
  - destruct (ascii_dec sep c) as [<-|_]; [done|].
    cbn [orb]. rewrite IH.
    destruct (split_once sep s) as [[a b]|]; [|done].
    rewrite !bool_decide_eq_true_2 by (by eexists). done.
Qed.

(** An id with a slash is not its own normal form. *)
Lemma normalize_robot_id_slash (robot_id : string) :
  is_substring "/" robot_id = true ->
  ConnectionManager.normalize_robot_id robot_id <> robot_id.
Proof.
  rewrite (is_substring_char "/"). intros Hs.
  apply bool_decide_eq_true in Hs as [[a b] Hs].
  unfold ConnectionManager.normalize_robot_id. rewrite Hs.
  apply split_once_Some in Hs. rewrite Hs. intros Heq.
  apply append_cancel in Heq. discriminate.
Qed.

Lemma normalize_robot_id_plain (robot_id : string) :
  is_substring "/" robot_id = false ->
  ConnectionManager.normalize_robot_id robot_id = robot_id.
Proof.
  rewrite (is_substring_char "/"). intros Hs.
  unfold ConnectionManager.normalize_robot_id.
  destruct (split_once "/" robot_id) as [[a b]|]; [|done].
  apply bool_decide_eq_false in Hs. exfalso. apply Hs. by eexists.
Qed.

Lemma list_remove_elem_of (ws w : websocket) (l : list websocket) :
  w ∈ list_remove ws l -> w ∈ l.
Proof.
  induction l as [|w0 l IH]; simpl; [done|].
  destruct (decide (ws = w0)) as [->|]; intros Hin.
  - apply elem_of_cons. by right.
  - apply elem_of_cons in Hin as [->|Hin]; apply elem_of_cons; [by left|].
    right. by apply IH.
Qed.

Lemma list_remove_NoDup (ws : websocket) (l : list websocket) :
  NoDup l -> NoDup (list_remove ws l) /\ ws ∉ list_remove ws l.
Proof.
  induction l as [|w0 l IH]; simpl; intros Hnd.
  - split; [done|]. apply not_elem_of_nil.
  - apply NoDup_cons in Hnd as [Hw0 Hnd].
    destruct (decide (ws = w0)) as [->|Hne]; [done|].
    destruct (IH Hnd) as [IHnd IHout]. split.
    + apply NoDup_cons. split; [|done].
      intros Hin. by apply list_remove_elem_of in Hin.
    + apply not_elem_of_cons. by split.
Qed.

Lemma run_call_distinct (s : connections) (c : call) :
  distinct s -> distinct (run_call s c).
Proof.
  intros (Ha & Hr & Hw). destruct c as [id ws|id ws|id client [a|]|id]; cbn [run_call].
  - unfold add_websocket. split; [done|]. split; [done|].
    cbn [_websockets]. intros rid sockets.
    destruct (decide (ConnectionManager.normalize_robot_id id = rid)) as [<-|Hne].
    + rewrite lookup_insert_eq. intros [= <-].
      assert (NoDup (default [] (_websockets s !! ConnectionManager.normalize_robot_id id)))
        as Hnd.
      { destruct (_websockets s !! _) eqn:Hl; [by eapply Hw|apply NoDup_nil_2]. }
      destruct (bool_decide_reflect
                  (ws ∈ default [] (_websockets s !! ConnectionManager.normalize_robot_id id)))
        as [Hin|Hout]; [done|].
      apply NoDup_app. split; [done|]. split; [|apply NoDup_singleton].
      intros w Hin Hin'. apply list_elem_of_singleton in Hin'. by subst.
    + rewrite lookup_insert_ne by done. apply Hw.
  - unfold remove_websocket.
    destruct (_websockets s !! ConnectionManager.normalize_robot_id id)
      as [sockets|] eqn:Hl; [|done].
    destruct (bool_decide (ws ∈ sockets)); [|done].
    split; [done|]. split; [done|]. cbn [_websockets]. intros rid l.
    destruct (decide (ConnectionManager.normalize_robot_id id = rid)) as [<-|Hne].
    + rewrite lookup_insert_eq. intros [= <-].
      apply list_remove_NoDup. by eapply Hw.
    + rewrite lookup_insert_ne by done. apply Hw.
  - unfold set_tcp_client. split; [by apply dict_set_NoDup|].
    split; [by apply dict_set_NoDup|done].
  - done.
  - unfold remove_tcp_client. destruct (_tcp_clients s !! id); [|done].
    destruct (dict_get id (_robot_to_addr s)); [|done].
    split; [destruct (dict_has _ _); [by apply dict_del_NoDup|done]|].
    split; [by apply dict_del_NoDup|done].
Qed.

Lemma run_calls_distinct (calls : list call) : distinct (run_calls calls).
Proof.
  induction calls as [|c calls IH] using rev_ind.
  - split; [apply NoDup_nil_2|]. split; [apply NoDup_nil_2|].
    intros rid l. unfold run_calls. simpl. by rewrite lookup_empty.
  - unfold run_calls. rewrite fold_left_app. by apply run_call_distinct.
Qed.
End ConnectionFacts.

(** X7: [get_tcp_client] normalizes the id and [set_tcp_client] does not: a
    client registered under an id without a slash is found again; under an
    id with a slash it is not, the lookup reads the normalized id
    instead. *)
Theorem get_tcp_client_after_set (robot_id : string)
    (client : ConnectionManager.tcp_client)
    (clients : gmap string ConnectionManager.tcp_client) :
  ConnectionManager.get_tcp_client robot_id
    (ConnectionManager.set_tcp_client robot_id client clients)
  = if is_substring "/" robot_id
    then clients !! ConnectionManager.normalize_robot_id robot_id
    else Some client.
Proof.
  unfold ConnectionManager.get_tcp_client, ConnectionManager.set_tcp_client.
  destruct (is_substring "/" robot_id) eqn:Hs.
  - apply lookup_insert_ne. intros Heq. by apply normalize_robot_id_slash in Hs.
  - rewrite normalize_robot_id_plain by done. apply lookup_insert_eq.
Qed.

(** X8: after [set_tcp_client] with an address, the robot is found by that
    address and the address by the robot; after [remove_tcp_client] of the
    robot, none of the three lookups finds anything. *)
Theorem address_lookup_round_trip (calls : list Connections.call)
    (robot_id : string) (client : ConnectionManager.tcp_client)
    (ip : string) (port : nat) :
  robot_id <> "" ->
  let s :=
    Connections.set_tcp_client robot_id client (Some (ip, port))
      (Connections.run_calls calls) in
  let s' := Connections.remove_tcp_client robot_id s in
  Connections.get_tcp_client_by_addr ip (Some port) s = Some client
  /\ Connections.get_robot_id_by_ip ip (Some port) s = Some robot_id
  /\ Connections.get_ip_by_robot_id robot_id s = Some ip
  /\ Connections.get_tcp_client_by_addr ip (Some port) s' = None
  /\ Connections.get_robot_id_by_ip ip (Some port) s' = None
  /\ Connections.get_ip_by_robot_id robot_id s' = None.
Proof.
  intros Hid s s'.
  destruct (run_calls_distinct calls) as (Ha & Hr & _).
  assert (Hrid : Connections.get_robot_id_by_ip ip (Some port) s = Some robot_id).
  { subst s. unfold Connections.get_robot_id_by_ip, Connections.set_tcp_client.
    cbn [Connections._addr_to_robot]. rewrite dict_get_set. by rewrite decide_True. }
  assert (Hrid' : Connections.get_robot_id_by_ip ip (Some port) s' = None).
  { subst s' s. unfold Connections.get_robot_id_by_ip, Connections.remove_tcp_client,
      Connections.set_tcp_client, ConnectionManager.set_tcp_client.
    cbn [Connections._tcp_clients Connections._robot_to_addr Connections._addr_to_robot].
    rewrite lookup_insert_eq, dict_get_set, decide_True by done.
    cbn [Connections._addr_to_robot].
    destruct (dict_has _ _) eqn:Hhas.
    - rewrite dict_get_del by (by apply dict_set_NoDup). by rewrite decide_True.
    - apply not_true_iff_false in Hhas. exfalso. apply Hhas, dict_has_true.
      rewrite dict_get_set, decide_True by done. by eexists. }
  split.
  { unfold Connections.get_tcp_client_by_addr. rewrite Hrid.
    rewrite (proj2 (nonempty_Some (Some robot_id) robot_id)) by done.
    subst s. apply lookup_insert_eq. }
  split; [exact Hrid|]. split.
  { subst s. unfold Connections.get_ip_by_robot_id, Connections.set_tcp_client.
    cbn [Connections._robot_to_addr]. rewrite dict_get_set. by rewrite decide_True. }
  split.
  { unfold Connections.get_tcp_client_by_addr. by rewrite Hrid'. }
  split; [exact Hrid'|].
  subst s' s. unfold Connections.get_ip_by_robot_id, Connections.remove_tcp_client,
    Connections.set_tcp_client, ConnectionManager.set_tcp_client.
  cbn [Connections._tcp_clients Connections._robot_to_addr].
  rewrite lookup_insert_eq, dict_get_set, decide_True by done.
  cbn [Connections._robot_to_addr].
  rewrite dict_get_del by (by apply dict_set_NoDup). by rewrite decide_True.
Qed.

(** The robot at [10.0.0.5:4000], registered under its key as the bridge
    does, after another robot has come and gone. *)
Lemma address_lookup_round_trip_witness :
  let s :=
    Connections.set_tcp_client "10.0.0.5:4000" 1 (Some ("10.0.0.5", 4000))
      (Connections.run_calls
         [ Connections.SetTcpClient "10.0.0.6:4001" 2 (Some ("10.0.0.6", 4001));
           Connections.RemoveTcpClient "10.0.0.6:4001" ]) in
  let s' := Connections.remove_tcp_client "10.0.0.5:4000" s in
  Connections.get_tcp_client_by_addr "10.0.0.5" (Some 4000) s = Some 1
  /\ Connections.get_robot_id_by_ip "10.0.0.5" (Some 4000) s = Some "10.0.0.5:4000"
  /\ Connections.get_ip_by_robot_id "10.0.0.5:4000" s = Some "10.0.0.5"
  /\ Connections.get_tcp_client_by_addr "10.0.0.5" (Some 4000) s' = None
  /\ Connections.get_robot_id_by_ip "10.0.0.5" (Some 4000) s' = None
  /\ Connections.get_ip_by_robot_id "10.0.0.5:4000" s' = None.
Proof.
  apply (address_lookup_round_trip
           [ Connections.SetTcpClient "10.0.0.6:4001" 2 (Some ("10.0.0.6", 4001));
             Connections.RemoveTcpClient "10.0.0.6:4001" ]
           "10.0.0.5:4000" 1 "10.0.0.5" 4000).
  discriminate.
Defined.

(** X9: after any sequence of calls, the websocket list of a robot holds no
    socket twice; [add_websocket] lists the socket and [remove_websocket]
    leaves a list without it. *)
Theorem websockets_listed_once (calls : list Connections.call)
    (robot_id : string) (ws : Connections.websocket) :
  NoDup (Connections.get_websockets robot_id (Connections.run_calls calls))
  /\ ws ∈ Connections.get_websockets robot_id
            (Connections.add_websocket robot_id ws (Connections.run_calls calls))
  /\ ws ∉ Connections.get_websockets robot_id
            (Connections.remove_websocket robot_id ws (Connections.run_calls calls)).
Proof.
  destruct (run_calls_distinct calls) as (_ & _ & Hw).
  set (s := Connections.run_calls calls) in *.
  unfold Connections.get_websockets.
  set (rid := ConnectionManager.normalize_robot_id robot_id).
  split; [|split].
  - destruct (Connections._websockets s !! rid) eqn:Hl; [by eapply Hw|apply NoDup_nil_2].
  - unfold Connections.add_websocket. cbn [Connections._websockets]. fold rid.
    rewrite lookup_insert_eq. cbn [from_option id].
    destruct (bool_decide_reflect (ws ∈ default [] (Connections._websockets s !! rid)));
      [done|].
    apply elem_of_app. right. by apply list_elem_of_singleton.
  - unfold Connections.remove_websocket. fold rid.
    destruct (Connections._websockets s !! rid) as [sockets|] eqn:Hl.
    + destruct (bool_decide_reflect (ws ∈ sockets)) as [Hin|Hout].
      * cbn [Connections._websockets]. rewrite lookup_insert_eq. cbn [from_option id].
        apply list_remove_NoDup. by eapply Hw.
      * by rewrite Hl.
    + rewrite Hl. apply not_elem_of_nil.
Qed.

(** ** Subscription commands *)

Section SubscriptionCommandFacts.
Import DirectBridge.

Lemma types_of_add_subscription (c : client_addr) (key key' data_type : string)
    (subs : subscriptions) :
  types_of c key (add_subscription c key' data_type subs)
  = if decide (key' = key) then types_of c key subs ∪ {[data_type]}
    else types_of c key subs.
Proof.
  unfold types_of, client_subscriptions, add_subscription.
  rewrite lookup_insert_eq. cbn [from_option id].
  destruct (decide (key' = key)) as [->|Hne].
  - by rewrite lookup_insert_eq.
  - by rewrite lookup_insert_ne.
Qed.

(** Removing a type under one key leaves the types under another. *)
Lemma types_of_remove_subscription (c : client_addr) (key key' data_type : string)
    (client_subs : gmap string (gset string)) (types : gset string)
    (subs : subscriptions) :
  subs !! c = Some client_subs -> key' <> key ->
  types_of c key (remove_subscription c key' data_type client_subs types subs)
  = types_of c key subs.
Proof.
  intros Hc Hne. unfold types_of, client_subscriptions, remove_subscription.
  rewrite Hc. cbn [from_option id].
  set (cs := if decide (types ∖ {[data_type]} = ∅) then delete key' client_subs
             else <[key' := types ∖ {[data_type]}]> client_subs).
  assert (Hcs : cs !! key = client_subs !! key).
  { subst cs. destruct (decide _); [by rewrite lookup_delete_ne|].
    by rewrite lookup_insert_ne. }
  destruct (decide (cs = ∅)) as [He|He].
  - rewrite lookup_delete_eq. cbn [from_option id].
    rewrite <- Hcs, He. by rewrite !lookup_empty.
  - rewrite lookup_insert_eq. cbn [from_option id]. by rewrite Hcs.
Qed.

Lemma remove_subscription_other (c c' : client_addr) (key data_type : string)
    (client_subs : gmap string (gset string)) (types : gset string)
    (subs : subscriptions) :
  c' <> c ->
  remove_subscription c key data_type client_subs types subs !! c' = subs !! c'.
Proof.
  intros Hne. unfold remove_subscription.
  destruct (decide _); [by rewrite lookup_delete_ne | by rewrite lookup_insert_ne].
Qed.

Lemma add_subscription_twice (c : client_addr) (key data_type : string)
    (subs : subscriptions) :
  add_subscription c key data_type (add_subscription c key data_type subs)
  = add_subscription c key data_type subs.
Proof.
  unfold add_subscription. rewrite lookup_insert_eq. cbn [from_option id].
  rewrite lookup_insert_eq. cbn [from_option id].
  rewrite !insert_insert_eq. do 2 f_equal.
  apply set_eq. intros t. rewrite !elem_of_union. tauto.
Qed.

(** The types held under the global key after a [direct_subscribe] on an
    unknown alias. *)
Lemma direct_subscribe_global_types (m : Registry.robot_alias_manager)
    (c : client_addr) (data_type alias : string) (target_ip : option string)
    (subs : subscriptions) :
  data_type <> "" -> alias <> "" ->
  dict_has alias (Registry.alias_to_ip_port m) = false ->
  data_type
  ∈ types_of c GLOBAL_SUBSCRIPTION_KEY
      (fst (direct_subscribe m c (Some data_type) target_ip (Some alias) subs)).
Proof.
  intros Ht Ha Hunknown. unfold direct_subscribe, direct_subscribe_key.
  rewrite (nonempty_value data_type Ht), (nonempty_value alias Ha), Hunknown.
  cbn [fst]. rewrite types_of_add_subscription, decide_True by done.
  apply elem_of_union. right. by apply elem_of_singleton.
Qed.

(** X10: a [direct_subscribe] that names an alias no robot holds is not
    refused: it subscribes the client under the global key, so that the
    client matches frames of that type from every robot. *)
Theorem direct_subscribe_unknown_alias_is_global (m : Registry.robot_alias_manager)
    (c : client_addr) (data_type alias robot : string) (target_ip : option string)
    (subs : subscriptions) :
  data_type <> "" -> alias <> "" ->
  dict_has alias (Registry.alias_to_ip_port m) = false ->
  let subs' :=
    fst (direct_subscribe m c (Some data_type) target_ip (Some alias) subs) in
  data_type ∈ types_of c GLOBAL_SUBSCRIPTION_KEY subs'
  /\ matches c robot data_type subs' = true.
Proof.
  intros Ht Ha Hunknown subs'.
  pose proof (direct_subscribe_global_types m c data_type alias target_ip subs
                Ht Ha Hunknown) as Hin.
  fold subs' in Hin. split; [exact Hin|]. unfold matches.
  rewrite (bool_decide_eq_true_2 _ Hin). apply orb_true_r.
Qed.

(** X11: [direct_unsubscribe] with the same fields does not undo it: it looks
    under the alias as given, and the global subscription stays. *)
Theorem direct_unsubscribe_keeps_global (m : Registry.robot_alias_manager)
    (c : client_addr) (data_type alias : string) (target_ip : option string)
    (subs : subscriptions) :
  data_type <> "" -> alias <> "" -> alias <> GLOBAL_SUBSCRIPTION_KEY ->
  dict_has alias (Registry.alias_to_ip_port m) = false ->
  let subs1 :=
    fst (direct_subscribe m c (Some data_type) target_ip (Some alias) subs) in
  let subs2 :=
    fst (direct_unsubscribe m c (Some data_type) target_ip (Some alias) subs1) in
  data_type ∈ types_of c GLOBAL_SUBSCRIPTION_KEY subs2.
Proof.
  intros Ht Ha Hg Hunknown subs1 subs2.
  pose proof (direct_subscribe_global_types m c data_type alias target_ip subs
                Ht Ha Hunknown) as Hin.
  fold subs1 in Hin. subst subs2.
  unfold direct_unsubscribe, direct_unsubscribe_key.
  rewrite (nonempty_value data_type Ht), (nonempty_value alias Ha). cbn [fst].
  destruct (subs1 !! c) as [client_subs|] eqn:Hc; [|done].
  destruct (client_subs !! alias) as [types|]; [|done].
  by rewrite (types_of_remove_subscription c _ alias data_type client_subs types subs1).
Qed.

(** A second [subscribe] with the same fields changes nothing. *)
Lemma subscribe_twice (m : Registry.robot_alias_manager) (c : client_addr)
    (data_type_to_sub target_alias : option string) (subs : subscriptions) :
  subscribe m c data_type_to_sub target_alias
    (fst (subscribe m c data_type_to_sub target_alias subs))
  = subscribe m c data_type_to_sub target_alias subs.
Proof.
  unfold subscribe.
  destruct (nonempty data_type_to_sub) as [data_type|]; [|done].
  destruct (nonempty target_alias) as [alias|]; [|done].
  destruct (negb _); [done|]. cbn [fst]. by rewrite add_subscription_twice.
Qed.

(** X12: the four subscription commands of a client touch the subscriptions
    of no other client. *)
Theorem subscription_commands_are_local (m : Registry.robot_alias_manager)
    (c c' : client_addr) (data_type target_ip target_alias : option string)
    (subs : subscriptions) :
  c' <> c ->
  fst (subscribe m c data_type target_alias subs) !! c' = subs !! c'
  /\ fst (unsubscribe c data_type target_alias subs) !! c' = subs !! c'
  /\ fst (direct_subscribe m c data_type target_ip target_alias subs) !! c'
     = subs !! c'
  /\ fst (direct_unsubscribe m c data_type target_ip target_alias subs) !! c'
     = subs !! c'.
Proof.
  intros Hne.
  unfold subscribe, unsubscribe, direct_subscribe, direct_unsubscribe.
  destruct (nonempty data_type) as [ty|]; [|done].
  repeat split.
  - destruct (nonempty target_alias) as [alias|]; [|done].
    destruct (negb _); [done|]. cbn [fst]. unfold add_subscription.
    by rewrite lookup_insert_ne.
  - destruct (nonempty target_alias) as [alias|]; [|done].
    destruct (subs !! c) as [client_subs|]; [|done].
    destruct (client_subs !! alias) as [types|]; [|done].
    cbn [fst]. by apply remove_subscription_other.
  - cbn [fst]. unfold add_subscription. by rewrite lookup_insert_ne.
  - cbn [fst]. destruct (subs !! c) as [client_subs|]; [|done].
    destruct (client_subs !! _) as [types|]; [|done].
    by apply remove_subscription_other.
Qed.
End SubscriptionCommandFacts.

(** The fleet's client asks for [imu_data] of [robot9], which no robot
    is. *)
Lemma direct_subscribe_unknown_alias_is_global_witness :
  let subs' :=
    fst (DirectBridge.direct_subscribe Fleet.registry Fleet.ui_client
           (Some "imu_data") None (Some "robot9") ∅) in
  "imu_data" ∈ DirectBridge.types_of Fleet.ui_client
                 DirectBridge.GLOBAL_SUBSCRIPTION_KEY subs'
  /\ DirectBridge.matches Fleet.ui_client "robot1" "imu_data" subs' = true.
Proof.
  apply (direct_subscribe_unknown_alias_is_global Fleet.registry Fleet.ui_client
           "imu_data" "robot9" "robot1" None ∅);
    first [ discriminate | vm_compute; reflexivity ].
Defined.

Lemma direct_unsubscribe_keeps_global_witness :
  let subs1 :=
    fst (DirectBridge.direct_subscribe Fleet.registry Fleet.ui_client
           (Some "imu_data") None (Some "robot9") ∅) in
  let subs2 :=
    fst (DirectBridge.direct_unsubscribe Fleet.registry Fleet.ui_client
           (Some "imu_data") None (Some "robot9") subs1) in
  "imu_data" ∈ DirectBridge.types_of Fleet.ui_client
                 DirectBridge.GLOBAL_SUBSCRIPTION_KEY subs2.
Proof.
  apply (direct_unsubscribe_keeps_global Fleet.registry Fleet.ui_client
           "imu_data" "robot9" None ∅);
    first [ discriminate | vm_compute; reflexivity ].
Defined.

(** A second client, subscribed to [robot2]; the fleet's client issues the
    four commands. *)
Lemma subscription_commands_are_local_witness :
  let other : DirectBridge.client_addr := ("127.0.0.1", 4200) in
  let subs := DirectBridge.add_subscription other "robot2" "encoder_data" ∅ in
  fst (DirectBridge.subscribe Fleet.registry Fleet.ui_client
         (Some "imu_data") (Some "robot1") subs) !! other = subs !! other
  /\ fst (DirectBridge.unsubscribe Fleet.ui_client
            (Some "imu_data") (Some "robot1") subs) !! other = subs !! other
  /\ fst (DirectBridge.direct_subscribe Fleet.registry Fleet.ui_client
            (Some "imu_data") None (Some "robot1") subs) !! other = subs !! other
  /\ fst (DirectBridge.direct_unsubscribe Fleet.registry Fleet.ui_client
            (Some "imu_data") None (Some "robot1") subs) !! other = subs !! other.
Proof.
  apply (subscription_commands_are_local Fleet.registry Fleet.ui_client
           ("127.0.0.1", 4200) (Some "imu_data") None (Some "robot1")).
  discriminate.
Defined.

(** ** Router: who is sent to, and who is dropped *)

Section RouterCleanupFacts.
Import DirectBridge.
Variable json_dumps : json -> string.
Variable send_ok : client_addr -> bool.

(** The sends of the whole loop to one client: those of its own turn, if
    its websocket is active. *)
Lemma sends_to_attempts (robot_alias_source : string) (data_type_to_send : json)
    (message_json : string) (ui_websockets : gset client_addr)
    (subs : subscriptions) (c : client_addr) :
  sends_to c
    (flat_map
       (fun entry : client_addr * gmap string (gset string) =>
          let (c0, client_specific_subs) := entry in
          if bool_decide (c0 ∈ ui_websockets) then
            broadcast_to_client robot_alias_source data_type_to_send
              message_json (send_ok c0) c0 client_specific_subs
          else [])
       (map_to_list subs))
  = if bool_decide (c ∈ ui_websockets) then
      broadcast_to_client robot_alias_source data_type_to_send message_json
        (send_ok c) c (client_subscriptions c subs)
    else [].
Proof.
  set (f := fun entry : client_addr * gmap string (gset string) =>
              let (c0, client_specific_subs) := entry in
              if bool_decide (c0 ∈ ui_websockets) then
                broadcast_to_client robot_alias_source data_type_to_send
                  message_json (send_ok c0) c0 client_specific_subs
              else []).
  assert (Hf : forall c' cs,
    sends_to c (f (c', cs)) = if decide (c' = c) then f (c', cs) else []).
  { intros c' cs. unfold f. destruct (bool_decide (c' ∈ ui_websockets)).
    - apply sends_to_broadcast_to_client.
    - by destruct (decide (c' = c)). }
  destruct (sends_to_loop f (map_to_list subs) c Hf (NoDup_fst_map_to_list subs))
    as [Hin Hout].
  unfold client_subscriptions. destruct (subs !! c) as [cs|] eqn:Hl.
  - rewrite (Hin cs) by (by apply elem_of_map_to_list). reflexivity.
  - rewrite Hout.
    + by destruct (bool_decide (c ∈ ui_websockets)), data_type_to_send.
    + intros Hel. apply list_elem_of_fmap in Hel as ([c' cs] & -> & Hel).
      apply elem_of_map_to_list in Hel. simpl in Hl. congruence.
Qed.

(** A failed send is among the sends to a client exactly when the client
    is active, matches, and its socket raises. *)
Lemma failed_send_to (robot_alias data_type : string) (message_json : string)
    (ui_websockets : gset client_addr) (subs : subscriptions) (c : client_addr) :
  (exists a : send_attempt,
     a ∈ (if bool_decide (c ∈ ui_websockets) then
            broadcast_to_client robot_alias (JStr data_type) message_json
              (send_ok c) c (client_subscriptions c subs)
          else [])
     /\ snd a = false)
  <-> bool_decide (c ∈ ui_websockets) && matches c robot_alias data_type subs
      && negb (send_ok c) = true.
Proof.
  unfold matches, types_of, broadcast_to_client. rewrite !subscribed_types.
  destruct (bool_decide (c ∈ ui_websockets)),
           (bool_decide (data_type ∈ default ∅ (client_subscriptions c subs !! robot_alias))),
           (bool_decide (data_type ∈ default ∅
              (client_subscriptions c subs !! GLOBAL_SUBSCRIPTION_KEY))),
           (send_ok c); simpl; split; try done;
    try (intros [a [Hin Hsnd]];
         repeat (apply elem_of_cons in Hin as [->|Hin]; [done|]);
         by apply elem_of_nil in Hin);
    intros _; eexists; (split; [apply elem_of_cons; by left|done]).
Qed.

(** X13: after a broadcast, the clients dropped from [ui_websockets] and from
    the subscriptions are exactly the active clients that matched the frame
    and whose send raised; every other client keeps its place and its
    subscriptions. *)
Theorem broadcast_drops_failed_clients (robot_alias data_type : string)
    (payload : pyobj) (ui_websockets : gset client_addr) (subs : subscriptions)
    (c : client_addr) :
  dict_get "type" payload = Some (JStr data_type) ->
  py_get "robot_alias" payload = JStr robot_alias ->
  let failed :=
    bool_decide (c ∈ ui_websockets) && matches c robot_alias data_type subs
    && negb (send_ok c) in
  exists ui' subs' attempts,
    broadcast_to_subscribers json_dumps send_ok robot_alias payload
      ui_websockets subs = Ok (ui', subs', attempts)
    /\ (c ∈ ui' <-> c ∈ ui_websockets /\ failed = false)
    /\ subs' !! c = if failed then None else subs !! c.
Proof.
  intros Htype Halias failed. unfold broadcast_to_subscribers.
  assert (Hty : py_get "type" payload = JStr data_type)
    by (unfold py_get; by rewrite Htype).
  unfold dict_has. rewrite Htype, Hty, Halias. cbn [negb orb py_eq_str].
  rewrite String.eqb_refl. cbn [negb unhashable andb].
  eexists _, _, _. split; [reflexivity|].
  match goal with
  | |- context [list_to_set ?l] => set (failed_list := l)
  end.
  assert (Hfailed : c ∈ (list_to_set failed_list : gset client_addr)
                    <-> failed = true).
  { rewrite elem_of_list_to_set. subst failed_list failed.
    rewrite <- failed_send_to, <- sends_to_attempts.
    rewrite list_elem_of_fmap. unfold sends_to.
    split.
    - intros (a & -> & Ha). apply list_elem_of_filter in Ha as [Hsnd Ha].
      exists a. split; [|done]. apply list_elem_of_filter. by split.
    - intros (a & Ha & Hsnd). apply list_elem_of_filter in Ha as [Hc Ha].
      exists a. split; [done|]. apply list_elem_of_filter. by split. }
  split.
  - rewrite elem_of_difference, Hfailed. destruct failed; split; intros [? ?];
      (split; [done|]); congruence.
  - destruct failed eqn:Hf.
    + apply map_lookup_filter_None_2. right. intros cs _ Hout.
      apply Hout. cbn [fst]. by apply Hfailed.
    + destruct (subs !! c) as [cs|] eqn:Hl.
      * apply map_lookup_filter_Some_2; [done|]. cbn [fst].
        rewrite Hfailed. congruence.
      * apply map_lookup_filter_None_2. by left.
Qed.

(** X14: once [handle_ws_client] has cleaned up after a client, no broadcast
    sends anything to it, whatever it was subscribed to, and it has no
    subscriptions left. *)
Theorem ws_disconnect_stops_delivery (robot_alias_source : string)
    (payload : pyobj) (ui_websockets ui' : gset client_addr)
    (subs subs' : subscriptions) (c : client_addr)
    (attempts : list send_attempt) :
  let st := ws_disconnect c (ui_websockets, subs) in
  broadcast_to_subscribers json_dumps send_ok robot_alias_source payload
    (fst st) (snd st) = Ok (ui', subs', attempts) ->
  sends_to c attempts = [] /\ subs' !! c = None /\ c ∉ ui'.
Proof.
  cbn zeta. cbn [ws_disconnect fst snd]. unfold broadcast_to_subscribers.
  assert (Hout : c ∉ ui_websockets ∖ {[c]}).
  { rewrite elem_of_difference, elem_of_singleton. tauto. }
  destruct (_ || _).
  { intros [= <- <- <-]. split; [done|]. split; [apply lookup_delete_eq|done]. }
  destruct (_ && _); [done|]. intros [= <- <- <-].
  split.
  - rewrite sends_to_attempts. by rewrite bool_decide_eq_false_2.
  - split.
    + apply map_lookup_filter_None_2. left. apply lookup_delete_eq.
    + rewrite elem_of_difference. tauto.
Qed.
End RouterCleanupFacts.

(** The fleet's client holds [imu_data] of [robot1] and its socket has
    closed; a second client holds the same and its socket is open.  The
    fleet's client is dropped. *)
Lemma broadcast_drops_failed_clients_witness :
  let other : DirectBridge.client_addr := ("127.0.0.1", 4200) in
  let subs :=
    DirectBridge.add_subscription other "robot1" "imu_data"
      (DirectBridge.add_subscription Fleet.ui_client "robot1" "imu_data" ∅) in
  let send_ok := fun c : DirectBridge.client_addr => bool_decide (c = other) in
  exists ui' subs' attempts,
    DirectBridge.broadcast_to_subscribers Fleet.no_text send_ok "robot1"
      [ ("type", JStr "imu_data"); ("robot_alias", JStr "robot1") ]
      {[ Fleet.ui_client; other ]} subs
    = Ok (ui', subs', attempts)
    /\ (Fleet.ui_client ∈ ui'
        <-> Fleet.ui_client ∈ ({[ Fleet.ui_client; other ]} : gset _) /\ true = false)
    /\ subs' !! Fleet.ui_client = None.
Proof.
  exact (broadcast_drops_failed_clients Fleet.no_text
           (fun c : DirectBridge.client_addr => bool_decide (c = ("127.0.0.1", 4200)))
           "robot1" "imu_data"
           [ ("type", JStr "imu_data"); ("robot_alias", JStr "robot1") ]
           {[ Fleet.ui_client; ("127.0.0.1", 4200) ]}
           (DirectBridge.add_subscription ("127.0.0.1", 4200) "robot1" "imu_data"
              (DirectBridge.add_subscription Fleet.ui_client "robot1" "imu_data" ∅))
           Fleet.ui_client eq_refl eq_refl).
Defined.

(** The fleet's client, subscribed to [imu_data] of [robot1], disconnects;
    then an IMU frame of [robot1] is broadcast. *)
Lemma ws_disconnect_stops_delivery_witness :
  exists ui' subs' attempts,
    let st :=
      DirectBridge.ws_disconnect Fleet.ui_client
        ({[ Fleet.ui_client ]},
         DirectBridge.add_subscription Fleet.ui_client "robot1" "imu_data" ∅) in
    DirectBridge.broadcast_to_subscribers Fleet.no_text (fun _ => true) "robot1"
      [ ("type", JStr "imu_data"); ("robot_alias", JStr "robot1") ]
      (fst st) (snd st) = Ok (ui', subs', attempts)
    /\ DirectBridge.sends_to Fleet.ui_client attempts = []
    /\ subs' !! Fleet.ui_client = None
    /\ (Fleet.ui_client ∉ ui').
Proof.
  eexists _, _, _. cbn zeta. split; [vm_compute; reflexivity|].
  eapply (ws_disconnect_stops_delivery Fleet.no_text (fun _ => true) "robot1"
            [ ("type", JStr "imu_data"); ("robot_alias", JStr "robot1") ]
            {[ Fleet.ui_client ]} _
            (DirectBridge.add_subscription Fleet.ui_client "robot1" "imu_data" ∅)).
  vm_compute. reflexivity.
Defined.

(** ** Firmware: from the chunks to the robot *)

Section FirmwareFacts.
Import DirectBridge.
Variable str_exn : exn -> string.
Variable os_path_join : string -> string -> string.
Variable b64decode : string -> result (list Byte.byte).
Variable open_ok : string -> bool.

(** The staging buffer after a run of chunks that all decode: the entry
    has counted them and the file has grown by them. *)
Lemma firmware_data_chunks_state (robot_ip : option string)
    (chunks : list string) (raws : list (list Byte.byte))
    (_uploads : FirmwareUploadManager.uploads) (fs : filesystem)
    (o : OTAConnection.ota) (inf : FirmwareUploadManager.upload)
    (data : list Byte.byte) :
  Forall2 (fun chunk raw => b64decode chunk = Ok raw) chunks raws ->
  _uploads !! robot_ip = Some inf ->
  contents fs !! FirmwareUploadManager.path inf = Some data ->
  exists _uploads' fs',
    firmware_data_chunks str_exn b64decode robot_ip chunks (_uploads, fs, o)
    = (_uploads', fs', o)
    /\ _uploads' !! robot_ip
       = Some (FirmwareUploadManager.mk_upload (FirmwareUploadManager.file inf)
                 (FirmwareUploadManager.path inf) (FirmwareUploadManager.filesize inf)
                 (FirmwareUploadManager.received inf + length (concat raws)))
    /\ contents fs' !! FirmwareUploadManager.path inf = Some (data ++ concat raws)
    /\ open_files fs' = open_files fs.
Proof.
  intros Hdec. revert _uploads fs inf data.
  induction Hdec as [|chunk raw chunks raws Hraw Hdec IH];
    intros _uploads fs inf data Hup Hdata.
  - exists _uploads, fs. split; [reflexivity|]. cbn [concat length].
    rewrite Nat.add_0_r, app_nil_r. by destruct inf.
  - unfold firmware_data_chunks. cbn [fold_left].
    unfold firmware_data_chunk at 2. unfold FirmwareUploadManager.add_chunk.
    rewrite Hup, Hraw. cbn [fst].
    fold (firmware_data_chunks str_exn b64decode robot_ip chunks).
    set (inf' := FirmwareUploadManager.mk_upload (FirmwareUploadManager.file inf)
                   (FirmwareUploadManager.path inf)
                   (FirmwareUploadManager.filesize inf)
                   (FirmwareUploadManager.received inf + length raw)).
    destruct (IH (<[robot_ip := inf']> _uploads)
                (fs_write (FirmwareUploadManager.path inf) raw fs) inf'
                (data ++ raw))
      as (_uploads' & fs' & Heq & Hup' & Hdata' & Hopen).
    { apply lookup_insert_eq. }
    { cbn [FirmwareUploadManager.path fs_write contents].
      rewrite lookup_insert_eq, Hdata. reflexivity. }
    exists _uploads', fs'. split; [exact Heq|].
    cbn [FirmwareUploadManager.file FirmwareUploadManager.path
         FirmwareUploadManager.filesize FirmwareUploadManager.received] in *.
    cbn [concat]. rewrite length_app, Nat.add_assoc, app_assoc.
    by repeat split.
Qed.

(** When the staged file cannot be opened, [upload_firmware_start] answers
    with the server error and opens no upload: the buffer, the files and
    the arm stay as they were. *)
Lemma upload_firmware_start_open_fails (temp_dir : string) (now : Z)
    (robot_ip filename : option string) (filesize : json)
    (st : firmware_state) :
  open_ok
    (os_path_join temp_dir
       (fmt robot_ip +:+ "_" +:+ pretty now +:+ "_" +:+ fmt filename)) = false ->
  upload_firmware_start str_exn os_path_join open_ok temp_dir now robot_ip
    filename filesize st
  = (st, [ WsSend [ ("type", JStr "error");
                    ("message", JStr ("Server error: " +:+ str_exn OSError)) ] ]).
Proof.
  intros Hopen. destruct st as [[_uploads fs] o].
  unfold upload_firmware_start, FirmwareUploadManager.start, fs_open_wb.
  by rewrite Hopen.
Qed.

(** After [upload_firmware_start] on a path that can be opened and a run
    of [firmware_data_chunk] messages whose chunks all decode, the staged
    file holds the decoded chunks in order and nothing else, and the count
    of received bytes is its length. *)
Lemma staged_file_is_concatenation (temp_dir : string) (now : Z)
    (robot_ip filename : option string) (filesize : json)
    (chunks : list string) (raws : list (list Byte.byte))
    (st : firmware_state) :
  Forall2 (fun chunk raw => b64decode chunk = Ok raw) chunks raws ->
  let path :=
    os_path_join temp_dir
      (fmt robot_ip +:+ "_" +:+ pretty now +:+ "_" +:+ fmt filename) in
  open_ok path = true ->
  let '(_uploads, fs, _) :=
    firmware_data_chunks str_exn b64decode robot_ip chunks
      (fst (upload_firmware_start str_exn os_path_join open_ok temp_dir now
              robot_ip filename filesize st)) in
  contents fs !! path = Some (concat raws)
  /\ FirmwareUploadManager.get_received_bytes robot_ip _uploads
     = length (concat raws).
Proof.
  intros Hdec path Hopen. destruct st as [[_uploads fs] o].
  unfold upload_firmware_start, FirmwareUploadManager.start, fs_open_wb.
  fold path. rewrite Hopen. cbn [fst].
  destruct (firmware_data_chunks_state robot_ip chunks raws
               (<[robot_ip := FirmwareUploadManager.mk_upload (next_file fs) path
                                filesize 0]> _uploads)
               (mk_filesystem (<[path := []]> (contents fs))
                  (open_files fs ∪ {[next_file fs]}) (S (next_file fs)))
               o (FirmwareUploadManager.mk_upload (next_file fs) path filesize 0)
               [] Hdec)
    as (_uploads' & fs' & Heq & Hup & Hdata & _).
  { apply lookup_insert_eq. }
  { cbn [FirmwareUploadManager.path contents]. apply lookup_insert_eq. }
  fold path. rewrite Heq. cbn [FirmwareUploadManager.path] in Hdata.
  split; [exact Hdata|]. unfold FirmwareUploadManager.get_received_bytes.
  by rewrite Hup.
Qed.


(** X16: a second [upload_firmware_end] for the same robot finds no upload: it
    answers [error] and leaves the buffer, the files and the OTA arm as the
    first one left them. *)
Theorem upload_firmware_end_twice (robot_ip : option string)
    (st : firmware_state) :
  upload_firmware_end str_exn robot_ip
    (fst (upload_firmware_end str_exn robot_ip st))
  = (fst (upload_firmware_end str_exn robot_ip st),
     [ WsSend [ ("type", JStr "error"); ("stage", JStr "upload_finish");
                ("robot_ip", json_of_field robot_ip);
                ("message", JStr "Firmware file incomplete") ] ]).
Proof.
  destruct st as [[_uploads fs] o].
  unfold upload_firmware_end at 2 3. unfold FirmwareUploadManager.finish.
  destruct (_uploads !! robot_ip) as [inf|] eqn:Hup.
  - destruct (negb _); cbn [nonempty].
    + cbn [fst]. unfold upload_firmware_end, FirmwareUploadManager.finish.
      by rewrite lookup_delete_eq.
    + destruct (String.eqb (FirmwareUploadManager.path inf) "").
      * cbn [fst]. unfold upload_firmware_end, FirmwareUploadManager.finish.
        by rewrite lookup_delete_eq.
      * destruct (OTAConnection.prepare_firmware_for_send _ _ _ _) as [o' ok].
        cbn [fst]. unfold upload_firmware_end, FirmwareUploadManager.finish.
        by rewrite lookup_delete_eq.
  - cbn [nonempty fst]. unfold upload_firmware_end, FirmwareUploadManager.finish.
    by rewrite Hup.
Qed.
End FirmwareFacts.

(** ** OTA server: other peers, and a transfer that breaks *)

Section OtaTransferFacts.
Import OTAConnection.

(** A peer that is not the target receives nothing and leaves the arm and
    the files as they are. *)
Lemma handle_ota_other_peer (robot_actual_ip target : string)
    (path : option string) (io : transfer_io) (fs : filesystem) :
  robot_actual_ip <> target ->
  handle_ota_robot_connection robot_actual_ip io (mk_ota path (Some target), fs)
  = (mk_ota path (Some target), fs, []).
Proof.
  intros Hne. unfold handle_ota_robot_connection.
  cbn [firmware_to_send_path ota_server_robot_ip_target].
  rewrite bool_decide_eq_false_2 by congruence.
  by rewrite andb_false_r.
Qed.

(** X17: the arm outlives every connection from another address: whatever
    peers connect first, the target still receives the whole file. *)
Theorem ota_arm_waits_for_target (others : list (string * transfer_io))
    (target current_path : string) (io : transfer_io) (fs : filesystem)
    (data : list Byte.byte) :
  Forall (fun accept => fst accept <> target) others ->
  current_path <> "" ->
  contents fs !! current_path = Some data ->
  drain_fails_at io = None -> remove_ok io = true ->
  serve (others ++ [ (target, io) ])
    (mk_ota (Some current_path) (Some target), fs)
  = (disarmed, fs_remove current_path fs, map (fun _ => []) others ++ [ data ]).
Proof.
  intros Hothers Hne Hdata Hio Hrm.
  induction Hothers as [|[peer io'] others Hpeer Hothers IH].
  - cbn [app serve map].
    rewrite (ota_transfer_complete target current_path io fs data) by done.
    reflexivity.
  - cbn [app serve map]. rewrite handle_ota_other_peer by done.
    rewrite IH. reflexivity.
Qed.

(** The chunk loop when the [drain] after chunk [k] raises: the chunks up
    to and with chunk [k] have been written. *)
Lemma send_chunks_fails (io : transfer_io) (k fuel index : nat)
    (rest sent : list Byte.byte) :
  drain_fails_at io = Some k -> index <= k -> length rest < fuel ->
  (k - index) * chunk_size < length rest ->
  send_chunks fuel io index rest sent
  = (sent ++ firstn (S (k - index) * chunk_size) rest, false).
Proof.
  intros Hio. revert index rest sent.
  induction fuel as [|fuel IH]; intros index rest sent Hle Hlen Hk; [lia|].
  cbn [send_chunks].
  destruct rest as [|b rest]; [by apply Nat.nlt_0_r in Hk|].
  change (firstn chunk_size (b :: rest))
    with (b :: firstn (pred chunk_size) rest).
  cbn zeta. rewrite Hio.
  destruct (decide (index = k)) as [->|Hne].
  - rewrite bool_decide_eq_true_2 by done.
    rewrite Nat.sub_diag, Nat.mul_1_l. reflexivity.
  - rewrite bool_decide_eq_false_2 by congruence.
    change (b :: firstn (pred chunk_size) rest)
      with (firstn chunk_size (b :: rest)).
    assert (Hlen' : length (skipn chunk_size (b :: rest))
                    = length (b :: rest) - chunk_size) by apply length_skipn.
    assert (Hsplit : (k - index) * chunk_size
                     = chunk_size + (k - S index) * chunk_size).
    { replace (k - index) with (S (k - S index)) by lia.
      rewrite Nat.mul_succ_l. apply Nat.add_comm. }
    assert (Hsplit' : S (k - index) * chunk_size
                      = chunk_size + S (k - S index) * chunk_size).
    { replace (k - index) with (S (k - S index)) by lia.
      rewrite (Nat.mul_succ_l (S (k - S index))). apply Nat.add_comm. }
    assert (Hpos : 0 < chunk_size) by apply Nat.lt_0_succ.
    rewrite IH.
    + rewrite <- app_assoc. f_equal. f_equal.
      rewrite take_take_drop. by rewrite Hsplit'.
    + lia.
    + rewrite Hlen'. revert Hk Hpos Hsplit Hlen.
      generalize chunk_size, ((k - index) * chunk_size),
        ((k - S index) * chunk_size). intros. lia.
    + rewrite Hlen'. revert Hk Hpos Hsplit Hlen.
      generalize chunk_size, ((k - index) * chunk_size),
        ((k - S index) * chunk_size). intros. lia.
Qed.

(** X18: when the [drain] that follows the write of chunk [k] to the target
    raises, the chunks up to and with chunk [k] have been handed to the
    writer, the first [(k + 1) * 1024] bytes of the file, and nothing
    after them; the arm is consumed all the same, and the staged file is
    not deleted. *)
Theorem ota_broken_transfer_sends_prefix (target current_path : string)
    (io : transfer_io) (fs : filesystem) (data : list Byte.byte) (k : nat) :
  current_path <> "" ->
  contents fs !! current_path = Some data ->
  drain_fails_at io = Some k ->
  k * chunk_size < length data ->
  handle_ota_robot_connection target io
    (mk_ota (Some current_path) (Some target), fs)
  = (disarmed, fs, firstn (S k * chunk_size) data).
Proof.
  intros Hne Hdata Hio Hk. unfold handle_ota_robot_connection.
  cbn [firmware_to_send_path ota_server_robot_ip_target str_truthy].
  apply String.eqb_neq in Hne. rewrite Hne. cbn [negb andb].
  rewrite !bool_decide_eq_true_2 by done. rewrite Hdata.
  rewrite (send_chunks_fails io k);
    [by rewrite Nat.sub_0_r | done | lia | lia | by rewrite Nat.sub_0_r].
Qed.
End OtaTransferFacts.



(** A firmware armed for [10.0.0.5]; the robots at [10.0.0.6] and
    [10.0.0.7] connect to the OTA server first. *)
Lemma ota_arm_waits_for_target_witness :
  let io := OTAConnection.mk_io None true in
  let fs := mk_filesystem {[ "fw.bin" := [ Byte.x01; Byte.x02; Byte.x03 ] ]} ∅ 0 in
  OTAConnection.serve
    ([ ("10.0.0.6", io); ("10.0.0.7", io) ] ++ [ ("10.0.0.5", io) ])
    (OTAConnection.mk_ota (Some "fw.bin") (Some "10.0.0.5"), fs)
  = (OTAConnection.disarmed, fs_remove "fw.bin" fs,
     map (fun _ => []) [ ("10.0.0.6", io); ("10.0.0.7", io) ]
     ++ [ [ Byte.x01; Byte.x02; Byte.x03 ] ]).
Proof.
  apply (ota_arm_waits_for_target
           [ ("10.0.0.6", OTAConnection.mk_io None true);
             ("10.0.0.7", OTAConnection.mk_io None true) ]
           "10.0.0.5" "fw.bin" (OTAConnection.mk_io None true)
           (mk_filesystem {[ "fw.bin" := [ Byte.x01; Byte.x02; Byte.x03 ] ]} ∅ 0)
           [ Byte.x01; Byte.x02; Byte.x03 ]);
    first [ discriminate | reflexivity
          | repeat (apply Forall_cons; split; [discriminate|]); apply Forall_nil_2 ].
Defined.

(** A firmware of 3000 bytes, three chunks; the [drain] after the second
    chunk raises. *)
Lemma ota_broken_transfer_sends_prefix_witness :
  let data := repeat Byte.x00 3000 in
  let fs := mk_filesystem {[ "fw.bin" := data ]} ∅ 0 in
  OTAConnection.handle_ota_robot_connection "10.0.0.5"
    (OTAConnection.mk_io (Some 1) true)
    (OTAConnection.mk_ota (Some "fw.bin") (Some "10.0.0.5"), fs)
  = (OTAConnection.disarmed, fs,
     firstn (2 * OTAConnection.chunk_size) data).
Proof.
  apply (ota_broken_transfer_sends_prefix "10.0.0.5" "fw.bin"
           (OTAConnection.mk_io (Some 1) true)
           (mk_filesystem {[ "fw.bin" := repeat Byte.x00 3000 ]} ∅ 0)
           (repeat Byte.x00 3000) 1);
    first [ discriminate | reflexivity | vm_compute; lia ].
Defined.

(** ** Pose estimator: what moves the position *)

Section PositionFacts.
Import TrajectoryCalculator.
Variables libm_cos libm_sin : float -> float.

Lemma last_append_capped (p : pose) (history : list pose) :
  last (append_capped p history) = Some p.
Proof.
  unfold append_capped.
  destruct (Nat.ltb_spec MAX_TRAJECTORY_POINTS_DEFAULT (length (history ++ [p])))
    as [Hlt|_]; [|apply last_snoc].
  rewrite skipn_app. rewrite length_app in *. cbn [length] in *.
  replace (length history + 1 - MAX_TRAJECTORY_POINTS_DEFAULT - length history)
    with 0 by (unfold MAX_TRAJECTORY_POINTS_DEFAULT; lia).
  cbn [skipn]. apply last_snoc.
Qed.

(** [_try_calculate_trajectory] keeps the position on the path. *)
Lemma try_calculate_position_on_path (current_time : float) (st : robot_state) :
  position_on_path st ->
  position_on_path (fst (_try_calculate_trajectory libm_cos libm_sin current_time st)).
Proof.
  unfold position_on_path, _try_calculate_trajectory. intros Hinv.
  repeat case_match; simplify_eq;
    cbn [fst path_history x y set_path_history set_theta set_xy
         set_last_timestamp_encoder current_pose] in *;
    rewrite ?last_append_capped in *; simplify_eq;
    cbn [pose_x pose_y last] in *; try done;
    repeat match goal with
           | H : path_history _ = _ |- _ => rewrite H in *
           end;
    simplify_eq/=; done.
Qed.



End PositionFacts.

Section PositionTheorems.
Import TrajectoryCalculator.
Variables libm_cos libm_sin : float -> float.

Lemma run_call_position_on_path (c : call) (key : string)
    (robot_data : gmap string robot_state) :
  position_on_path (get_state key robot_data) ->
  position_on_path (get_state key (fst (run_call libm_cos libm_sin c robot_data))).
Proof.
  intros Hinv. destruct c as [k d t1 t2|k d t1 t2]; cbn [run_call].
  - rewrite update_imu_data_state.
    destruct (decide (k = key)); [|done].
    destruct (imu_yaw d JNull) as [yaw|err]; [|done].
    cbn zeta. apply try_calculate_position_on_path. by destruct yaw.
  - rewrite update_encoder_data_state.
    destruct (decide (k = key)); [|done].
    by apply try_calculate_position_on_path.
Qed.

(** X19: after any sequence of calculator calls, on any keys, the last point of
    a robot's path carries its current [(x, y)], and a robot whose path is
    empty is at the origin: the position never moves without a path point
    being appended for it. *)
Theorem position_stays_on_path (calls : list call) (key : string) :
  position_on_path (get_state key (run_calls libm_cos libm_sin calls)).
Proof.
  induction calls as [|c calls IH] using rev_ind.
  - unfold run_calls, get_state. cbn [fold_left]. rewrite lookup_empty. by split.
  - rewrite run_calls_snoc. by apply run_call_position_on_path.
Qed.


(** X21: [_try_calculate_trajectory] moves [(x, y)] in one way only: by the
    kinematic step, and that step is taken only when both kinds of data are
    present and fresh, the encoder frame has exactly three values, an
    earlier frame has seeded [last_timestamp_encoder], and the time delta
    is positive.  In every other case the position stays. *)
Theorem position_moves_only_by_integration (current_time : float)
    (st : robot_state) :
  let st' := fst (_try_calculate_trajectory libm_cos libm_sin current_time st) in
  (x st' = x st /\ y st' = y st)
  \/ exists (imu_data encoder_data : pyobj) (r1 r2 r3 : json) (dt : num),
       latest_imu_data st = Some imu_data
       /\ latest_encoder_data st = Some encoder_data
       /\ too_old (data_age current_time (last_imu_timestamp st)) = false
       /\ too_old (data_age current_time (last_encoder_timestamp st)) = false
       /\ py_get_default "data" encoder_data
            (py_get_default "encoders" encoder_data (JArr [])) = JArr [ r1; r2; r3 ]
       /\ last_timestamp_encoder st <> JNull
       /\ py_sub (py_get_default "timestamp" encoder_data (JFloat current_time))
            (last_timestamp_encoder st) = Ok dt
       /\ num_le0 dt = false
       /\ integrate libm_cos libm_sin
            (set_last_timestamp_encoder
               (py_get_default "timestamp" encoder_data (JFloat current_time)) st)
            r1 r2 r3 dt
          = Ok (x st', y st').
Proof.
  cbn zeta. unfold _try_calculate_trajectory.
  repeat case_match; cbn [fst x y set_path_history set_theta set_xy
                          set_last_timestamp_encoder];
    try (by left);
    right;
    match goal with
    | H : _ || _ = false |- _ => apply orb_false_iff in H as [? ?]
    end;
    eexists _, _, _, _, _, _;
    repeat match goal with
           | |- _ /\ _ => split
           end; try eassumption; try done; congruence.
Qed.
End PositionTheorems.


(** ** Frame normalizer: where it is defined, and what it stamps *)

Section EnvelopeFacts.
Variable py_str : json -> string.

(** The three stamped fields of an envelope under construction. *)
Ltac stamped_lookup :=
  unfold set_reported_id;
  repeat match goal with
         | |- context [if truthy ?v then _ else _] => destruct (truthy v)
         end;
  simpl; repeat split; reflexivity.

Lemma transform_robot_message_stamps (now : float) (m e : pyobj) :
  transform_robot_message py_str now m = Ok e ->
  dict_get "robot_ip" e = Some (JStr "PENDING_IP")
  /\ dict_get "robot_alias" e = Some (JStr "PENDING_ALIAS")
  /\ dict_get "timestamp" e = Some (py_get_default "timestamp" m (JFloat now)).
Proof.
  unfold transform_robot_message.
  destruct (if py_eq_str (py_get "type" m) "bno055" then _ else _) as [c|].
  { intros [= <-]. stamped_lookup. }
  destruct (_ && _ && _).
  { intros [= <-]. stamped_lookup. }
  destruct (py_eq_str (py_get "type" m) "log").
  { intros [= <-]. stamped_lookup. }
  destruct (_ && _).
  { destruct (dict_has "robot_id" m).
    { intros [= <-]. stamped_lookup. }
    destruct (truthy (py_get "id" m)).
    - destruct (py_in_str _ _) as [found|]; simpl; [|done].
      destruct (negb found); intros [= <-]; stamped_lookup.
    - intros [= <-]. stamped_lookup. }
  destruct (truthy (py_get "type" m)); intros [= <-]; stamped_lookup.
Qed.

(** X22: [transform_robot_message] raises on exactly one kind of frame: a
    [registration] frame with [capabilities], without [robot_id], with a
    true [id], whose [data] field is [null], a boolean or a number.  On
    every other JSON object it returns an envelope. *)
Theorem transform_robot_message_raises_iff (now : float) (m : pyobj) :
  (exists e : exn, transform_robot_message py_str now m = Raise e)
  <-> py_get "type" m = JStr "registration"
      /\ dict_has "capabilities" m = true
      /\ dict_has "robot_id" m = false
      /\ truthy (py_get "id" m) = true
      /\ exists v : json,
           dict_get "data" m = Some v
           /\ match v with
              | JNull | JBool _ | JInt _ | JFloat _ => True
              | _ => False
              end.
Proof.
  split.
  - intros [e He]. apply transform_robot_message_raise in He
      as (_ & Hty & Hcap & Hrid & Hid & Hin).
    repeat (split; [done|]). unfold py_get_default in Hin.
    destruct (dict_get "data" m) as [v|]; [|done].
    exists v. split; [done|]. by destruct v.
  - intros (Hty & Hcap & Hrid & Hid & v & Hdata & Hv).
    exists TypeError. unfold transform_robot_message.
    rewrite Hty, Hcap, Hrid, Hid. cbn [py_eq_str String.eqb Ascii.eqb Bool.eqb andb].
    unfold py_get_default. rewrite Hdata. by destruct v.
Qed.

(** Whatever the robot writes into its frame, the envelope is of one of
    the six types, its [robot_ip] and [robot_alias] are the two
    placeholders, and its [timestamp] is the frame's when the frame has one
    and the clock's otherwise. *)
Lemma transform_robot_message_envelope (now : float) (m e : pyobj) :
  transform_robot_message py_str now m = Ok e ->
  envelope_ok py_str m e
  /\ dict_get "robot_ip" e = Some (JStr "PENDING_IP")
  /\ dict_get "robot_alias" e = Some (JStr "PENDING_ALIAS")
  /\ dict_get "timestamp" e
     = Some (match dict_get "timestamp" m with
             | Some ts => ts
             | None => JFloat now
             end).
Proof.
  intros He. split; [by eapply transform_robot_message_shape|].
  by apply transform_robot_message_stamps in He.
Qed.
End EnvelopeFacts.


(** ** PID config file: what a line does to the load *)

Section PidLoadFacts.
Variable py_int : string -> option Z.
Variable py_float : string -> option float.

Lemma load_line_data (d : PidConfig.pid_data) (w w' : list string) (line : string) :
  fst (PidConfig.load_line py_int py_float (d, w) line)
  = fst (PidConfig.load_line py_int py_float (d, w') line).
Proof.
  unfold PidConfig.load_line. destruct (_ || _); [done|].
  destruct (py_split "," (py_strip line)) as [|p0 [|p1 [|p2 [|p3 [|p4 l]]]]];
    try done.
  by destruct (PidConfig.parse_entry _ _ _ _ _ _) as [[motor_id entry]|].
Qed.

(** The dict that a run of lines builds does not depend on the warnings
    issued before. *)
Lemma load_lines_data (lines : list string) (d : PidConfig.pid_data)
    (w w' : list string) :
  fst (fold_left (PidConfig.load_line py_int py_float) lines (d, w))
  = fst (fold_left (PidConfig.load_line py_int py_float) lines (d, w')).
Proof.
  revert d w w'. induction lines as [|line lines IH]; intros d w w'; [done|].
  cbn [fold_left].
  pose proof (load_line_data d w w' line) as Hd.
  destruct (PidConfig.load_line py_int py_float (d, w) line) as [d1 w1].
  destruct (PidConfig.load_line py_int py_float (d, w') line) as [d2 w2].
  cbn [fst] in Hd. subst d2. apply IH.
Qed.

Lemma load_pid_config_data (lines : list string) :
  fst (PidConfig.load_pid_config_from_file py_int py_float (Some lines))
  = match fst (fold_left (PidConfig.load_line py_int py_float) lines ([], [])) with
    | [] => None
    | d => Some d
    end.
Proof.
  unfold PidConfig.load_pid_config_from_file.
  destruct (fold_left _ _ _) as [d w]. by destruct d.
Qed.

(** X23: a line that does not split into four fields -- a blank line, a
    comment, a malformed record -- is skipped and does not abort the load:
    the file loads as it would without that line. *)
Theorem load_skips_malformed_line (before after : list string) (bad : string) :
  length (py_split "," (py_strip bad)) <> 4 ->
  fst (PidConfig.load_pid_config_from_file py_int py_float
         (Some (before ++ bad :: after)))
  = fst (PidConfig.load_pid_config_from_file py_int py_float
           (Some (before ++ after))).
Proof.
  intros Hbad. rewrite !load_pid_config_data. rewrite !fold_left_app.
  cbn [fold_left].
  destruct (fold_left _ before _) as [d w].
  assert (Hskip : fst (PidConfig.load_line py_int py_float (d, w) bad) = d).
  { unfold PidConfig.load_line. destruct (_ || _); [done|].
    destruct (py_split "," (py_strip bad)) as [|p0 [|p1 [|p2 [|p3 [|p4 l]]]]];
      done. }
  destruct (PidConfig.load_line py_int py_float (d, w) bad) as [d' w'].
  cbn [fst] in Hskip. subst d'. by rewrite (load_lines_data after d w' w).
Qed.

(** X24: a well-formed record at the end of the file sets the gains of its
    motor, over any earlier record of the same motor, and leaves the other
    motors as the lines before it loaded them. *)
Theorem load_last_record_wins (lines : list string) (line : string)
    (part0 part1 part2 part3 : string) (motor_id : Z) (entry : PidConfig.pid) :
  py_strip line <> "" ->
  String.prefix "#" (py_strip line) = false ->
  py_split "," (py_strip line) = [ part0; part1; part2; part3 ] ->
  PidConfig.parse_entry py_int py_float part0 part1 part2 part3
  = Some (motor_id, entry) ->
  let loaded :=
    PidConfig.pid_config_cache py_int py_float (Some (lines ++ [ line ])) in
  loaded = dict_set motor_id entry
             (PidConfig.pid_config_cache py_int py_float (Some lines))
  /\ dict_get motor_id loaded = Some entry.
Proof.
  intros Hne Hhash Hsplit Hparse loaded.
  assert (Hloaded : loaded
    = dict_set motor_id entry
        (PidConfig.pid_config_cache py_int py_float (Some lines))).
  { subst loaded. unfold PidConfig.pid_config_cache.
    rewrite !load_pid_config_data, fold_left_app. cbn [fold_left].
    destruct (fold_left _ lines _) as [d w]. cbn [fst].
    unfold PidConfig.load_line. apply String.eqb_neq in Hne.
    rewrite Hne, Hhash, Hsplit, Hparse. cbn [orb fst].
    assert (Hd : match d with [] => [] | _ => d end = d) by (by destruct d).
    destruct d as [|[k v] d]; [done|].
    cbn [dict_set]. by destruct (decide (motor_id = k)). }
  split; [exact Hloaded|]. rewrite Hloaded, dict_get_set. by rewrite decide_True.
Qed.
End PidLoadFacts.

(** A file with a record for motor 1, a line that is not a record, and a
    record for motor 2. *)
Lemma load_skips_malformed_line_witness :
  fst (PidConfig.load_pid_config_from_file PidExample.py_int PidExample.py_float
         (Some ([ "1,0.5,0.25,0.125" +:+ newline ]
                ++ ("Motor1:0.5,0.25,0.125" +:+ newline)
                   :: [ "2,0.5,0.5,0.5" +:+ newline ])))
  = fst (PidConfig.load_pid_config_from_file PidExample.py_int PidExample.py_float
           (Some ([ "1,0.5,0.25,0.125" +:+ newline ]
                  ++ [ "2,0.5,0.5,0.5" +:+ newline ]))).
Proof.
  apply (load_skips_malformed_line PidExample.py_int PidExample.py_float).
  vm_compute. discriminate.
Defined.

(** Two records for motor 1, in the two forms the loader accepts. *)
Lemma load_last_record_wins_witness :
  let loaded :=
    PidConfig.pid_config_cache PidExample.py_int PidExample.py_float
      (Some ([ "1,0.5,0.5,0.5" +:+ newline ]
             ++ [ "Motor1,0.5,0.25,0.125" +:+ newline ])) in
  loaded = dict_set 1%Z (PidConfig.mk_pid 0.5 0.25 0.125)
             (PidConfig.pid_config_cache PidExample.py_int PidExample.py_float
                (Some [ "1,0.5,0.5,0.5" +:+ newline ]))
  /\ dict_get 1%Z loaded = Some (PidConfig.mk_pid 0.5 0.25 0.125).
Proof.
  apply (load_last_record_wins PidExample.py_int PidExample.py_float
           [ "1,0.5,0.5,0.5" +:+ newline ] ("Motor1,0.5,0.25,0.125" +:+ newline)
           "Motor1" "0.5" "0.25" "0.125" 1%Z (PidConfig.mk_pid 0.5 0.25 0.125));
    first [ discriminate | vm_compute; reflexivity ].
Defined.

(** ** [load_pid_config] *)

Section PidCommandFacts.
Variable py_int : string -> option Z.
Variable py_float : string -> option float.
Variable float_str : float -> string.
Variable str_exn : exn -> string.

(** X25: the [load_pid_config] command never writes a gain to a robot.  When
    the target is connected and the file holds a record, the method reads
    [conn_tuple.writer] on the registered [(reader, writer)] tuple, which
    has no such attribute: the command is answered by a ["Server error"]
    and nothing is written. *)
Theorem load_pid_config_never_writes (m : Registry.robot_alias_manager)
    (_tcp_clients : gmap string ConnectionManager.tcp_client)
    (target_ip target_alias : option string) (lines : option (list string))
    (write_fails_at : option nat) :
  DirectBridge.robot_writes
    (PidCommands.load_pid_config py_int py_float float_str str_exn m _tcp_clients
       target_ip target_alias lines write_fails_at) = []
  /\ forall (ip primary key : string) (writer : ConnectionManager.tcp_client)
       (pid_data_per_motor : PidConfig.pid_data),
       nonempty target_alias = None -> target_ip = Some ip -> ip <> "" ->
       dict_get ip (Registry.ip_to_alias m) = Some primary -> primary <> "" ->
       dict_get primary (Registry.alias_to_ip_port m) = Some key -> key <> "" ->
       ConnectionManager.get_tcp_client key _tcp_clients = Some writer ->
       fst (PidConfig.load_pid_config_from_file py_int py_float lines)
       = Some pid_data_per_motor ->
       PidCommands.load_pid_config py_int py_float float_str str_exn m _tcp_clients
         target_ip target_alias lines write_fails_at
       = [ WsSend [ ("type", JStr "error");
                    ("message", JStr ("Server error: " +:+ str_exn AttributeError)) ] ].
Proof.
  split.
  - unfold PidCommands.load_pid_config.
    destruct (nonempty (match nonempty target_alias with
                        | Some alias => _ | None => _ end)) as [ip|]; [|done].
    unfold PidCommands.load_pid_config_from_file.
    destruct (fst _) as [data|]; [|done].
    destruct (nonempty (match nonempty (dict_get ip _) with
                        | Some a => _ | None => _ end)) as [key|]; [|done].
    by destruct (ConnectionManager.get_tcp_client key _tcp_clients).
  - intros ip primary key writer data Halias -> Hip Hprim Hp Hkey Hk Hw Hload.
    unfold PidCommands.load_pid_config. rewrite Halias.
    rewrite (nonempty_value ip Hip). cbn [nonempty].
    apply String.eqb_neq in Hip as Hip'. rewrite Hip'.
    unfold PidCommands.load_pid_config_from_file.
    rewrite Hload, Hprim, (nonempty_value primary Hp), Hkey,
      (nonempty_value key Hk), Hw.
    reflexivity.
Qed.
End PidCommandFacts.

(** The fleet's [robot1] is connected and the file holds a record for
    motor 1: the command, addressed by IP, is answered by the error. *)
Lemma load_pid_config_never_writes_witness :
  PidCommands.load_pid_config PidExample.py_int PidExample.py_float
    Fleet.no_text Fleet.no_text Fleet.registry Fleet.sessions
    (Some "10.0.0.5") None (Some [ "1,0.5,0.25,0.125" +:+ newline ]) None
  = [ WsSend [ ("type", JStr "error");
               ("message", JStr ("Server error: " +:+ Fleet.no_text AttributeError)) ] ].
Proof.
  apply (proj2 (load_pid_config_never_writes PidExample.py_int PidExample.py_float
                  Fleet.no_text Fleet.no_text Fleet.registry Fleet.sessions
                  (Some "10.0.0.5") None
                  (Some [ "1,0.5,0.25,0.125" +:+ newline ]) None)
           "10.0.0.5" "robot1" "10.0.0.5:4000" 1
           [ (1%Z, PidConfig.mk_pid 0.5 0.25 0.125) ]);
    first [ discriminate | vm_compute; reflexivity ].
Defined.

(** ** The list of connected robots *)

Section RobotListFacts.
Import Registry DirectBridge.
Variable str_exn : exn -> string.

Lemma split_once_sep (sep : ascii) (a b : string) :
  is_Some (split_once sep (a +:+ String sep b)).
Proof.
  induction a as [|c a IH].
  - change ("" +:+ String sep b) with (String sep b). cbn [split_once].
    rewrite Ascii.eqb_refl. by eexists.
  - change (String c a +:+ String sep b) with (String c (a +:+ String sep b)).
    cbn [split_once]. destruct (Ascii.eqb c sep); [by eexists|].
    destruct IH as [[a' b'] ->]. by eexists.
Qed.

Lemma split_once_no_sep (sep : ascii) (a b : string) :
  split_once sep a = None ->
  split_once sep (a +:+ String sep b) = Some (a, b).
Proof.
  induction a as [|c a IH].
  - change ("" +:+ String sep b) with (String sep b). cbn [split_once].
    by rewrite Ascii.eqb_refl.
  - change (String c a +:+ String sep b) with (String c (a +:+ String sep b)).
    cbn [split_once]. destruct (Ascii.eqb c sep); [done|].
    destruct (split_once sep a) as [[a' b']|]; [done|].
    intros _. by rewrite IH.
Qed.

(** The loop of [get_available_robots] on keys that hold a colon. *)
Lemma connected_robots_entries (entries : list (string * string)) :
  (forall key alias, (key, alias) ∈ entries -> is_Some (split_once ":" key)) ->
  exists robots : list json,
    connected_robots entries = Ok robots
    /\ length robots = length entries
    /\ forall key alias ip rest,
         (key, alias) ∈ entries -> split_once ":" key = Some (ip, rest) ->
         robot_entry ip alias key ∈ robots.
Proof.
  induction entries as [|[key alias] entries IH]; intros Hkeys.
  - exists []. split; [done|]. split; [done|].
    intros key alias ip rest Hin. by apply elem_of_nil in Hin.
  - destruct IH as (robots & Hrobots & Hlen & Hin).
    { intros k a Hka. apply (Hkeys k a). apply elem_of_cons. by right. }
    destruct (Hkeys key alias) as [[ip rest] Hsplit]; [apply elem_of_cons; by left|].
    exists (robot_entry ip alias key :: robots). cbn [connected_robots].
    rewrite Hsplit, Hrobots. split; [done|]. split; [cbn [length]; by rewrite Hlen|].
    intros k a ip' rest' Hka Hsplit'. apply elem_of_cons in Hka as [[= -> ->]|Hka].
    + rewrite Hsplit in Hsplit'. injection Hsplit' as <- <-.
      apply elem_of_cons. by left.
    + apply elem_of_cons. right. by eapply Hin.
Qed.

Lemma register_lookup (ip : string) (port : nat) (m : robot_alias_manager) :
  dict_get (unique_key ip port)
    (ip_port_to_alias (fst (register ip port m)))
  = Some (snd (register ip port m)).
Proof.
  unfold register.
  destruct (dict_get (unique_key ip port) (ip_port_to_alias m)) as [a|] eqn:Hkey;
    cbn [fst snd ip_port_to_alias]; [done|].
  rewrite dict_get_set. by rewrite decide_True.
Qed.

(** X26: after any sequence of robot sessions, a robot that connects from an
    IPv4 address (one without a colon) is listed by
    [get_available_robots] with that address, its alias and its key, and
    the list has one entry per registered session. *)
Theorem get_available_robots_lists_robot (events : list event)
    (ip : string) (port : nat) (now : float) :
  is_substring ":" ip = false ->
  let m := fst (register ip port (run events)) in
  let alias := snd (register ip port (run events)) in
  exists robots : list json,
    get_available_robots str_exn m now
    = [ WsSend [ ("type", JStr "connected_robots_list");
                 ("robots", JArr robots); ("timestamp", JFloat now) ] ]
    /\ length robots = length (ip_port_to_alias m)
    /\ robot_entry ip alias (unique_key ip port) ∈ robots.
Proof.
  intros Hip m alias.
  assert (Hwf : well_formed m).
  { apply register_well_formed, run_well_formed. }
  destruct Hwf as (_ & _ & _ & _ & _ & Hnum).
  destruct (connected_robots_entries (ip_port_to_alias m))
    as (robots & Hrobots & Hlen & Hin).
  { intros key a Hka.
    destruct (dict_get_key_Some key (ip_port_to_alias m)) as [a' Hget].
    { apply list_elem_of_fmap. by exists (key, a). }
    apply Hnum in Hget as [_ (ip' & port' & ->)]. apply split_once_sep. }
  exists robots. unfold get_available_robots. rewrite Hrobots.
  split; [reflexivity|]. split; [exact Hlen|].
  apply (Hin (unique_key ip port) alias ip (pretty port)).
  - apply dict_get_elem_of. apply register_lookup.
  - apply split_once_no_sep. rewrite (is_substring_char ":") in Hip.
    apply bool_decide_eq_false in Hip.
    destruct (split_once ":" ip); [|done]. exfalso. apply Hip. by eexists.
Qed.
End RobotListFacts.

(** A third robot joins the fleet of two. *)
Lemma get_available_robots_lists_robot_witness :
  let events :=
    [ Registry.Connect "10.0.0.5" 4000; Registry.Connect "10.0.0.6" 4001 ] in
  let m := fst (Registry.register "10.0.0.7" 4002 (Registry.run events)) in
  let alias := snd (Registry.register "10.0.0.7" 4002 (Registry.run events)) in
  exists robots : list json,
    DirectBridge.get_available_robots Fleet.no_text m 0%float
    = [ WsSend [ ("type", JStr "connected_robots_list");
                 ("robots", JArr robots); ("timestamp", JFloat 0%float) ] ]
    /\ length robots = length (Registry.ip_port_to_alias m)
    /\ DirectBridge.robot_entry "10.0.0.7" alias
         (Registry.unique_key "10.0.0.7" 4002) ∈ robots.
Proof.
  apply (get_available_robots_lists_robot Fleet.no_text
           [ Registry.Connect "10.0.0.5" 4000; Registry.Connect "10.0.0.6" 4001 ]
           "10.0.0.7" 4002 0%float).
  reflexivity.
Defined.

(** ** Robot session: what a frame sets off *)

Section SessionFacts.
Import TrajectoryCalculator RobotSession.
Variable py_str : json -> string.
Variables libm_cos libm_sin : float -> float.
Variables robot_ip_address current_alias unique_robot_key : string.

Lemma stamped_envelope_addressed (now : float) (m e : pyobj) :
  transform_robot_message py_str now m = Ok e ->
  addressed robot_ip_address current_alias (dict_set "robot_alias" (JStr current_alias)
               (dict_set "robot_ip" (JStr robot_ip_address) e)).
Proof.
  intros He. apply transform_robot_message_shape in He as (t & Hcore & Hty).
  destruct Hcore as (_ & _ & _ & Htype).
  unfold addressed, py_get. rewrite !dict_get_set.
  rewrite decide_True by done. rewrite (decide_False (P := "robot_ip" = "robot_alias"))
    by done.
  rewrite decide_True by done.
  rewrite (decide_False (P := "type" = "robot_alias")) by done.
  rewrite (decide_False (P := "type" = "robot_ip")) by done.
  rewrite Htype. split; [done|]. split; [done|].
  destruct Hty as [->|[->|[->|[->|[->| ->]]]]]; by eexists.
Qed.

Lemma session_effects_addressed (message_from_robot : json) (clk : frame_clock)
    (st : session_state) :
  Forall (fun effect =>
            match effect with
            | Broadcast robot_alias_source payload =>
                robot_alias_source = current_alias
                /\ addressed robot_ip_address current_alias payload
            | LogData _ _ _ => True
            end)
    (snd (process_frame py_str libm_cos libm_sin robot_ip_address current_alias
            unique_robot_key message_from_robot clk st)).
Proof.
  assert (Htraj : forall r,
    Forall (fun effect =>
              match effect with
              | Broadcast robot_alias_source payload =>
                  robot_alias_source = current_alias
                /\ addressed robot_ip_address current_alias payload
              | LogData _ _ _ => True
              end)
      (broadcast_trajectory robot_ip_address current_alias clk r)).
  { intros [[t|]|e]; cbn [broadcast_trajectory]; [|apply Forall_nil_2..].
    apply Forall_singleton. split; [done|]. repeat split. by eexists. }
  unfold process_frame. destruct st as [latest robot_data].
  destruct message_from_robot as [| | | | | |m]; try apply Forall_nil_2.
  destruct (transform_robot_message py_str (at_transform clk) m) as [e|] eqn:He;
    [|apply Forall_nil_2].
  pose proof (stamped_envelope_addressed _ _ _ He) as Haddr.
  set (stamped := dict_set "robot_alias" _ _) in *.
  assert (Hrelayed :
    Forall (fun effect =>
              match effect with
              | Broadcast robot_alias_source payload =>
                  robot_alias_source = current_alias
                /\ addressed robot_ip_address current_alias payload
              | LogData _ _ _ => True
              end)
      [ LogData unique_robot_key (py_get_default "type" stamped (JStr "unknown_data"))
          stamped;
        Broadcast current_alias stamped ]).
  { apply Forall_cons. split; [done|]. by apply Forall_singleton. }
  repeat case_match; cbn [snd];
    repeat (apply Forall_app; split); try done; try apply Htraj;
    by apply Forall_singleton.
Qed.

(** X27: every frame the session hands to the router carries the address and
    the alias of the connection, whatever the robot wrote into its own
    [robot_ip] and [robot_alias] fields, and a string [type]: the router's
    entry check never rejects it. *)
Theorem session_broadcasts_pass_router_check (message_from_robot : json)
    (clk : frame_clock) (st : session_state)
    (robot_alias_source : string) (payload : pyobj) :
  Broadcast robot_alias_source payload
  ∈ snd (process_frame py_str libm_cos libm_sin robot_ip_address current_alias
           unique_robot_key message_from_robot clk st) ->
  robot_alias_source = current_alias
  /\ py_get "robot_alias" payload = JStr current_alias
  /\ py_get "robot_ip" payload = JStr robot_ip_address
  /\ (exists t : string, dict_get "type" payload = Some (JStr t))
  /\ negb (dict_has "type" payload)
     || negb (py_eq_str (py_get "robot_alias" payload) robot_alias_source) = false.
Proof.
  intros Hin.
  pose proof (session_effects_addressed message_from_robot clk st) as Hall.
  rewrite Forall_forall in Hall. apply Hall in Hin as (-> & Ha & Hi & t & Ht).
  repeat (split; [done || by eexists|]).
  unfold dict_has. rewrite Ht, Ha. cbn [negb orb py_eq_str].
  by rewrite String.eqb_refl.
Qed.

(** [_try_calculate_trajectory] does not touch the stored frames and
    their arrival times. *)
Lemma try_calculate_keeps_data (current_time : float) (st : robot_state) :
  let st' := fst (_try_calculate_trajectory libm_cos libm_sin current_time st) in
  latest_imu_data st' = latest_imu_data st
  /\ last_imu_timestamp st' = last_imu_timestamp st.
Proof.
  cbn zeta. unfold _try_calculate_trajectory. by repeat case_match.
Qed.

(** The envelope of an encoder frame, stamped by the session. *)
Lemma encoder_envelope (now : float) (m : pyobj) (rpms : list json) :
  py_get "type" m = JStr "encoder" ->
  dict_get "data" m = Some (JArr rpms) ->
  exists e : pyobj,
    transform_robot_message py_str now m = Ok e
    /\ let stamped :=
         dict_set "robot_alias" (JStr current_alias)
           (dict_set "robot_ip" (JStr robot_ip_address) e) in
       py_get "type" stamped = JStr "encoder_data"
       /\ py_get "data" stamped = JArr rpms
       /\ py_get "timestamp" stamped = py_get_default "timestamp" m (JFloat now).
Proof.
  intros Hty Hdata. unfold transform_robot_message.
  assert (Hd : py_get "data" m = JArr rpms) by (unfold py_get; by rewrite Hdata).
  unfold dict_has. rewrite Hty, Hdata, Hd.
  cbn [py_eq_str String.eqb Ascii.eqb Bool.eqb andb is_list].
  eexists. split; [reflexivity|]. unfold set_reported_id.
  destruct (truthy (py_get "id" m)); by repeat split.
Qed.

(** X28: when an encoder frame is handled, the session first feeds the stored
    IMU envelope to the calculator again: the arrival time of the IMU data
    becomes the time of this encoder frame.  The age test on the IMU data
    therefore measures the time since the encoder frame was handled, not
    since an IMU frame arrived. *)
Theorem encoder_frame_refreshes_imu_time (m latest_imu : pyobj)
    (rpm_1 rpm_2 rpm_3 yaw : json) (more : list json) (clk : frame_clock)
    (_latest_imu_data : gmap string pyobj) (robot_data : gmap string robot_state) :
  py_get "type" m = JStr "encoder" ->
  dict_get "data" m = Some (JArr (rpm_1 :: rpm_2 :: rpm_3 :: more)) ->
  dict_get "timestamp" m <> Some JNull ->
  _latest_imu_data !! unique_robot_key = Some latest_imu ->
  imu_yaw latest_imu JNull = Ok yaw ->
  let st' :=
    fst (process_frame py_str libm_cos libm_sin robot_ip_address current_alias
           unique_robot_key (JObj m) clk (_latest_imu_data, robot_data)) in
  last_imu_timestamp (get_state unique_robot_key (snd st'))
  = Some (at_imu_update clk)
  /\ latest_imu_data (get_state unique_robot_key (snd st')) = Some latest_imu.
Proof.
  intros Hty Hdata Hts Hlatest Hyaw. cbn zeta.
  destruct (encoder_envelope (at_transform clk) m _ Hty Hdata)
    as (e & He & Htype & Hd & Htime).
  cbn zeta in Htype, Hd, Htime.
  unfold process_frame. rewrite He, Htype, Hd, Htime, Hlatest.
  cbn [py_eq_str String.eqb Ascii.eqb Bool.eqb].
  assert (Hrefresh :
    let rd := fst (update_imu_data libm_cos libm_sin unique_robot_key latest_imu
                     (at_imu_update clk) (at_imu_calc clk) robot_data) in
    last_imu_timestamp (get_state unique_robot_key rd) = Some (at_imu_update clk)
    /\ latest_imu_data (get_state unique_robot_key rd) = Some latest_imu).
  { cbn zeta. rewrite update_imu_data_state, decide_True, Hyaw by done. cbn zeta.
    destruct (try_calculate_keeps_data (at_imu_calc clk)
                (set_latest_imu latest_imu (at_imu_update clk)
                   match yaw with
                   | JNull => get_state unique_robot_key robot_data
                   | _ => set_theta yaw (get_state unique_robot_key robot_data)
                   end)) as [-> ->].
    done. }
  cbn zeta in Hrefresh.
  destruct (update_imu_data libm_cos libm_sin unique_robot_key latest_imu
              (at_imu_update clk) (at_imu_calc clk) robot_data)
    as [rd1 refreshed]. cbn [fst] in Hrefresh.
  assert (Hencoder :
    let rd := fst (update_encoder_data libm_cos libm_sin unique_robot_key m
                     (at_encoder_update clk) (at_encoder_calc clk) rd1) in
    last_imu_timestamp (get_state unique_robot_key rd) = Some (at_imu_update clk)
    /\ latest_imu_data (get_state unique_robot_key rd) = Some latest_imu).
  { cbn zeta. rewrite update_encoder_data_state, decide_True by done.
    destruct (try_calculate_keeps_data (at_encoder_calc clk)
                (set_latest_encoder m (at_encoder_update clk)
                   (get_state unique_robot_key rd1))) as [-> ->].
    exact Hrefresh. }
  cbn zeta in Hencoder.
  destruct (update_encoder_data libm_cos libm_sin unique_robot_key m
              (at_encoder_update clk) (at_encoder_calc clk) rd1)
    as [rd2 trajectory_result]. cbn [fst] in Hencoder.
  unfold py_get_default in *.
  destruct (dict_get "timestamp" m) as [ts|]; [|by destruct refreshed].
  destruct ts; try done; by destruct refreshed.
Qed.
End SessionFacts.

(** ** Log sink *)

Section LoggerFacts.
Import DataLogger.
Variable os_path_join : string -> string -> string.
Variables log_directory session_start_time : string.
Variable open_ok : string -> bool.
Variable py_str : json -> string.
Variable json_dumps : json -> string.
Variable format_fixed : nat -> json -> result string.

Lemma append_empty_r (s : string) : s +:+ "" = s.
Proof.
  induction s as [|c s IH]; [done|].
  change (String c s +:+ "") with (String c (s +:+ "")). by rewrite IH.
Qed.

Lemma append_assoc (a b c : string) : (a +:+ b) +:+ c = a +:+ b +:+ c.
Proof.
  induction a as [|ch a IH]; [done|].
  change (String ch (a +:+ b) +:+ c = String ch (a +:+ b +:+ c)).
  change (String ch ((a +:+ b) +:+ c) = String ch (a +:+ b +:+ c)).
  by rewrite IH.
Qed.

Lemma append_empty (a b : string) : a +:+ b = "" -> a = "" /\ b = "".
Proof. destruct a; [done|discriminate]. Qed.

Lemma lines_snoc (lines : list string) (line : string) :
  fold_right String.append "" (lines ++ [ line ])
  = fold_right String.append "" lines +:+ line.
Proof.
  induction lines as [|l lines IH]; cbn [app fold_right].
  - by rewrite append_empty_r.
  - by rewrite IH, append_assoc.
Qed.

(** The log of one robot and one data type, after any calls: the file
    exists once a message has been logged, and then holds the header
    followed by the lines written; the open handle, if there is one, is
    this file. *)
Lemma run_log_calls_state (unique_robot_key data_type : string) (lg : logger)
    (calls : list log_call) :
  let name :=
    log_filename os_path_join log_directory session_start_time unique_robot_key
      data_type in
  open_ok name = true ->
  default ∅ (log_files lg !! unique_robot_key) !! data_type = None ->
  log_content lg !! name = None ->
  let lg' :=
    fold_left (run_log_call os_path_join log_directory session_start_time open_ok
                 py_str json_dumps format_fixed unique_robot_key data_type)
      calls lg in
  let handle := default ∅ (log_files lg' !! unique_robot_key) !! data_type in
  log_content lg' !! name
  = (if existsb is_log calls
     then Some (header data_type
                +:+ fold_right String.append ""
                      (map (written py_str json_dumps format_fixed data_type) calls))
     else None)
  /\ (handle = None \/ (handle = Some name /\ existsb is_log calls = true)).
Proof.
  intros name Hopen Hclosed Hnew. cbn zeta.
  induction calls as [|c calls IH] using rev_ind.
  - cbn [fold_left existsb]. split; [done|by left].
  - rewrite fold_left_app, existsb_app, map_app. cbn [fold_left map].
    rewrite lines_snoc.
    destruct IH as [Hcontent Hhandle].
    set (lg1 := fold_left _ calls lg) in *.
    set (w := fold_right String.append "" _) in *.
    destruct c as [message_dict now|]; cbn [run_log_call existsb is_log written].
    + rewrite orb_true_r. unfold log_data, get_log_file. fold name.
      destruct Hhandle as [Hh|[Hh Hstarted]]; rewrite Hh.
      * rewrite Hopen.
        set (text := if String.eqb (default "" (log_content lg1 !! name)) ""
                     then header data_type
                     else default "" (log_content lg1 !! name)).
        assert (Htext : text = header data_type +:+ w).
        { subst text. rewrite Hcontent.
          destruct (existsb is_log calls) eqn:Hany; cbn [default from_option id].
          - destruct (String.eqb_spec (header data_type +:+ w) "") as [He|]; [|done].
            rewrite He. by apply append_empty in He as [-> _].
          - cbn [String.eqb]. subst w.
            assert (map (written py_str json_dumps format_fixed data_type) calls
                    = map (fun _ => "") calls) as ->.
            { apply map_ext_in. intros [? ?|] Hin; [|done].
              exfalso. apply not_true_iff_false in Hany. apply Hany.
              apply existsb_exists. eexists. split; [exact Hin|done]. }
            clear. induction calls as [|? ? IHc]; cbn [map fold_right];
              [by rewrite append_empty_r|exact IHc]. }
        destruct (log_line _ _ _ _ _ _) as [line|e]; unfold append_line;
          cbn [log_content log_files]; rewrite !lookup_insert_eq;
          cbn [default from_option id]; rewrite !lookup_insert_eq, ?Htext.
        -- rewrite append_assoc. split; [done|]. by right.
        -- rewrite append_empty_r. split; [done|]. by right.
      * destruct (log_line _ _ _ _ _ _) as [line|e]; unfold append_line;
          cbn [log_content log_files].
        -- rewrite Hcontent, Hstarted, lookup_insert_eq.
           cbn [default from_option id]. rewrite append_assoc.
           split; [done|]. right. by rewrite Hh.
        -- rewrite Hcontent, Hstarted, append_empty_r.
           split; [done|]. right. by rewrite Hh.
    + rewrite orb_false_r, append_empty_r. unfold close_logs.
      split.
      * by destruct (nonempty (Some unique_robot_key)).
      * left. destruct (nonempty (Some unique_robot_key)) as [k|] eqn:Hk;
          cbn [log_files].
        -- apply nonempty_Some in Hk as [[= <-] _]. by rewrite lookup_delete_eq.
        -- by rewrite lookup_empty.
Qed.
End LoggerFacts.

Section LoggerTheorems.
Import DataLogger.
Variable os_path_join : string -> string -> string.
Variables log_directory session_start_time : string.
Variable open_ok : string -> bool.
Variable py_str : json -> string.
Variable json_dumps : json -> string.
Variable format_fixed : nat -> json -> result string.

(** X29: the log file of a robot and a data type holds the header of the type
    once, at the top, and after it the lines of the messages in the order
    they were logged, also when the robot's logs are closed and opened
    again in between; a message whose line cannot be built leaves no
    trace. *)
Theorem log_file_is_header_then_lines (unique_robot_key data_type : string)
    (lg : logger) (calls : list log_call) :
  let name :=
    log_filename os_path_join log_directory session_start_time unique_robot_key
      data_type in
  open_ok name = true ->
  default ∅ (log_files lg !! unique_robot_key) !! data_type = None ->
  log_content lg !! name = None ->
  existsb is_log calls = true ->
  log_content
    (fold_left (run_log_call os_path_join log_directory session_start_time open_ok
                  py_str json_dumps format_fixed unique_robot_key data_type)
       calls lg) !! name
  = Some (header data_type
          +:+ fold_right String.append ""
                (map (written py_str json_dumps format_fixed data_type) calls)).
Proof.
  intros name Hopen Hclosed Hnew Hany.
  destruct (run_log_calls_state os_path_join log_directory session_start_time
              open_ok py_str json_dumps format_fixed unique_robot_key data_type
              lg calls Hopen Hclosed Hnew) as [Hcontent _].
  by rewrite Hany in Hcontent.
Qed.
End LoggerTheorems.

Section SessionLogFacts.
Import TrajectoryCalculator RobotSession.
Variable py_str : json -> string.
Variable json_dumps : json -> string.
Variable format_fixed : nat -> json -> result string.
Variables libm_cos libm_sin : float -> float.
Variables robot_ip_address current_alias unique_robot_key : string.

(** X30: for every encoder frame the session logs two messages under
    [encoder_data]: first the envelope, which has no [rpm_1], [rpm_2],
    [rpm_3], so that its line shows three zeros whatever the wheels did;
    then the payload that carries the three values. *)
Theorem encoder_frame_logs_zero_line (m : pyobj) (rpm_1 rpm_2 rpm_3 : json)
    (more : list json) (clk : frame_clock) (st : session_state) (now : float) :
  py_get "type" m = JStr "encoder" ->
  dict_get "data" m = Some (JArr (rpm_1 :: rpm_2 :: rpm_3 :: more)) ->
  dict_get "timestamp" m <> Some JNull ->
  let message_timestamp :=
    py_get_default "timestamp" m (JFloat (at_transform clk)) in
  let zero := py_format py_str (JInt 0) in
  exists (envelope log_payload_encoder : pyobj) (rest : list session_effect),
    snd (process_frame py_str libm_cos libm_sin robot_ip_address current_alias
           unique_robot_key (JObj m) clk st)
    = LogData unique_robot_key (JStr "encoder_data") envelope
      :: Broadcast current_alias envelope
      :: LogData unique_robot_key (JStr "encoder_data") log_payload_encoder
      :: rest
    /\ DataLogger.log_line py_str json_dumps format_fixed "encoder_data"
         envelope now
       = (ts ← format_fixed 3 message_timestamp;
          Ok (ts +:+ " " +:+ zero +:+ " " +:+ zero +:+ " " +:+ zero +:+ newline))
    /\ DataLogger.log_line py_str json_dumps format_fixed "encoder_data"
         log_payload_encoder now
       = (ts ← format_fixed 3 message_timestamp;
          Ok (ts +:+ " " +:+ py_format py_str rpm_1
              +:+ " " +:+ py_format py_str rpm_2
              +:+ " " +:+ py_format py_str rpm_3 +:+ newline)).
Proof.
  intros Hty Hdata Hts message_timestamp zero.
  assert (Hd : py_get "data" m = JArr (rpm_1 :: rpm_2 :: rpm_3 :: more))
    by (unfold py_get; by rewrite Hdata).
  destruct st as [latest robot_data]. unfold process_frame.
  unfold transform_robot_message, dict_has. rewrite Hty, Hdata, Hd.
  cbn [py_eq_str String.eqb Ascii.eqb Bool.eqb andb is_list].
  fold message_timestamp.
  assert (Hnonnull : message_timestamp <> JNull).
  { subst message_timestamp. unfold py_get_default.
    destruct (dict_get "timestamp" m) as [ts|]; [|done]. congruence. }
  unfold set_reported_id.
  destruct (truthy (py_get "id" m));
    cbn [dict_set decide_rel py_get py_get_default dict_get py_eq_str];
    simpl;
    (destruct message_timestamp eqn:Hmt; [done|..]);
    destruct (latest !! unique_robot_key) as [latest_imu|];
    repeat match goal with
           | |- context [update_imu_data ?a ?b ?c ?d ?e ?f ?g] =>
               destruct (update_imu_data a b c d e f g) as [? [?|?]]
           | |- context [update_encoder_data ?a ?b ?c ?d ?e ?f ?g] =>
               destruct (update_encoder_data a b c d e f g) as [? ?]
           end;
    cbn [snd app];
    eexists _, _, _; (split; [reflexivity|]); split; reflexivity.
Qed.
End SessionLogFacts.

(** The [data] of an [imu_data] envelope is a dict: the last case of the
    IMU branch of [process_frame] is not reached. *)
Lemma imu_envelope_carries_dict (py_str : json -> string) (now : float)
    (m e : pyobj) :
  transform_robot_message py_str now m = Ok e ->
  py_get "type" e = JStr "imu_data" ->
  exists d : pyobj, py_get "data" e = JObj d.
Proof.
  unfold transform_robot_message.
  destruct (if py_eq_str (py_get "type" m) "bno055" then _ else _) as [c|].
  { intros [= <-] _. by eexists. }
  destruct (_ && _ && _).
  { intros [= <-]. unfold set_reported_id. by destruct (truthy _). }
  destruct (py_eq_str (py_get "type" m) "log").
  { intros [= <-]. unfold set_reported_id. by destruct (truthy _). }
  destruct (_ && _).
  { destruct (dict_has "robot_id" m); [by intros [= <-]|].
    destruct (truthy (py_get "id" m)); [|by intros [= <-]].
    destruct (py_in_str _ _) as [found|]; simpl; [|done].
    by destruct (negb found); intros [= <-]. }
  by destruct (truthy (py_get "type" m)); intros [= <-].
Qed.

(** The robot at [10.0.0.5:4000], [robot1], sends an encoder frame that
    names another robot; the frame that reaches the router names
    [robot1]. *)
Lemma session_broadcasts_pass_router_check_witness :
  let payload : pyobj :=
    [ ("robot_ip", JStr "10.0.0.5"); ("robot_alias", JStr "robot1");
      ("timestamp", JFloat 100%float); ("type", JStr "encoder_data");
      ("data", JArr [ JInt 60; JInt 60; JInt 60 ]) ] in
  "robot1" = "robot1"
  /\ py_get "robot_alias" payload = JStr "robot1"
  /\ py_get "robot_ip" payload = JStr "10.0.0.5"
  /\ (exists t : string, dict_get "type" payload = Some (JStr t))
  /\ negb (dict_has "type" payload)
     || negb (py_eq_str (py_get "robot_alias" payload) "robot1") = false.
Proof.
  apply (session_broadcasts_pass_router_check Fleet.no_text
           Fleet.taylor_cos Fleet.taylor_sin "10.0.0.5" "robot1" "10.0.0.5:4000"
           (JObj [ ("type", JStr "encoder"); ("timestamp", JFloat 100%float);
                   ("data", JArr [ JInt 60; JInt 60; JInt 60 ]);
                   ("robot_alias", JStr "robot2") ])
           (RobotSession.mk_clock 1000 1000 1000 1000 1000 1000) (∅, ∅)).
  apply elem_of_cons. right. apply elem_of_cons. left. reflexivity.
Defined.

(** An IMU envelope stored at some earlier time, then an encoder frame
    handled at time 2000. *)
Lemma encoder_frame_refreshes_imu_time_witness :
  let envelope : pyobj :=
    [ ("robot_ip", JStr "10.0.0.5"); ("robot_alias", JStr "robot1");
      ("timestamp", JFloat 1%float); ("type", JStr "imu_data");
      ("data", JObj [ ("time", JNull); ("euler", JNull); ("quaternion", JNull) ]) ] in
  let st' :=
    fst (RobotSession.process_frame Fleet.no_text Fleet.taylor_cos Fleet.taylor_sin
           "10.0.0.5" "robot1" "10.0.0.5:4000"
           (JObj [ ("type", JStr "encoder");
                   ("data", JArr [ JInt 60; JInt 60; JInt 60 ]) ])
           (RobotSession.mk_clock 2000 2000 2000 2000 2000 2000)
           ({[ "10.0.0.5:4000" := envelope ]}, ∅)) in
  TrajectoryCalculator.last_imu_timestamp
    (TrajectoryCalculator.get_state "10.0.0.5:4000" (snd st')) = Some 2000%float
  /\ TrajectoryCalculator.latest_imu_data
       (TrajectoryCalculator.get_state "10.0.0.5:4000" (snd st')) = Some envelope.
Proof.
  apply (encoder_frame_refreshes_imu_time Fleet.no_text Fleet.taylor_cos
           Fleet.taylor_sin "10.0.0.5" "robot1" "10.0.0.5:4000"
           [ ("type", JStr "encoder"); ("data", JArr [ JInt 60; JInt 60; JInt 60 ]) ]
           _ (JInt 60) (JInt 60) (JInt 60) JNull []
           (RobotSession.mk_clock 2000 2000 2000 2000 2000 2000));
    first [ reflexivity | discriminate | apply lookup_singleton_eq ].
Defined.

(** The log of [robot1], type [log]: a message, a close, a message; the
    stand-in for the [.3f] format prints every time as [1.000]. *)
Lemma log_file_is_header_then_lines_witness :
  let message : pyobj := [ ("timestamp", JFloat 1%float); ("message", JStr "boot") ] in
  DataLogger.log_content
    (fold_left
       (DataLogger.run_log_call Fleet.path_join "logs" "s" (fun _ => true)
          Fleet.no_text Fleet.no_text (fun _ _ => Ok "1.000")
          "10.0.0.5:4000" "log")
       [ DataLogger.Log message 0%float; DataLogger.Close;
         DataLogger.Log message 0%float ]
       (DataLogger.mk_logger ∅ ∅))
  !! "logs/log_10_0_0_5_4000_s.txt"
  = Some ("Time Message" +:+ newline +:+ "1.000 boot" +:+ newline
          +:+ "1.000 boot" +:+ newline).
Proof.
  apply (log_file_is_header_then_lines Fleet.path_join "logs" "s" (fun _ => true)
           Fleet.no_text Fleet.no_text (fun _ _ => Ok "1.000")
           "10.0.0.5:4000" "log" (DataLogger.mk_logger ∅ ∅)
           [ DataLogger.Log
               [ ("timestamp", JFloat 1%float); ("message", JStr "boot") ] 0%float;
             DataLogger.Close;
             DataLogger.Log
               [ ("timestamp", JFloat 1%float); ("message", JStr "boot") ] 0%float ]);
    reflexivity.
Defined.

(** An encoder frame of [robot1] with 60 rpm on each wheel. *)
Lemma encoder_frame_logs_zero_line_witness :
  let m : pyobj :=
    [ ("type", JStr "encoder"); ("timestamp", JFloat 100%float);
      ("data", JArr [ JInt 60; JInt 60; JInt 60 ]) ] in
  let print := fun v : json => match v with JInt 0 => "0" | _ => "60" end in
  exists (envelope log_payload_encoder : pyobj)
         (rest : list RobotSession.session_effect),
    snd (RobotSession.process_frame print Fleet.taylor_cos Fleet.taylor_sin
           "10.0.0.5" "robot1" "10.0.0.5:4000" (JObj m)
           (RobotSession.mk_clock 1000 1000 1000 1000 1000 1000) (∅, ∅))
    = RobotSession.LogData "10.0.0.5:4000" (JStr "encoder_data") envelope
      :: RobotSession.Broadcast "robot1" envelope
      :: RobotSession.LogData "10.0.0.5:4000" (JStr "encoder_data")
           log_payload_encoder
      :: rest
    /\ DataLogger.log_line print Fleet.no_text (fun _ _ => Ok "100.000")
         "encoder_data" envelope 0%float
       = Ok ("100.000 0 0 0" +:+ newline)
    /\ DataLogger.log_line print Fleet.no_text (fun _ _ => Ok "100.000")
         "encoder_data" log_payload_encoder 0%float
       = Ok ("100.000 60 60 60" +:+ newline).
Proof.
  exact (encoder_frame_logs_zero_line
           (fun v : json => match v with JInt 0 => "0" | _ => "60" end)
           Fleet.no_text (fun _ _ => Ok "100.000") Fleet.taylor_cos Fleet.taylor_sin
           "10.0.0.5" "robot1" "10.0.0.5:4000"
           [ ("type", JStr "encoder"); ("timestamp", JFloat 100%float);
             ("data", JArr [ JInt 60; JInt 60; JInt 60 ]) ]
           (JInt 60) (JInt 60) (JInt 60) []
           (RobotSession.mk_clock 1000 1000 1000 1000 1000 1000) (∅, ∅) 0%float
           eq_refl eq_refl ltac:(discriminate)).
Defined.
